(** * slab: filters, filter banks and their application to signals

    A shallow embedding of [slab/signals.py] (class [Signal]) and
    [slab/filter.py] (class [Filter]).

    Conventions of the embedding:
    - float64 samples are idealised as real numbers ([R]); Python
      exceptions are values of [exn], and every function that can raise
      returns a [result];
    - a 2-D numpy array of shape (N, F) is kept as its F columns, each of
      length N, together with N itself (numpy keeps N also when F = 0);
      columns are what the code works with (channels, filters);
    - numpy and scipy functions are modelled after their documentation:
      the rank they require of an argument, the length of what they return
      and numpy's rule for assigning into a column are explicit, because
      the behaviour of [Filter.apply] depends on them;
    - the process-wide values [have_scipy] and [_default_samplerate] are
      read from an explicit environment [env]; the file system used by
      [save] and [load] is an explicit [store]. *)

From Stdlib Require Import String List ZArith Reals Lra Lia Bool Arith DecimalString.
Import ListNotations.

Local Open Scope R_scope.

(** ** Python exceptions and the error monad *)

Inductive exn : Type :=
| ValueError (msg : string)
| TypeError (msg : string)
| IndexError (msg : string)
| ImportError (msg : string)
| OverflowError (msg : string)
| UnboundLocalError (var : string)
| FileNotFoundError (path : string)
| NameError (name : string)
| ZeroDivisionError.

Inductive result (A : Type) : Type :=
| Ok (a : A)
| Raise (e : exn).

Arguments Ok {A} a.
Arguments Raise {A} e.

Definition bind {A B : Type} (c : result A) (k : A -> result B) : result B :=
  match c with
  | Ok a => k a
  | Raise e => Raise e
  end.

Notation "x <- c ;; k" := (bind c (fun x => k))
  (at level 61, c at next level, right associativity).

Definition raises {A : Type} (c : result A) : Prop := exists e, c = Raise e.

(** [for i in l: s = body(i, s)], stopping at the first exception. *)
Fixpoint for_each {S : Type} (l : list nat) (body : nat -> S -> result S) (s : S)
  : result S :=
  match l with
  | [] => Ok s
  | i :: l' => s' <- body i s ;; for_each l' body s'
  end.

Definition for_range {S : Type} (n : nat) (body : nat -> S -> result S) (s : S)
  : result S :=
  for_each (seq 0 n) body s.

(** ** Python scalars *)

Definition Reqb (a b : R) : bool := if Req_dec_T a b then true else false.
Definition Rltb (a b : R) : bool := if Rlt_dec a b then true else false.

(** [a / b] on Python numbers. *)
Definition py_div (a b : R) : result R :=
  if Reqb b 0 then Raise ZeroDivisionError else Ok (a / b).

(** Largest integer below or at [x]. *)
Definition Rfloor (x : R) : Z := (up x - 1)%Z.

(** [round(x)] with one argument, and [numpy.round]: to the nearest integer,
    a tie going to the even neighbour. *)
Definition py_round (x : R) : Z :=
  let f := Rfloor x in
  let d := x - IZR f in
  if Rltb d (1 / 2) then f
  else if Rltb (1 / 2) d then (f + 1)%Z
  else if Z.even f then f else (f + 1)%Z.

(** The half-open index range [lo, hi) selected by the slice
    [start:stop] on a sequence of [len] items (step 1). *)
Definition slice_bound (len : nat) (dflt : Z) (b : option Z) : nat :=
  match b with
  | None => Z.to_nat dflt
  | Some k =>
      if (k <? 0)%Z then Z.to_nat (Z.max 0 (Z.of_nat len + k))
      else Z.to_nat (Z.min k (Z.of_nat len))
  end.

Definition Rsum (l : list R) : R := fold_right Rplus 0 l.

(** [str(n)] for an integer that is not negative. *)
Definition str (n : nat) : string := NilEmpty.string_of_uint (Nat.to_uint n).

(** ** The environment of the process and the file system *)

Record env : Type := mk_env {
  have_scipy : bool;
  _default_samplerate : R
}.

(** ** numpy *)

Module numpy.

(** Complex numbers as pairs (real part, imaginary part). *)
Definition C : Type := (R * R)%type.

Record array2 (A : Type) : Type := mk2 {
  shape0 : nat;
  cols : list (list A)
}.
Arguments mk2 {A} shape0 cols.
Arguments shape0 {A} a.
Arguments cols {A} a.

Definition shape1 {A : Type} (a : array2 A) : nat := length (cols a).

Definition wf {A : Type} (a : array2 A) : Prop :=
  Forall (fun c => length c = shape0 a) (cols a).

(** A float array of rank 1 or rank 2. *)
Inductive ndarray : Type :=
| Arr1 (v : list R)
| Arr2 (a : array2 R).

Definition zeros (n f : nat) : array2 R := mk2 n (repeat (repeat 0 n) f).

(** [numpy.empty]: the contents are unspecified; the callers overwrite
    every column before they return the array. *)
Definition empty (n f : nat) : array2 R := zeros n f.

(** [a.T] *)
Definition transpose {A : Type} (d : A) (a : array2 A) : array2 A :=
  mk2 (shape1 a)
      (map (fun i => map (fun c => nth i c d) (cols a)) (seq 0 (shape0 a))).

(** [a[:, j]] for [0 <= j]. *)
Definition column {A : Type} (a : array2 A) (j : nat) : result (list A) :=
  match nth_error (cols a) j with
  | Some c => Ok c
  | None => Raise (IndexError "index is out of bounds for axis 1")
  end.

(** [a.flatten()]: row after row. *)
Definition flatten {A : Type} (d : A) (a : array2 A) : list A :=
  flat_map (fun i => map (fun c => nth i c d) (cols a)) (seq 0 (shape0 a)).

(** Broadcasting of a rank-1 value to [n] items. *)
Definition broadcast_to {A : Type} (n : nat) (v : list A) : result (list A) :=
  if length v =? n then Ok v
  else match v with
       | [x] => Ok (repeat x n)
       | _ => Raise (ValueError "could not broadcast input array")
       end.

Fixpoint update {A : Type} (j : nat) (v : A) (l : list A) : list A :=
  match l, j with
  | [], _ => []
  | _ :: l', O => v :: l'
  | x :: l', S j' => x :: update j' v l'
  end.

(** [a[:, j] = v] *)
Definition set_col {A : Type} (a : array2 A) (j : nat) (v : list A)
  : result (array2 A) :=
  if j <? shape1 a then
    v' <- broadcast_to (shape0 a) v ;;
    Ok (mk2 (shape0 a) (update j v' (cols a)))
  else Raise (IndexError "index is out of bounds for axis 1").

(** [numpy.tile(x, reps=n)] for a scalar [x]. *)
Definition tile (x : R) (reps : nat) : list R := repeat x reps.

(** [v[numpy.newaxis, :]] *)
Definition newaxis_row (v : list R) : array2 R :=
  mk2 1 (map (fun x => [x]) v).

Fixpoint zip_app {A : Type} (a b : list (list A)) : list (list A) :=
  match a, b with
  | x :: a', y :: b' => (x ++ y) :: zip_app a' b'
  | _, _ => []
  end.

(** [numpy.concatenate] along axis 0. *)
Fixpoint concatenate (l : list (array2 R)) : result (array2 R) :=
  match l with
  | [] => Raise (ValueError "need at least one array to concatenate")
  | [a] => Ok a
  | a :: l' =>
      b <- concatenate l' ;;
      if shape1 a =? shape1 b
      then Ok (mk2 (shape0 a + shape0 b) (zip_app (cols a) (cols b)))
      else Raise (ValueError "all the input array dimensions except for the concatenation axis must match exactly")
  end.

(** [a[k:, :]] for [0 <= k]. *)
Definition rows_from (k : nat) (a : array2 R) : array2 R :=
  mk2 (shape0 a - k) (map (skipn k) (cols a)).

(** [a[:k, :]] for [0 <= k]. *)
Definition rows_upto (k : nat) (a : array2 R) : array2 R :=
  mk2 (Nat.min k (shape0 a)) (map (firstn k) (cols a)).

(** [a[i][j]] for [0 <= i, j]. *)
Definition item (a : array2 R) (i j : nat) : result R :=
  if i <? shape0 a then
    match nth_error (cols a) j with
    | Some c => Ok (nth i c 0)
    | None => Raise (IndexError "index is out of bounds for axis 0")
    end
  else Raise (IndexError "index is out of bounds for axis 0").

(** [l[start:stop]] *)
Definition py_slice {A : Type} (l : list A) (start stop : option Z) : list A :=
  let lo := slice_bound (length l) 0 start in
  let hi := slice_bound (length l) (Z.of_nat (length l)) stop in
  firstn (hi - lo) (skipn lo l).

(** [v[start:stop] = x] for a scalar [x]. *)
Definition slice_assign (v : list R) (start stop : option Z) (x : R) : list R :=
  let lo := slice_bound (length v) 0 start in
  let hi := slice_bound (length v) (Z.of_nat (length v)) stop in
  map (fun i => if (lo <=? i) && (i <? hi) then x else nth i v 0)
      (seq 0 (length v)).

(** [numpy.zeros((n, f))] with Python integers. *)
Definition zeros_int (n : nat) (f : Z) : result (array2 R) :=
  if (f <? 0)%Z then Raise (ValueError "negative dimensions are not allowed")
  else Ok (zeros n (Z.to_nat f)).

(** [numpy.linspace(start, stop, num, retstep=True)]. For [num <= 1]
    numpy returns a step that is not a number; it is kept as the value
    of the division here and is never used by the caller for such
    [num], which fails when it allocates the filter matrix. *)
Definition linspace (start stop : R) (num : Z) : result (list R * R) :=
  if (num <? 0)%Z then Raise (ValueError "Number of samples must be non-negative.")
  else
    let n := Z.to_nat num in
    let step := (stop - start) / INR (n - 1) in
    Ok (map (fun i => if (i =? n - 1)%nat && (1 <? n)%nat then stop
                      else start + INR i * step)
            (seq 0 n),
        step).

(** [numpy.fft.rfftfreq(n, d)] *)
Definition rfftfreq (n : Z) (d : R) : result (list R) :=
  val <- py_div 1 (IZR n * d) ;;
  Ok (map (fun k => INR k * val) (seq 0 (Z.to_nat (n / 2 + 1)))).

Definition no_fft_points : string :=
  "Invalid number of FFT data points (0) specified.".

(** The real discrete Fourier transform of [n] samples: bins 0 to n/2. *)
Definition rfft1 (n : nat) (x : list R) : list C :=
  map (fun k =>
         (Rsum (map (fun j => nth j x 0 * cos (2 * PI * INR k * INR j / INR n))
                    (seq 0 n)),
          - Rsum (map (fun j => nth j x 0 * sin (2 * PI * INR k * INR j / INR n))
                      (seq 0 n))))
      (seq 0 (n / 2 + 1)).

(** [numpy.fft.rfft(a, axis=0)] *)
Definition fft_rfft (a : array2 R) : result (array2 C) :=
  if shape0 a =? 0 then Raise (ValueError no_fft_points)
  else Ok (mk2 (shape0 a / 2 + 1) (map (rfft1 (shape0 a)) (cols a))).

(** The inverse of [rfft1] for an output of [n] real samples. *)
Definition irfft1 (n : nat) (X : list C) : list R :=
  let m := length X in
  map (fun j =>
         / INR n *
         (fst (nth 0 X (0, 0))
          + Rsum (map (fun k =>
                         2 * (fst (nth k X (0, 0)) * cos (2 * PI * INR k * INR j / INR n)
                              - snd (nth k X (0, 0)) * sin (2 * PI * INR k * INR j / INR n)))
                      (seq 1 (m - 2)))
          + fst (nth (m - 1) X (0, 0)) * cos (PI * INR j)))
      (seq 0 n).

(** [numpy.fft.irfft(X)]: without [n], the output has [2 * (m - 1)]
    samples for an input of [m] bins. *)
Definition fft_irfft (X : list C) : result (list R) :=
  let n := (2 * (length X - 1))%nat in
  if n =? 0 then Raise (ValueError no_fft_points)
  else Ok (irfft1 n X).

(** Piecewise linear interpolation through the points [(xp, fp)]. *)
Fixpoint interp_at (x : R) (xp fp : list R) : R :=
  match xp, fp with
  | x0 :: ((x1 :: _) as xp'), f0 :: ((f1 :: _) as fp') =>
      if Rltb x x1 then f0 + (f1 - f0) / (x1 - x0) * (x - x0)
      else interp_at x xp' fp'
  | _, f0 :: _ => f0
  | _, [] => 0
  end.

(** [numpy.interp(x, xp, fp)]: [xp] and [fp] are rank-1 sequences of
    the same length; values outside [xp] take the first or last [fp]. *)
Definition interp (x xp : list R) (fp : ndarray) : result (list R) :=
  match fp with
  | Arr2 _ => Raise (ValueError "object too deep for desired array")
  | Arr1 f =>
      if length xp =? 0 then Raise (ValueError "array of sample points is empty")
      else if negb (length f =? length xp)
      then Raise (ValueError "fp and xp are not of the same length.")
      else Ok (map (fun x0 => if Rltb x0 (hd 0 xp) then hd 0 f
                              else interp_at x0 xp f) x)
  end.

Definition cscale (z : C) (r : R) : C := (fst z * r, snd z * r).

(** [a * b] for a complex and a real rank-1 array. *)
Definition mul_cr (a : list C) (b : list R) : result (list C) :=
  if length a =? length b
  then Ok (map (fun p => cscale (fst p) (snd p)) (combine a b))
  else match a, b with
       | [z], _ => Ok (map (cscale z) b)
       | _, [r] => Ok (map (fun z => cscale z r) a)
       | _, _ => Raise (ValueError "operands could not be broadcast together")
       end.

(** [numpy.save(file, a)] writes to [file], with .npy appended unless
    [file] already ends with it. *)
Definition ends_with (suffix s : string) : bool :=
  let n := String.length s in
  let k := String.length suffix in
  (k <=? n)%nat && String.eqb (substring (n - k) k s) suffix.

Definition npy_path (file : string) : string :=
  if ends_with ".npy" file then file else (file ++ ".npy")%string.

Definition store : Type := string -> option (array2 R).

Definition save (file : string) (a : array2 R) (st : store) : store :=
  fun p => if String.eqb p (npy_path file) then Some a else st p.

Definition load (file : string) (st : store) : result (array2 R) :=
  match st file with
  | Some a => Ok a
  | None => Raise (FileNotFoundError file)
  end.

(** The length that two axes of lengths [n] and [m] broadcast to. *)
Definition broadcast_dim (n m : nat) : option nat :=
  if n =? m then Some n
  else if n =? 1 then Some m
  else if m =? 1 then Some n
  else None.

(** An axis of [n] items read as an axis of [k] items: as it is, or its
    only item repeated. *)
Definition stretch {A : Type} (d : A) (n k : nat) (l : list A) : list A :=
  if n =? k then l else repeat (nth 0 l d) k.

(** The error numpy raises for two arrays whose shapes do not
    broadcast: the message gives the shapes in the order of the
    operands. *)
Definition shape_text {A : Type} (a : array2 A) : string :=
  ("(" ++ str (shape0 a) ++ "," ++ str (shape1 a) ++ ")")%string.

Definition broadcast_error {A : Type} (a b : array2 A) : exn :=
  ValueError ("operands could not be broadcast together with shapes "
              ++ shape_text a ++ " " ++ shape_text b ++ " ")%string.

(** [a op b] for two rank-2 arrays, item by item, with broadcasting. *)
Definition elementwise (op : R -> R -> R) (a b : array2 R) : result (array2 R) :=
  match broadcast_dim (shape0 a) (shape0 b), broadcast_dim (shape1 a) (shape1 b) with
  | Some n, Some f =>
      Ok (mk2 n
            (map (fun p =>
                    map (fun q => op (fst q) (snd q))
                        (combine (stretch 0 (shape0 a) n (fst p))
                                 (stretch 0 (shape0 b) n (snd p))))
                 (combine (stretch [] (shape1 a) f (cols a))
                          (stretch [] (shape1 b) f (cols b)))))
  | _, _ => Raise (broadcast_error a b)
  end.

(** [a op x] for a rank-2 array and a number. *)
Definition with_number (op : R -> R -> R) (a : array2 R) (x : R) : array2 R :=
  mk2 (shape0 a) (map (map (fun v => op v x)) (cols a)).

(** [numpy.arange(n, dtype=float)] *)
Definition arange (n : nat) : list R := map INR (seq 0 n).

End numpy.

(** ** scipy.signal *)

(** Values passed to scipy's design functions. *)
Inductive pyval : Type :=
| VInt (z : Z)
| VFloat (r : R)
| VBool (b : bool)
| VTuple (a b : R).

(** The numerical design routines of scipy.signal, which the library
    supplies: the taps [firwin] computes for a call it accepts, and
    [firwin2], which returns [numtaps] taps when it succeeds. *)
Class FilterDesign : Type := {
  firwin_taps : nat -> pyval -> bool -> R -> result (list R);
  firwin2 : nat -> list R -> list R -> R -> result (list R);
  firwin2_ntaps : forall n freq gain fs h,
      firwin2 n freq gain fs = Ok h -> length h = n
}.

Module scipy_signal.
Import numpy.

(** The output of the filter with numerator [b] and denominator [1] on
    one sequence: y[n] = sum over k <= n of b[k] * x[n - k]. *)
Definition lfilter1 (b x : list R) : list R :=
  map (fun n => Rsum (map (fun k => nth k b 0 * nth (n - k) x 0) (seq 0 (S n))))
      (seq 0 (length x)).

(** [scipy.signal.lfilter(b, [1], x, axis=0)]: [b] is a rank-1
    sequence of coefficients that is not empty; the filter runs along
    every column. *)
Definition lfilter (b : ndarray) (x : array2 R) : result (array2 R) :=
  match b with
  | Arr1 [] => Raise (ValueError "v cannot be empty")
  | Arr1 bv => Ok (mk2 (shape0 x) (map (lfilter1 bv) (cols x)))
  | Arr2 _ => Raise (ValueError "object too deep for desired array")
  end.

(** The parameters of
    [firwin(numtaps, cutoff, width=None, window='hamming', pass_zero=True,
            scale=True, nyq=None, fs=None)]. *)
Definition firwin_params : list string :=
  ["numtaps"; "cutoff"; "width"; "window"; "pass_zero"; "scale"; "nyq"; "fs"]%string.

(** The first keyword of a call that the function does not have. *)
Fixpoint unexpected_keyword (params : list string) (kwargs : list (string * pyval))
  : option string :=
  match kwargs with
  | [] => None
  | (k, _) :: kw' =>
      if existsb (String.eqb k) params then unexpected_keyword params kw'
      else Some k
  end.

Fixpoint keyword (k : string) (kwargs : list (string * pyval)) : option pyval :=
  match kwargs with
  | [] => None
  | (k', v) :: kw' => if String.eqb k k' then Some v else keyword k kw'
  end.

(** [scipy.signal.firwin(numtaps, cutoff, **kwargs)]: a keyword that
    is not a parameter of the function is a TypeError; otherwise the
    taps are designed with [pass_zero] and the sampling rate [fs]
    (2 when neither [fs] nor [nyq] is given). *)
Definition firwin `{FilterDesign} (numtaps : Z) (cutoff : pyval)
           (kwargs : list (string * pyval)) : result (list R) :=
  match unexpected_keyword firwin_params kwargs with
  | Some k =>
      Raise (TypeError ("firwin() got an unexpected keyword argument '" ++ k ++ "'"))
  | None =>
      let pass_zero :=
        match keyword "pass_zero" kwargs with Some (VBool b) => b | _ => true end in
      let fs :=
        match keyword "fs" kwargs with Some (VFloat r) => r | _ => 2 end in
      firwin_taps (Z.to_nat numtaps) cutoff pass_zero fs
  end.

End scipy_signal.

(** ** slab.signals: class Signal *)

Module Signal.
Import numpy.

Record t : Type := mk {
  data : array2 R;
  samplerate : R
}.

Definition nsamples (s : t) : nat := shape0 (data s).
Definition nchannels (s : t) : nat := shape1 (data s).

Definition get_samplerate (e : env) (samplerate : option R) : R :=
  match samplerate with
  | None => _default_samplerate e
  | Some r => r
  end.

(** What a caller passes as [data]: a numpy array of rank 1 or 2, or an
    object of another class. (The branch for lists and tuples, which
    stacks Signal objects with [numpy.hstack], is not part of the
    model.) *)
Inductive pydata : Type :=
| PyArray (a : ndarray)
| PyOther (cls : string).

Definition init (e : env) (d : pydata) (sr : option R) : result t :=
  let rate := get_samplerate e sr in
  match d with
  | PyArray (Arr1 v) => Ok (mk (mk2 (length v) [v]) rate)
  | PyArray (Arr2 a) =>
      if shape0 a <? shape1 a then Ok (mk (transpose 0 a) rate)
      else Ok (mk a rate)
  | PyOther cls =>
      Raise (TypeError ("Cannot initialise Signal with data of class " ++ cls))
  end.

(** [self[:, n]] *)
Definition getitem_col (s : t) (n : nat) : result (list R) :=
  column (data s) n.

Definition channel (s : t) (n : nat) : result t :=
  c <- column (data s) n ;;
  Ok (mk (mk2 (length c) [c]) (samplerate s)).

(** The argument of [resize]: a number of samples, or seconds. *)
Inductive length_arg : Type :=
| Samples (L : Z)
| Seconds (secs : R).

(** [resize] works in place; the new state of the object is returned. *)
Definition resize (s : t) (L : length_arg) : result t :=
  let L := match L with
           | Samples n => n
           | Seconds secs => py_round (secs * samplerate s)
           end in
  if (L =? Z.of_nat (shape0 (data s)))%Z then Ok s
  else if (L <? Z.of_nat (shape0 (data s)))%Z then
    Ok (mk (rows_upto (slice_bound (shape0 (data s)) 0 (Some L)) (data s))
           (samplerate s))
  else
    let padding := zeros (Z.to_nat (L - Z.of_nat (shape0 (data s)))) (nchannels s) in
    d <- concatenate [data s; padding] ;;
    Ok (mk d (samplerate s)).

(** [duration]: the length of the signal in seconds. *)
Definition duration (s : t) : result R :=
  py_div (INR (nsamples s)) (samplerate s).

(** [times]: the time of every sample in seconds. (For a samplerate of
    0 numpy fills the array with infinities, which the reals do not
    have; the division is kept as it is.) *)
Definition times (s : t) : list R :=
  map (fun v => v / samplerate s) (arange (nsamples s)).

(** [in_samples]: a time given in samples is returned as it is, a time
    in seconds is converted with [numpy.rint]. The product is the exact
    one; the code rounds the binary64 product, which can fall on the
    other side of a tie. *)
Definition in_samples (ctime : length_arg) (samplerate : R) : Z :=
  match ctime with
  | Samples n => n
  | Seconds secs => py_round (secs * samplerate)
  end.

(** The right operand of an arithmetic operator: an object of the class
    of the left operand, or a number. ([__truediv__], which gives
    infinities for a zero divisor, is not part of the model.) *)
Inductive operand : Type :=
| OfSignal (other : t)
| OfNumber (x : R).

Definition __add__ (self : t) (other : operand) : result t :=
  match other with
  | OfSignal o =>
      d <- elementwise Rplus (data self) (data o) ;; Ok (mk d (samplerate self))
  | OfNumber x => Ok (mk (with_number Rplus (data self) x) (samplerate self))
  end.

Definition __radd__ : t -> operand -> result t := __add__.

Definition __sub__ (self : t) (other : operand) : result t :=
  match other with
  | OfSignal o =>
      d <- elementwise Rminus (data self) (data o) ;; Ok (mk d (samplerate self))
  | OfNumber x => Ok (mk (with_number Rminus (data self) x) (samplerate self))
  end.

Definition __rsub__ : t -> operand -> result t := __sub__.

Definition __mul__ (self : t) (other : operand) : result t :=
  match other with
  | OfSignal o =>
      d <- elementwise Rmult (data self) (data o) ;; Ok (mk d (samplerate self))
  | OfNumber x => Ok (mk (with_number Rmult (data self) x) (samplerate self))
  end.

Definition __rmul__ : t -> operand -> result t := __mul__.

Definition __neg__ (self : t) : t :=
  mk (with_number Rmult (data self) (-1)) (samplerate self).

End Signal.

(** The operations of the Sound subclass that [equalizing_filterbank]
    uses on the signals it is given; the class is not part of these
    modules. [level] returns one value per channel. *)
Class SoundOps : Type := {
  resample : Signal.t -> R -> result Signal.t;
  level : Signal.t -> result (list R)
}.

(** ** slab.filter: class Filter *)

(** The edge frequency of a rectangular filter: one number, or a pair. *)
Inductive freq_arg : Type :=
| Edge (f : R)
| Edges (f0 f1 : R).

(** The [reference] argument of [equalizing_filterbank]. *)
Inductive reference_arg : Type :=
| RefMax
| RefMean
| RefValue (r : R).

Module Filter.
Import numpy.

(** A Filter is a Signal with the flag [fir]. *)
Record t : Type := mk {
  base : Signal.t;
  fir : bool
}.
#[local] Coercion base : t >-> Signal.t.

Definition nfilters (f : t) : nat := Signal.nchannels f.
Definition ntaps (f : t) : nat := Signal.nsamples f.
Definition nfrequencies (f : t) : nat := Signal.nsamples f.

Definition frequencies (f : t) : result (option (list R)) :=
  if negb (fir f) then
    d <- py_div 1 (Signal.samplerate f) ;;
    bins <- rfftfreq (Z.of_nat (ntaps f) * 2 - 1) d ;;
    Ok (Some bins)
  else Ok None.

Definition init (e : env) (d : Signal.pydata) (sr : option R) (fir : bool)
  : result t :=
  if fir && negb (have_scipy e)
  then Raise (ImportError "FIR filters require scipy.")
  else s <- Signal.init e d sr ;; Ok (mk s fir).

(** [resize] as a Filter inherits it. *)
Definition resize (f : t) (L : Signal.length_arg) : result t :=
  s <- Signal.resize f L ;; Ok (mk s (fir f)).

Definition to_pyval (frequency : freq_arg) : pyval :=
  match frequency with
  | Edge f => VFloat f
  | Edges f0 f1 => VTuple f0 f1
  end.

(** [round(frequency / df)]. The quotient is the exact one; the code
    rounds the binary64 quotient, which can fall on the other side of a
    tie. *)
Definition edge_bin (frequency : freq_arg) (df : R) : result Z :=
  match frequency with
  | Edge f => q <- py_div f df ;; Ok (py_round q)
  | Edges _ _ =>
      Raise (TypeError "unsupported operand type(s) for /: 'tuple' and 'float'")
  end.

(** [round(frequency[i] / df)] for [i] in 0, 1 *)
Definition edge_bin_at (frequency : freq_arg) (i : nat) (df : R) : result Z :=
  match frequency with
  | Edge _ => Raise (TypeError "object is not subscriptable")
  | Edges f0 f1 => q <- py_div (if i =? 0 then f0 else f1) df ;; Ok (py_round q)
  end.

Definition rectangular_filter `{FilterDesign} (e : env)
           (frequency : freq_arg) (kind : string) (samplerate : option R)
           (length : Z) (fir : bool) : result t :=
  let samplerate := Signal.get_samplerate e samplerate in
  filt <-
    (if fir then
       pass_zero <-
         (if existsb (String.eqb kind) ["lp"; "bs"]%string then Ok (Some true)
          else if existsb (String.eqb kind) ["hp"; "bp"]%string then Ok (Some false)
          else Ok None) ;;
       if negb (have_scipy e) then Raise (NameError "scipy")
       else
         match pass_zero with
         | None => Raise (UnboundLocalError "pass_zero")
         | Some pz =>
             scipy_signal.firwin length (to_pyval frequency)
               [("pass_zero", VBool pz); ("samplerate", VFloat samplerate)]%string
         end
     else
       st <- py_div 1 (samplerate / 2) ;;
       df <- py_div 1 (st * IZR length) ;;
       filt <-
         (if (length <? 0)%Z
          then Raise (ValueError "negative dimensions are not allowed")
          else Ok (repeat 0 (Z.to_nat length))) ;;
       filt <-
         (if String.eqb kind "lp"
          then k <- edge_bin frequency df ;; Ok (slice_assign filt None (Some k) 1)
          else Ok filt) ;;
       filt <-
         (if String.eqb kind "hp"
          then k <- edge_bin frequency df ;; Ok (slice_assign filt (Some k) None 1)
          else Ok filt) ;;
       filt <-
         (if String.eqb kind "bp"
          then k0 <- edge_bin_at frequency 0 df ;;
               k1 <- edge_bin_at frequency 1 df ;;
               Ok (slice_assign filt (Some k0) (Some k1) 1)
          else Ok filt) ;;
       (if String.eqb kind "notch"
        then k0 <- edge_bin_at frequency 0 df ;;
             let filt := slice_assign filt None (Some k0) 1 in
             k1 <- edge_bin_at frequency 1 df ;;
             Ok (slice_assign filt (Some k1) None 1)
        else Ok filt)) ;;
  init e (Signal.PyArray (Arr1 filt)) (Some samplerate) fir.

Definition rate_mismatch : string :=
  "Filter and signal have different sampling rates.".

Definition shape_mismatch : string :=
  "Number of filters must equal number of signal channels, or either one of them must be equal to 1.".

(** [out.data = d] on the deep copy of [sig]. *)
Definition with_data (sig : Signal.t) (d : array2 R) : Signal.t :=
  Signal.mk d (Signal.samplerate sig).

(** [out.data[:, chan] = numpy.fft.irfft(spectrum * _filt)] *)
Definition filter_bins (spectrum : list C) (_filt : list R) (chan : nat)
           (out : array2 R) : result (array2 R) :=
  prod <- mul_cr spectrum _filt ;;
  y <- fft_irfft prod ;;
  set_col out chan y.

(** The branch of [apply] for a FIR filter. *)
Definition apply_fir (self : t) (sig : Signal.t) : result Signal.t :=
  let out := sig in
  if nfilters self =? Signal.nchannels sig then
    d <- scipy_signal.lfilter (Arr2 (Signal.data self)) (Signal.data out) ;;
    Ok (with_data out d)
  else if (nfilters self =? 1) && (1 <? Signal.nchannels sig) then
    d <- scipy_signal.lfilter (Arr2 (Signal.data self)) (Signal.data out) ;;
    Ok (with_data out d)
  else if (1 <? nfilters self) && (Signal.nchannels sig =? 1) then
    d <- for_range (nfilters self)
           (fun filt od =>
              b <- Signal.getitem_col self filt ;;
              y <- scipy_signal.lfilter (Arr1 b) (Signal.data sig) ;;
              set_col od filt (flatten 0 y))
           (empty (Signal.nsamples sig) (nfilters self)) ;;
    Ok (with_data out d)
  else Raise (ValueError shape_mismatch).

(** The branch of [apply] for a frequency-domain filter, once the
    spectrum of the signal and the two frequency axes are computed. *)
Definition apply_fft (self : t) (sig : Signal.t) (sig_rfft : array2 C)
           (sig_freq_bins filt_freq_bins : list R) : result Signal.t :=
  let out := sig in
  if nfilters self =? Signal.nchannels sig then
    d <- for_range (Signal.nchannels sig)
           (fun chan od =>
              fp <- Signal.getitem_col self chan ;;
              _filt <- interp sig_freq_bins filt_freq_bins (Arr1 fp) ;;
              spectrum <- column sig_rfft chan ;;
              filter_bins spectrum _filt chan od)
           (Signal.data out) ;;
    Ok (with_data out d)
  else if (nfilters self =? 1) && (1 <? Signal.nchannels sig) then
    _filt <- interp sig_freq_bins filt_freq_bins (Arr2 (Signal.data self)) ;;
    d <- for_range (Signal.nchannels sig)
           (fun chan od =>
              spectrum <- column sig_rfft chan ;;
              filter_bins spectrum _filt chan od)
           (Signal.data out) ;;
    Ok (with_data out d)
  else if (1 <? nfilters self) && (Signal.nchannels sig =? 1) then
    d <- for_range (nfilters self)
           (fun filt od =>
              fp <- Signal.getitem_col self filt ;;
              _filt <- interp sig_freq_bins filt_freq_bins (Arr1 fp) ;;
              filter_bins (flatten (0, 0) sig_rfft) _filt filt od)
           (empty (Signal.nsamples sig) (nfilters self)) ;;
    Ok (with_data out d)
  else Raise (ValueError shape_mismatch).

Definition apply (self : t) (sig : Signal.t) : result Signal.t :=
  if negb (Reqb (Signal.samplerate self) (Signal.samplerate sig))
     && negb (Reqb (Signal.samplerate self) 1)
  then Raise (ValueError rate_mismatch)
  else if fir self then apply_fir self sig
  else
    sig_rfft <- fft_rfft (Signal.data sig) ;;
    d <- py_div 1 (Signal.samplerate sig) ;;
    sig_freq_bins <- rfftfreq (Z.of_nat (Signal.nsamples sig)) d ;;
    fb <- frequencies self ;;
    match fb with
    | None => Raise (TypeError "object of type 'NoneType' has no len()")
    | Some filt_freq_bins => apply_fft self sig sig_rfft sig_freq_bins filt_freq_bins
    end.

Definition _freq2erb (freq_hz : R) : R :=
  9.265 * ln (1 + freq_hz / (24.7 * 9.265)).

Definition _erb2freq (n_erb : R) : R :=
  24.7 * 9.265 * (exp (n_erb / 9.265) - 1).

(** [int(numpy.round(a / b))] on numpy floats: a zero divisor gives an
    infinity or a NaN, which [int] refuses. *)
Definition round_ratio (a b : R) : result Z :=
  if Reqb b 0 then
    if Reqb a 0 then Raise (ValueError "cannot convert float NaN to integer")
    else Raise (OverflowError "cannot convert float infinity to integer")
  else Ok (py_round (a / b)).

(** [hi_lim] after [if not hi_lim: hi_lim = samplerate / 2]. *)
Definition hi_or_default (hi_lim : option R) (samplerate : R) : R :=
  match hi_lim with
  | None => samplerate / 2
  | Some h => if Reqb h 0 then samplerate / 2 else h
  end.

(** The requested spacing of the filters in ERB units. *)
Definition requested_spacing (bandwidth : R) : R :=
  _freq2erb (1000 * Rpower 2 bandwidth) - _freq2erb 1000.

(** One pass of the loop of [cos_filterbank]: column [i] of [filts]
    gets a half cosine where the bin lies strictly inside the band. *)
Definition cos_column (center_freqs freqs_erb : list R) (erb_spacing : R)
           (i : nat) (filts : array2 R) : result (array2 R) :=
  let l := nth i center_freqs 0 - erb_spacing in
  let h := nth i center_freqs 0 + erb_spacing in
  let avg := nth i center_freqs 0 in
  let rnge := 2 * erb_spacing in
  old <- column filts i ;;
  Ok (mk2 (shape0 filts)
          (update i
             (map (fun p => if Rltb l (snd p) && Rltb (snd p) h
                            then cos ((snd p - avg) / rnge * PI)
                            else fst p)
                  (combine old freqs_erb))
             (cols filts))).

Definition cos_filterbank (e : env) (length : Z) (bandwidth low_lim : R)
           (hi_lim samplerate : option R) : result (t * list R * R) :=
  let samplerate := Signal.get_samplerate e samplerate in
  let hi_lim := hi_or_default hi_lim samplerate in
  d <- py_div 1 samplerate ;;
  freq_bins <- rfftfreq length d ;;
  let nfreqs := List.length freq_bins in
  let ref_freq := 1000 in
  let ref_erb := _freq2erb ref_freq in
  let erb_spacing := requested_spacing bandwidth in
  let h := _freq2erb hi_lim in
  let l := _freq2erb low_lim in
  nfilters <- round_ratio (h - l) erb_spacing ;;
  ls <- linspace l h nfilters ;;
  let center_freqs := py_slice (fst ls) (Some 1%Z) (Some (-1)%Z) in
  let erb_spacing := snd ls in
  let nfilters := (nfilters - 2)%Z in
  filts <- zeros_int nfreqs nfilters ;;
  let freqs_erb := map _freq2erb freq_bins in
  filts <- for_range (Z.to_nat nfilters)
             (cos_column center_freqs freqs_erb erb_spacing) filts ;;
  let bandwidth := ln (_erb2freq (ref_erb + erb_spacing) / ref_freq) / ln 2 in
  f <- init e (Signal.PyArray (Arr2 filts)) (Some samplerate) false ;;
  Ok (f, map _erb2freq center_freqs, bandwidth).

(** [a - b] for two arrays with the same number of columns: the rows
    must agree in number unless one of the arrays has a single row. *)
Definition sub_column (a b : list R) : list R :=
  match a, b with
  | [x], _ :: _ :: _ => map (fun y => x - y) b
  | _ :: _ :: _, [y] => map (fun x => x - y) a
  | _, _ => map (fun p => fst p - snd p) (combine a b)
  end.

Definition sub_arrays (a b : array2 R) : result (array2 R) :=
  if (shape0 a =? shape0 b) || (shape0 a =? 1) || (shape0 b =? 1)
  then Ok (mk2 (if shape0 a =? 1 then shape0 b else shape0 a)
               (map (fun p => sub_column (fst p) (snd p))
                    (combine (cols a) (cols b))))
  else Raise (ValueError "operands could not be broadcast together").

(** [numpy.max(a.flatten())] *)
Definition max_all (a : array2 R) : result R :=
  match flatten 0 a with
  | [] => Raise (ValueError "zero-size array to reduction operation maximum which has no identity")
  | x :: l => Ok (fold_left Rmax l x)
  end.

(** [numpy.mean(a.flatten())] *)
Definition mean_all (a : array2 R) : R :=
  Rsum (flatten 0 a) / INR (List.length (flatten 0 a)).

Definition equalizing_filterbank `{FilterDesign} `{SoundOps} (e : env)
           (played_signal recorded_signals : Signal.t) (reference : reference_arg)
  : result t :=
  pr <- (if Rltb (Signal.samplerate recorded_signals) (Signal.samplerate played_signal)
         then p <- resample played_signal (Signal.samplerate recorded_signals) ;;
              Ok (p, recorded_signals)
         else r <- resample recorded_signals (Signal.samplerate played_signal) ;;
              Ok (played_signal, r)) ;;
  let played_signal := fst pr in
  let recorded_signals := snd pr in
  bank <- cos_filterbank e 1000 (1 / 5) 0 None (Some (Signal.samplerate played_signal)) ;;
  let fbank := fst (fst bank) in
  let centre_freqs := snd (fst bank) in
  filtered <- apply fbank played_signal ;;
  levels_in <- level filtered ;;
  let levels_in :=
    mk2 (List.length levels_in)
        (repeat levels_in (Signal.nchannels recorded_signals)) in
  levels_out <-
    for_range (Signal.nchannels recorded_signals)
      (fun idx lo =>
         ch <- Signal.channel recorded_signals idx ;;
         filtered <- apply fbank ch ;;
         lv <- level filtered ;;
         set_col lo idx lv)
      (mk2 (List.length centre_freqs)
           (repeat (repeat 1 (List.length centre_freqs))
                   (Signal.nchannels recorded_signals))) ;;
  reference <-
    match reference with
    | RefMax => max_all levels_out
    | RefMean => Ok (mean_all levels_out)
    | RefValue r => Ok r
    end ;;
  diffs <- sub_arrays levels_in levels_out ;;
  let amp_diffs := map (map (fun x => x - reference)) (cols diffs) in
  let freqs := [0] ++ centre_freqs ++ [Signal.samplerate played_signal / 2] in
  filt <-
    for_range (Signal.nchannels recorded_signals)
      (fun idx filt =>
         let amps := [0] ++ nth idx amp_diffs [] ++ [0] in
         taps <- firwin2 1000 freqs amps (Signal.samplerate played_signal) ;;
         set_col filt idx taps)
      (zeros 1000 (Signal.nchannels recorded_signals)) ;;
  init e (Signal.PyArray (Arr2 filt)) (Some (Signal.samplerate played_signal)) true.

Definition flag (b : bool) : R := if b then 1 else 0.

(** [save]: the file holds a row of samplerates, a row of flags and the
    data; the new state of the file system is returned. *)
Definition save (self : t) (filename : string) (st : store) : result store :=
  let fs := tile (Signal.samplerate self) (nfilters self) in
  let fir := tile (flag (fir self)) (nfilters self) in
  let fs := newaxis_row fs in
  let fir := newaxis_row fir in
  to_save <- concatenate [fs; fir; Signal.data self] ;;
  Ok (numpy.save filename to_save st).

Definition load (e : env) (filename : string) (st : store) : result t :=
  data <- numpy.load filename st ;;
  samplerate <- item data 0 0 ;;
  fir <- item data 1 0 ;;
  let fir := negb (Reqb fir 0) in
  let data := rows_from 2 data in
  init e (Signal.PyArray (Arr2 data)) (Some samplerate) fir.

End Filter.

Coercion Filter.base : Filter.t >-> Signal.t.

(** * Vocabulary of the properties *)

Import numpy.

Local Open Scope nat_scope.

(** Objects used in the examples below. *)
Definition env0 : env := mk_env true 8000.
Definition no_files : store := fun _ => None.

(** A bank of two filters with three taps each, and the same bank cut
    to one tap by [resize]. *)
Definition tall_bank : Filter.t :=
  Filter.mk (Signal.mk (mk2 3 [[1; 2; 3]; [4; 5; 6]]%R) 8000%R) false.
Definition wide_bank : Filter.t :=
  Filter.mk (Signal.mk (mk2 1 [[1]; [4]]%R) 8000%R) false.

(** [c] does not raise the rate-mismatch error. *)
Definition no_rate_error {A : Type} (c : result A) : Prop :=
  c <> Raise (ValueError Filter.rate_mismatch).

(** The bins [numpy.fft.rfftfreq(n, d=1/rate)] returns. *)
Definition bins_of (n : Z) (rate : R) : list R :=
  map (fun k => (INR k * (1 / (IZR n * (1 / rate))))%R)
      (seq 0 (Z.to_nat (n / 2 + 1))).

(** A bank of three frequency-domain filters and a signal of two
    channels. *)
Definition three_filters : Filter.t :=
  Filter.mk (Signal.mk (mk2 3 [[1; 1; 0]; [0; 1; 1]; [1; 0; 1]]%R) 8000%R) false.
Definition two_channels : Signal.t :=
  Signal.mk (mk2 4 [[1; 2; 3; 4]; [4; 3; 2; 1]]%R) 8000%R.

(** The values [numpy.interp(x, xp, fp)] returns for rank-1 [fp]. *)
Definition interp_values (x xp fp : list R) : list R :=
  map (fun x0 => if Rltb x0 (hd 0%R xp) then hd 0%R fp else interp_at x0 xp fp) x.

(** One channel [x] of [n] samples shaped by the gains [fp] that a
    frequency-domain filter holds at the frequencies [filt_bins]:
    the spectrum of [x], times the gains interpolated at the bins of
    the signal, transformed back to [m] samples. *)
Definition spectrum_filtered (m n : nat) (sig_bins filt_bins x fp : list R) : list R :=
  irfft1 m (map (fun p => cscale (fst p) (snd p))
                (combine (rfft1 n x) (interp_values sig_bins filt_bins fp))).

(** A bank of two frequency-domain filters with two bins each, and a
    signal of one channel with three samples. *)
Definition two_filters : Filter.t :=
  Filter.mk (Signal.mk (mk2 2 [[1; 1]; [1; 0]]%R) 8000%R) false.
Definition three_samples : Signal.t :=
  Signal.mk (mk2 3 [[1; 2; 3]]%R) 8000%R.

(** A signal of one channel with four samples. *)
Definition four_samples : Signal.t :=
  Signal.mk (mk2 4 [[1; 0; -1; 0]]%R) 8000%R.

(** A bank without filters, as [cos_filterbank] builds it when only two
    points are laid out. *)
Definition empty_bank : Filter.t :=
  Filter.mk (Signal.mk (mk2 3 []) 8000%R) false.

(** One frequency-domain filter with three bins. *)
Definition one_filter : Filter.t :=
  Filter.mk (Signal.mk (mk2 3 [[1; 1; 0]]%R) 8000%R) false.

(** A design routine that returns taps that are all zero. What the
    examples below show does not depend on the taps. *)
#[global, refine] Instance zero_design : FilterDesign := {
  firwin_taps := fun n _ _ _ => Ok (repeat 0%R n);
  firwin2 := fun n _ _ _ => Ok (repeat 0%R n)
}.
Proof.
  intros n freq gain fs h H. injection H as <-. apply repeat_length.
Defined.

(** The frequency resolution [df] computed by [rectangular_filter]. *)
Definition resolution (samplerate : R) (length : Z) : R :=
  (1 / (1 / (samplerate / 2) * IZR length))%R.


(** The mask of [L] bins with gain 1 where [pass] holds and 0 elsewhere. *)
Definition mask (L : nat) (pass : Z -> bool) : list R :=
  map (fun i => if pass (Z.of_nat i) then 1%R else 0%R) (seq 0 L).

(** A half cosine of gains around [centre], on bins given in ERB units:
    nonzero strictly inside [centre - spacing, centre + spacing]. *)
Definition half_cosine (centre spacing : R) (freqs_erb : list R) : list R :=
  map (fun fe => if Rltb (centre - spacing) fe && Rltb fe (centre + spacing)
                 then cos ((fe - centre) / (2 * spacing) * PI) else 0%R)
      freqs_erb.

(** The array a constructor stores for a 2-D array [a]. *)
Definition stored (a : array2 R) : array2 R :=
  if shape0 a <? shape1 a then transpose 0%R a else a.

(** The number of points laid out between the limits, in ERB units. *)
Definition erb_points (bandwidth low_lim hi_lim : R) : Z :=
  py_round ((Filter._freq2erb hi_lim - Filter._freq2erb low_lim)
            / Filter.requested_spacing bandwidth).

(** The interior points of [n] evenly spaced points from [l] to [h]. *)
Definition interior_points (l h : R) (n : nat) : list R :=
  map (fun i => (l + INR i * ((h - l) / INR (n - 1)))%R) (seq 1 (n - 2)).

(** The matrix of [cos_filterbank]: one row per frequency bin of a signal
    of [L] samples, one half cosine per interior point of [n] points
    from [l] to [h] (ERB units). *)
Definition cosine_bank (L : Z) (sr l h : R) (n : nat) : array2 R :=
  mk2 (Z.to_nat (L / 2 + 1))
      (map (fun c => half_cosine c ((h - l) / INR (n - 1))
                       (map Filter._freq2erb (bins_of L sr)))
           (interior_points l h n)).

(** A Sound whose [resample] keeps the samples and sets the rate, as
    resampling to the rate the signal already has does, and whose
    [level] is the mean square of each channel. *)
#[global] Instance plain_sound : SoundOps := {
  resample := fun s rate => Ok (Signal.mk (Signal.data s) rate);
  level := fun s =>
    Ok (map (fun c => (Rsum (map (fun v => v * v) c) / INR (length c))%R)
            (cols (Signal.data s)))
}.






(** [s[i, j]]: sample [i] of channel [j] of a signal; for a filter, the
    tap or the gain [i] of filter [j]. *)
Definition sample (s : Signal.t) (i j : nat) : R :=
  nth i (nth j (cols (Signal.data s)) []) 0%R.

(** A signal cut or padded to [L] samples: of every channel the first
    [L] samples, then zeros. *)
Definition resized (L : nat) (s : Signal.t) : Signal.t :=
  Signal.mk
    (mk2 L (map (fun c => firstn L c ++ repeat 0%R (L - Signal.nsamples s))
                (cols (Signal.data s))))
    (Signal.samplerate s).

(** A bank of two FIR filters with two taps each. *)
Definition two_tap_filters : Filter.t :=
  Filter.mk (Signal.mk (mk2 2 [[1; 1]; [1; -1]]%R) 8000%R) true.

(** The gain at [fe] (ERB units) of the half cosine around [centre]. *)
Definition half_cosine_gain (centre spacing fe : R) : R :=
  if Rltb (centre - spacing) fe && Rltb fe (centre + spacing)
  then cos ((fe - centre) / (2 * spacing) * PI) else 0%R.

(** * Properties *)

Local Open Scope R_scope.

(** ** Scalars *)

Lemma Reqb_refl (x : R) : Reqb x x = true.
Proof. unfold Reqb. destruct (Req_dec_T x x); [reflexivity | contradiction]. Qed.

Lemma Reqb_neq (x y : R) : x <> y -> Reqb x y = false.
Proof. intros H. unfold Reqb. destruct (Req_dec_T x y); [contradiction | reflexivity]. Qed.

Lemma Reqb_true_iff (x y : R) : Reqb x y = true <-> x = y.
Proof.
  unfold Reqb. destruct (Req_dec_T x y); split; intros; auto; discriminate.
Qed.

Lemma Reqb_false_iff (x y : R) : Reqb x y = false <-> x <> y.
Proof.
  unfold Reqb. destruct (Req_dec_T x y); split; intros; auto; try discriminate.
  contradiction.
Qed.

Lemma Rltb_true (x y : R) : x < y -> Rltb x y = true.
Proof. intros H. unfold Rltb. destruct (Rlt_dec x y); [reflexivity | contradiction]. Qed.

Lemma Rltb_false (x y : R) : ~ x < y -> Rltb x y = false.
Proof. intros H. unfold Rltb. destruct (Rlt_dec x y); [contradiction | reflexivity]. Qed.

Lemma py_div_ok (a b : R) : b <> 0 -> py_div a b = Ok (a / b).
Proof. intros H. unfold py_div. now rewrite (Reqb_neq _ _ H). Qed.

Lemma flag_nonzero (b : bool) : negb (Reqb (Filter.flag b) 0) = b.
Proof.
  destruct b; simpl.
  - rewrite Reqb_neq; [reflexivity | lra].
  - now rewrite Reqb_refl.
Qed.

(** ** Arrays *)

Local Open Scope nat_scope.

Lemma shape0_transpose {A : Type} (d : A) (a : array2 A) :
  shape0 (transpose d a) = shape1 a.
Proof. reflexivity. Qed.

Lemma shape1_transpose {A : Type} (d : A) (a : array2 A) :
  shape1 (transpose d a) = shape0 a.
Proof. unfold shape1, transpose; simpl. now rewrite length_map, length_seq. Qed.

Lemma wf_transpose {A : Type} (d : A) (a : array2 A) : wf (transpose d a).
Proof.
  unfold wf, transpose; simpl. apply Forall_forall. intros c Hc.
  apply in_map_iff in Hc as [i [<- _]]. now rewrite length_map.
Qed.

(** Entry (i, j) of the transpose is entry (j, i) of the array. *)
Lemma transpose_entry (a : array2 R) (i j : nat) :
  i < shape0 a -> j < shape1 a ->
  nth j (nth i (cols (transpose 0%R a)) []) 0%R = nth i (nth j (cols a) []) 0%R.
Proof.
  intros Hi Hj. unfold transpose; simpl.
  rewrite (nth_indep _ [] (map (fun c => nth 0 c 0%R) (cols a)))
    by now rewrite length_map, length_seq.
  rewrite (map_nth (fun i0 => map (fun c => nth i0 c 0%R) (cols a)) (seq 0 (shape0 a)) 0 i).
  rewrite seq_nth by assumption. simpl.
  rewrite (nth_indep _ 0%R ((fun c => nth i c 0%R) [])) by now rewrite length_map.
  now rewrite (map_nth (fun c => nth i c 0%R)).
Qed.

Lemma length_update {A : Type} (j : nat) (v : A) (l : list A) :
  length (update j v l) = length l.
Proof.
  revert j; induction l as [| x l IH]; intros [| j]; simpl; auto.
Qed.

Lemma nth_error_update_eq {A : Type} (j : nat) (v : A) (l : list A) :
  j < length l -> nth_error (update j v l) j = Some v.
Proof.
  revert j; induction l as [| x l IH]; intros [| j] H; simpl in *; try lia; auto.
  apply IH; lia.
Qed.

Lemma nth_error_update_neq {A : Type} (j k : nat) (v : A) (l : list A) :
  j <> k -> nth_error (update j v l) k = nth_error l k.
Proof.
  revert j k; induction l as [| x l IH]; intros [| j] [| k] H; simpl; auto; try lia.
Qed.

Lemma zip_app_header (x : R) (cs : list (list R)) :
  zip_app (map (fun y => [y]) (repeat x (length cs))) cs = map (cons x) cs.
Proof. induction cs as [| c cs IH]; simpl; [reflexivity | now rewrite IH]. Qed.

(** ** The constructors *)

Lemma Signal_init_array2 (e : env) (a : array2 R) (sr : option R) :
  Signal.init e (Signal.PyArray (Arr2 a)) sr
  = Ok (Signal.mk (stored a) (Signal.get_samplerate e sr)).
Proof. unfold stored. simpl. now destruct (shape0 a <? shape1 a). Qed.

Lemma tall_after_init (a : array2 R) :
  shape1 (stored a)
  <= shape0 (stored a).
Proof.
  unfold stored. destruct (shape0 a <? shape1 a) eqn:E.
  - apply Nat.ltb_lt in E. rewrite shape0_transpose, shape1_transpose. lia.
  - apply Nat.ltb_ge in E. exact E.
Qed.

Lemma stored_tall (a : array2 R) : shape1 a <= shape0 a -> stored a = a.
Proof.
  intros H. unfold stored. apply Nat.ltb_ge in H. now rewrite H.
Qed.

Lemma stored_wide (a : array2 R) :
  shape0 a < shape1 a -> stored a = transpose 0%R a.
Proof.
  intros H. unfold stored. apply Nat.ltb_lt in H. now rewrite H.
Qed.

Lemma Filter_init_array2 (e : env) (a : array2 R) (sr : option R) (fir : bool) :
  Filter.init e (Signal.PyArray (Arr2 a)) sr fir
  = if fir && negb (have_scipy e)
    then Raise (ImportError "FIR filters require scipy.")
    else Ok (Filter.mk
               (Signal.mk (stored a)
                          (Signal.get_samplerate e sr))
               fir).
Proof.
  unfold Filter.init. rewrite Signal_init_array2.
  now destruct (fir && negb (have_scipy e)).
Qed.

(** What [load] returns when it returns: the rows below the two header
    rows, transposed when they are wider than tall. *)
Lemma load_data (e : env) (file : string) (st : store) (f : Filter.t) :
  Filter.load e file st = Ok f ->
  exists arr, st file = Some arr /\
    Signal.data f = stored (rows_from 2 arr).
Proof.
  unfold Filter.load, numpy.load. destruct (st file) as [arr |]; [| discriminate].
  simpl. destruct (item arr 0 0) as [sr |]; [| discriminate]. simpl.
  destruct (item arr 1 0) as [fl |]; [| discriminate]. simpl.
  rewrite Filter_init_array2.
  destruct (negb (Reqb fl 0) && negb (have_scipy e)); [discriminate |].
  intros H. injection H as <-. exists arr. split; reflexivity.
Qed.

(** ** Saving and loading *)

Lemma save_layout (f : Filter.t) (filename : string) (st : store) :
  Filter.save f filename st
  = Ok (numpy.save filename
          (mk2 (2 + Filter.ntaps f)
               (map (fun c => Signal.samplerate f :: Filter.flag (Filter.fir f) :: c)
                    (cols (Signal.data f))))
          st).
Proof.
  unfold Filter.save, tile, newaxis_row, Filter.nfilters, Signal.nchannels, shape1.
  cbn [concatenate bind shape0 cols].
  unfold shape1; cbn [cols shape0].
  rewrite length_map, repeat_length, Nat.eqb_refl. cbn [bind cols shape0].
  rewrite !zip_app_header.
  rewrite !length_map, repeat_length, Nat.eqb_refl.
  rewrite <- (length_map (cons (Filter.flag (Filter.fir f))) (cols (Signal.data f))) at 1.
  rewrite zip_app_header, map_map. reflexivity.
Qed.

Lemma load_after_save (e : env) (f : Filter.t) (filename : string) (st : store) :
  1 <= Filter.nfilters f ->
  (Filter.fir f = true -> have_scipy e = true) ->
  Filter.load e (npy_path filename)
    (numpy.save filename
       (mk2 (2 + Filter.ntaps f)
            (map (fun c => Signal.samplerate f :: Filter.flag (Filter.fir f) :: c)
                 (cols (Signal.data f))))
       st)
  = Ok (Filter.mk
          (Signal.mk (stored (Signal.data f))
                     (Signal.samplerate f))
          (Filter.fir f)).
Proof.
  intros HF Hsci.
  destruct f as [[[n cs] sr] fir].
  unfold Filter.nfilters, Filter.ntaps, Signal.nchannels, Signal.nsamples, shape1 in *.
  cbn [Filter.base Filter.fir Signal.data Signal.samplerate cols shape0] in *.
  unfold Filter.load, numpy.load, numpy.save. rewrite String.eqb_refl.
  cbn [bind]. unfold item. cbn [shape0 cols].
  destruct cs as [| c cs]; [simpl in HF; lia |].
  cbn [map nth_error Nat.ltb Nat.leb plus nth bind].
  rewrite flag_nonzero.
  rewrite Filter_init_array2.
  assert (Hs : fir && negb (have_scipy e) = false).
  { destruct fir; [rewrite Hsci by reflexivity |]; reflexivity. }
  rewrite Hs. unfold rows_from, shape1. cbn [shape0 cols Signal.get_samplerate].
  assert (Hc : map (skipn 2) (map (fun c0 => sr :: Filter.flag fir :: c0) (c :: cs)) = c :: cs).
  { rewrite map_map. cbn [skipn]. apply map_id. }
  change ((sr :: Filter.flag fir :: c)
          :: map (fun c0 : list R => sr :: Filter.flag fir :: c0) cs)
    with (map (fun c0 : list R => sr :: Filter.flag fir :: c0) (c :: cs)).
  rewrite Hc. replace (S (S n) - 2) with n by lia. reflexivity.
Qed.

Ltac shapes :=
  unfold Filter.nfilters, Filter.ntaps, Filter.nfrequencies,
    Signal.nchannels, Signal.nsamples, shape1 in *;
  simpl in *.

(** C10, as stated, fails: not every construction leaves at least as
    many rows as columns. An empty 1-D array is stored with shape
    (0, 1): no row and one column. *)
Lemma empty_array_is_stored_wide :
  exists s,
    Signal.init env0 (Signal.PyArray (Arr1 [])) None = Ok s
    /\ Filter.init env0 (Signal.PyArray (Arr1 [])) None false = Ok (Filter.mk s false)
    /\ Signal.nsamples s = 0 /\ Signal.nchannels s = 1
    /\ ~ (Signal.nchannels s <= Signal.nsamples s).
Proof.
  eexists. split; [reflexivity |]. split; [reflexivity |].
  split; [reflexivity |]. split; [reflexivity |].
  unfold Signal.nchannels, Signal.nsamples, shape1. simpl. lia.
Qed.

Lemma rows_from_entry (k : nat) (a : array2 R) (i j : nat) :
  nth i (nth j (cols (rows_from k a)) []) 0%R = nth (k + i) (nth j (cols a) []) 0%R.
Proof.
  unfold rows_from. cbn [cols].
  destruct (Nat.lt_ge_cases j (length (cols a))) as [Hj | Hj].
  - rewrite (nth_indep _ [] (skipn k [])) by now rewrite length_map.
    rewrite (map_nth (skipn k)). apply nth_skipn.
  - rewrite (nth_overflow (map (skipn k) (cols a))) by (rewrite length_map; lia).
    rewrite (nth_overflow (cols a)) by lia.
    destruct i, k; reflexivity.
Qed.

(** What the constructor stores for a 2-D array: the array itself when
    it has no more columns than rows, and otherwise the array with rows
    and columns exchanged, entry by entry. *)
Lemma stored_orientation (a : array2 R) :
  shape1 (stored a) <= shape0 (stored a)
  /\ (shape0 a < shape1 a ->
      shape0 (stored a) = shape1 a /\ shape1 (stored a) = shape0 a
      /\ forall i j, i < shape0 a -> j < shape1 a ->
           nth j (nth i (cols (stored a)) []) 0%R = nth i (nth j (cols a) []) 0%R)
  /\ (shape1 a <= shape0 a -> stored a = a).
Proof.
  split; [apply tall_after_init |]. split.
  - intros H. rewrite (stored_wide a H).
    split; [apply shape0_transpose |]. split; [apply shape1_transpose |].
    intros i j Hi Hj. now apply transpose_entry.
  - apply stored_tall.
Qed.

(** C10, amended. A Signal or Filter built from a 2-D array with more
    columns than rows stores the transposed array: the numbers of rows
    and of columns are exchanged and entry (j, i) of the stored data is
    entry (i, j) of the array; a 2-D array with no more columns than
    rows is stored as it is; so the data built from a 2-D array has at
    least as many rows as columns, and the construction does not fail
    for the shape. A 1-D array of [n] values is stored as one column of
    [n] rows (which has at least as many rows as columns when the array
    is not empty). A Filter that [load] returns is built from the rows
    of the file below the two header rows in the same way. *)
Theorem constructor_orients_the_data
        (e : env) (a : array2 R) (v : list R) (sr : option R) (fir : bool)
        (file : string) (st : store) :
  (exists s,
     Signal.init e (Signal.PyArray (Arr2 a)) sr = Ok s
     /\ Filter.init e (Signal.PyArray (Arr2 a)) sr fir
        = (if fir && negb (have_scipy e)
           then Raise (ImportError "FIR filters require scipy.")
           else Ok (Filter.mk s fir))
     /\ Signal.samplerate s = Signal.get_samplerate e sr
     /\ Signal.nchannels s <= Signal.nsamples s
     /\ (shape0 a < shape1 a ->
         Signal.nsamples s = shape1 a /\ Signal.nchannels s = shape0 a
         /\ forall i j, i < shape0 a -> j < shape1 a ->
              sample s j i = nth i (nth j (cols a) []) 0%R)
     /\ (shape1 a <= shape0 a -> Signal.data s = a))
  /\ (exists s,
        Signal.init e (Signal.PyArray (Arr1 v)) sr = Ok s
        /\ Signal.nsamples s = length v
        /\ Signal.nchannels s = 1
        /\ cols (Signal.data s) = [v]
        /\ (Signal.nchannels s <= Signal.nsamples s <-> v <> []))
  /\ (forall f, Filter.load e file st = Ok f ->
        exists arr,
          st file = Some arr
          /\ Signal.nchannels f <= Signal.nsamples f
          /\ (shape0 arr - 2 < shape1 arr ->
              Signal.nsamples f = shape1 arr /\ Signal.nchannels f = shape0 arr - 2
              /\ forall i j, i < shape0 arr - 2 -> j < shape1 arr ->
                   sample f j i = nth (2 + i) (nth j (cols arr) []) 0%R)
          /\ (shape1 arr <= shape0 arr - 2 -> Signal.data f = rows_from 2 arr)).
Proof.
  split; [| split].
  - exists (Signal.mk (stored a) (Signal.get_samplerate e sr)).
    destruct (stored_orientation a) as [Htall [Hwide Hsame]].
    split; [apply Signal_init_array2 |].
    split; [apply Filter_init_array2 |].
    split; [reflexivity |]. split; [exact Htall |].
    split; [| exact Hsame].
    intros H. destruct (Hwide H) as [H0 [H1 Hent]].
    split; [exact H0 |]. split; [exact H1 |].
    intros i j Hi Hj. unfold sample. cbn [Signal.data]. now apply Hent.
  - eexists. split; [reflexivity |].
    unfold Signal.nsamples, Signal.nchannels, shape1. cbn [Signal.data shape0 cols length].
    do 3 (split; [reflexivity |]).
    destruct v as [| x v]; cbn [length]; split; intros H; try lia; try discriminate.
    now contradiction H.
  - intros f Hf. destruct (load_data _ _ _ _ Hf) as [arr [Hst Hd]].
    exists arr. split; [exact Hst |].
    unfold Signal.nchannels, Signal.nsamples, sample. rewrite Hd.
    destruct (stored_orientation (rows_from 2 arr)) as [Htall [Hwide Hsame]].
    assert (E0 : shape0 (rows_from 2 arr) = shape0 arr - 2) by reflexivity.
    assert (E1 : shape1 (rows_from 2 arr) = shape1 arr)
      by (unfold shape1, rows_from; cbn [cols]; apply length_map).
    rewrite E0, E1 in *.
    split; [exact Htall |]. split; [| exact Hsame].
    intros H. destruct (Hwide H) as [H0 [H1 Hent]].
    split; [exact H0 |]. split; [exact H1 |].
    intros i j Hi Hj. rewrite (Hent i j Hi Hj). apply rows_from_entry.
Qed.

(** A matrix of two rows and three columns is stored with three rows
    and two columns, entry (j, i) holding what entry (i, j) held. *)
Lemma constructor_orients_the_data_witness :
  exists s,
    Signal.init env0
      (Signal.PyArray (Arr2 (mk2 2 [[1; 2]; [3; 4]; [5; 6]]%R))) None = Ok s
    /\ Signal.nsamples s = 3 /\ Signal.nchannels s = 2
    /\ sample s 0 0 = 1%R /\ sample s 0 1 = 2%R
    /\ sample s 1 0 = 3%R /\ sample s 1 1 = 4%R
    /\ sample s 2 0 = 5%R /\ sample s 2 1 = 6%R.
Proof.
  destruct (constructor_orients_the_data env0 (mk2 2 [[1; 2]; [3; 4]; [5; 6]]%R)
              [] None false "bank.npy" no_files)
    as [[s [E [_ [_ [_ [Hwide _]]]]]] _].
  assert (H : shape0 (mk2 2 [[1; 2]; [3; 4]; [5; 6]]%R)
              < shape1 (mk2 2 [[1; 2]; [3; 4]; [5; 6]]%R))
    by (unfold shape1; simpl; lia).
  destruct (Hwide H) as [H0 [H1 Hent]].
  exists s. split; [exact E |]. split; [exact H0 |]. split; [exact H1 |].
  repeat split.
  - apply (Hent 0 0); unfold shape1; simpl; lia.
  - apply (Hent 1 0); unfold shape1; simpl; lia.
  - apply (Hent 0 1); unfold shape1; simpl; lia.
  - apply (Hent 1 1); unfold shape1; simpl; lia.
  - apply (Hent 0 2); unfold shape1; simpl; lia.
  - apply (Hent 1 2); unfold shape1; simpl; lia.
Defined.




(** A bank without filters is saved, but cannot be loaded: the file has
    no column to read the samplerate from. *)
Lemma roundtrip_fails_on_empty_bank :
  Filter.init env0 (Signal.PyArray (Arr2 (mk2 3 []))) (Some 8000%R) false
  = Ok empty_bank
  /\ exists st',
       Filter.save empty_bank "bank.npy" no_files = Ok st'
       /\ Filter.load env0 "bank.npy" st'
          = Raise (IndexError "index is out of bounds for axis 0").
Proof.
  split; [reflexivity |].
  eexists. split; [apply save_layout |]. reflexivity.
Qed.

(** A rank-1 array of [n] values is stored as one column of [n] rows. *)
Lemma Signal_init_array1 (e : env) (v : list R) (sr : option R) :
  Signal.init e (Signal.PyArray (Arr1 v)) sr
  = Ok (Signal.mk (mk2 (length v) [v]) (Signal.get_samplerate e sr)).
Proof. reflexivity. Qed.

(** ** The error monad *)

Lemma raises_Raise {A : Type} (x : exn) : raises (@Raise A x).
Proof. now exists x. Qed.

Lemma raises_bind {A B : Type} (c : result A) (k : A -> result B) :
  (forall a, c = Ok a -> raises (k a)) -> raises (bind c k).
Proof.
  intros Hk. destruct c as [a | x]; simpl; [now apply Hk | apply raises_Raise].
Qed.

Lemma raises_for_each {S : Type} (i : nat) (l : list nat)
      (body : nat -> S -> result S) (s : S) :
  raises (body i s) -> raises (for_each (i :: l) body s).
Proof.
  intros [x Hx]. exists x. cbn [for_each]. now rewrite Hx.
Qed.

Lemma bind_Ok {A B : Type} (c : result A) (k : A -> result B) (b : B) :
  bind c k = Ok b -> exists a, c = Ok a /\ k a = Ok b.
Proof.
  destruct c as [a | x]; simpl; intros H; [now exists a | discriminate].
Qed.

(** ** Which exception [apply] raises *)

Lemma no_rate_error_Ok {A : Type} (a : A) : no_rate_error (Ok a).
Proof. discriminate. Qed.

Lemma no_rate_error_bind {A B : Type} (c : result A) (k : A -> result B) :
  no_rate_error c -> (forall a, no_rate_error (k a)) -> no_rate_error (bind c k).
Proof.
  unfold no_rate_error. intros Hc Hk. destruct c as [a | x]; simpl; auto.
  intros H. apply Hc. congruence.
Qed.

Lemma no_rate_error_for_each {S : Type} (l : list nat)
      (body : nat -> S -> result S) (s : S) :
  (forall i s', no_rate_error (body i s')) -> no_rate_error (for_each l body s).
Proof.
  intros Hb. revert s. induction l as [| i l IH]; intros s; simpl.
  - apply no_rate_error_Ok.
  - apply no_rate_error_bind; auto.
Qed.

Ltac other_message :=
  unfold no_rate_error, Filter.rate_mismatch, no_fft_points; discriminate.

Lemma no_rate_error_column {A : Type} (a : array2 A) (j : nat) :
  no_rate_error (column a j).
Proof. unfold column. destruct (nth_error (cols a) j); other_message. Qed.

Lemma no_rate_error_set_col {A : Type} (a : array2 A) (j : nat) (v : list A) :
  no_rate_error (set_col a j v).
Proof.
  unfold set_col, broadcast_to.
  destruct (j <? shape1 a); [| other_message].
  destruct (length v =? shape0 a); [other_message |].
  destruct v as [| x [| y v]]; other_message.
Qed.

Lemma no_rate_error_lfilter (b : ndarray) (x : array2 R) :
  no_rate_error (scipy_signal.lfilter b x).
Proof. destruct b as [[| t bv] | a]; other_message. Qed.

Lemma no_rate_error_py_div (a b : R) : no_rate_error (py_div a b).
Proof. unfold py_div. destruct (Reqb b 0); other_message. Qed.

Lemma no_rate_error_rfftfreq (n : Z) (d : R) : no_rate_error (rfftfreq n d).
Proof.
  unfold rfftfreq. apply no_rate_error_bind;
    [apply no_rate_error_py_div | intros; apply no_rate_error_Ok].
Qed.

Lemma no_rate_error_interp (x xp : list R) (fp : ndarray) :
  no_rate_error (interp x xp fp).
Proof.
  unfold interp. destruct fp as [f | a]; [| other_message].
  destruct (length xp =? 0); [other_message |].
  destruct (negb (length f =? length xp)); other_message.
Qed.

Lemma no_rate_error_filter_bins (sp : list C) (g : list R) (j : nat) (o : array2 R) :
  no_rate_error (Filter.filter_bins sp g j o).
Proof.
  unfold Filter.filter_bins. apply no_rate_error_bind.
  - unfold mul_cr. destruct (length sp =? length g); [other_message |].
    destruct sp as [| z [| z' sp]]; destruct g as [| r [| r' g]]; other_message.
  - intros p. apply no_rate_error_bind; [| intros; apply no_rate_error_set_col].
    unfold fft_irfft. destruct (2 * (length p - 1) =? 0); other_message.
Qed.

Lemma no_rate_error_getitem_col (s : Signal.t) (j : nat) :
  no_rate_error (Signal.getitem_col s j).
Proof. apply no_rate_error_column. Qed.

Create HintDb rate.

#[local] Hint Resolve no_rate_error_Ok no_rate_error_column no_rate_error_set_col
  no_rate_error_lfilter no_rate_error_py_div no_rate_error_rfftfreq
  no_rate_error_interp no_rate_error_filter_bins
  no_rate_error_getitem_col : rate.

Ltac no_rate :=
  repeat first
    [ solve [auto with rate]
    | apply no_rate_error_for_each; intros
    | apply no_rate_error_bind; [| intros]
    | other_message ].

(** Past the comparison of the sampling rates, [apply] raises other
    exceptions only. *)
Lemma apply_rates_accepted (self : Filter.t) (sig : Signal.t) :
  negb (Reqb (Signal.samplerate self) (Signal.samplerate sig))
  && negb (Reqb (Signal.samplerate self) 1) = false ->
  no_rate_error (Filter.apply self sig).
Proof.
  intros H. unfold Filter.apply. rewrite H.
  destruct (Filter.fir self).
  - unfold Filter.apply_fir.
    destruct (Filter.nfilters self =? Signal.nchannels sig); [no_rate |].
    destruct ((Filter.nfilters self =? 1) && (1 <? Signal.nchannels sig)); [no_rate |].
    destruct ((1 <? Filter.nfilters self) && (Signal.nchannels sig =? 1)); no_rate.
  - apply no_rate_error_bind.
    { unfold fft_rfft. destruct (shape0 (Signal.data sig) =? 0); other_message. }
    intros sig_rfft. apply no_rate_error_bind; [auto with rate |]. intros d.
    apply no_rate_error_bind; [auto with rate |]. intros bins.
    apply no_rate_error_bind.
    { unfold Filter.frequencies. destruct (negb (Filter.fir self)); no_rate. }
    intros [fb |]; [| other_message]. unfold Filter.apply_fft.
    destruct (Filter.nfilters self =? Signal.nchannels sig); [no_rate |].
    destruct ((Filter.nfilters self =? 1) && (1 <? Signal.nchannels sig)); [no_rate |].
    destruct ((1 <? Filter.nfilters self) && (Signal.nchannels sig =? 1)); no_rate.
Qed.

(** C3, as stated, fails: a signal whose samplerate is 1 does not pass a
    filter of another samplerate. *)
Lemma sentinel_on_signal_is_rejected :
  let f := Filter.mk (Signal.mk (mk2 2 [[1; 1]]%R) 8000%R) false in
  let s := Signal.mk (mk2 4 [[1; 2; 3; 4]]%R) 1%R in
  Filter.apply f s = Raise (ValueError Filter.rate_mismatch)
  /\ ~ (Signal.samplerate f <> Signal.samplerate s
        /\ Signal.samplerate f <> 1%R /\ Signal.samplerate s <> 1%R).
Proof.
  cbv zeta. split.
  - unfold Filter.apply. cbn [Filter.base Signal.samplerate].
    rewrite !Reqb_neq by lra. reflexivity.
  - simpl. intros [_ [_ H]]. now apply H.
Qed.

(** C3, amended. [apply] raises the rate-mismatch error exactly when the
    samplerate of the filter differs from that of the signal and the
    samplerate of the filter is not 1; the samplerate of the signal is
    not compared with 1. *)
Theorem rate_error_iff (self : Filter.t) (sig : Signal.t) :
  Filter.apply self sig = Raise (ValueError Filter.rate_mismatch)
  <-> (Signal.samplerate self <> Signal.samplerate sig
       /\ Signal.samplerate self <> 1%R).
Proof.
  split.
  - intros H.
    destruct (negb (Reqb (Signal.samplerate self) (Signal.samplerate sig))
              && negb (Reqb (Signal.samplerate self) 1)) eqn:E.
    + apply andb_true_iff in E as [E1 E2].
      apply negb_true_iff in E1, E2.
      now apply Reqb_false_iff in E1; apply Reqb_false_iff in E2.
    + now apply apply_rates_accepted in E.
  - intros [H1 H2]. unfold Filter.apply.
    now rewrite (Reqb_neq _ _ H1), (Reqb_neq _ _ H2).
Qed.

(** ** The frequency axes of [apply] *)

Lemma length_bins_of (n : Z) (rate : R) :
  length (bins_of n rate) = Z.to_nat (n / 2 + 1).
Proof. unfold bins_of. now rewrite length_map, length_seq. Qed.

Lemma half_plus_one (n : nat) : Z.to_nat (Z.of_nat n / 2 + 1) = n / 2 + 1.
Proof.
  rewrite <- (Nat2Z.id (n / 2 + 1)). f_equal.
  rewrite Nat2Z.inj_add, Nat2Z.inj_div. reflexivity.
Qed.

Lemma filter_axis_length (n : nat) : Z.to_nat ((Z.of_nat n * 2 - 1) / 2 + 1) = n.
Proof.
  assert (H : ((Z.of_nat n * 2 - 1) / 2 = Z.of_nat n - 1)%Z).
  { symmetry. apply (Z.div_unique _ _ _ 1); lia. }
  rewrite H. lia.
Qed.

Lemma rfftfreq_rate (n : Z) (rate : R) :
  n <> 0%Z -> rate <> 0%R -> rfftfreq n (1 / rate) = Ok (bins_of n rate).
Proof.
  intros Hn Hr. unfold rfftfreq. rewrite py_div_ok; [reflexivity |].
  apply Rmult_integral_contrapositive_currified.
  - now apply not_0_IZR.
  - unfold Rdiv. rewrite Rmult_1_l. now apply Rinv_neq_0_compat.
Qed.

Lemma frequencies_of_spectrum (self : Filter.t) :
  Filter.fir self = false -> Signal.samplerate self <> 0%R ->
  Filter.frequencies self
  = Ok (Some (bins_of (Z.of_nat (Filter.ntaps self) * 2 - 1) (Signal.samplerate self))).
Proof.
  intros Hfir Hr. unfold Filter.frequencies. rewrite Hfir. cbn [negb].
  rewrite py_div_ok by assumption. cbn [bind].
  rewrite rfftfreq_rate; [reflexivity | lia | assumption].
Qed.

(** A frequency-domain filter on a signal that is not empty, at
    compatible and nonzero rates: [apply] is the dispatch on the shapes. *)
Lemma apply_spectrum (self : Filter.t) (sig : Signal.t) :
  Filter.fir self = false ->
  Signal.samplerate self = Signal.samplerate sig \/ Signal.samplerate self = 1%R ->
  1 <= Signal.nsamples sig ->
  Signal.samplerate sig <> 0%R ->
  Filter.apply self sig
  = Filter.apply_fft self sig
      (mk2 (Signal.nsamples sig / 2 + 1)
           (map (rfft1 (Signal.nsamples sig)) (cols (Signal.data sig))))
      (bins_of (Z.of_nat (Signal.nsamples sig)) (Signal.samplerate sig))
      (bins_of (Z.of_nat (Filter.ntaps self) * 2 - 1) (Signal.samplerate self)).
Proof.
  intros Hfir Hrate Hn Hs.
  assert (Hself : Signal.samplerate self <> 0%R).
  { destruct Hrate as [-> | ->]; [assumption | lra]. }
  unfold Filter.apply.
  assert (Hc : negb (Reqb (Signal.samplerate self) (Signal.samplerate sig))
               && negb (Reqb (Signal.samplerate self) 1) = false).
  { destruct Hrate as [-> | ->]; rewrite Reqb_refl; simpl;
      [reflexivity | apply andb_false_r]. }
  rewrite Hc, Hfir. unfold fft_rfft.
  unfold Signal.nsamples in *.
  destruct (shape0 (Signal.data sig) =? 0) eqn:E;
    [apply Nat.eqb_eq in E; lia |].
  cbn [bind]. rewrite py_div_ok by assumption. cbn [bind].
  rewrite rfftfreq_rate by (assumption || lia). cbn [bind].
  rewrite frequencies_of_spectrum by assumption. reflexivity.
Qed.

Lemma rates_accepted (self : Filter.t) (sig : Signal.t) :
  Signal.samplerate self = Signal.samplerate sig \/ Signal.samplerate self = 1%R ->
  negb (Reqb (Signal.samplerate self) (Signal.samplerate sig))
  && negb (Reqb (Signal.samplerate self) 1) = false.
Proof.
  intros [-> | ->]; rewrite Reqb_refl; simpl;
    [reflexivity | apply andb_false_r].
Qed.

Lemma apply_taps (self : Filter.t) (sig : Signal.t) :
  Filter.fir self = true ->
  Signal.samplerate self = Signal.samplerate sig \/ Signal.samplerate self = 1%R ->
  Filter.apply self sig = Filter.apply_fir self sig.
Proof.
  intros Hfir Hrate. unfold Filter.apply.
  now rewrite (rates_accepted _ _ Hrate), Hfir.
Qed.

(** C4, as stated, fails: a frequency-domain bank computes the spectrum
    of the signal before it compares the counts, and for a signal
    without samples (two channels cut to length 0 by [resize]) the
    transform raises its own ValueError, not the shape-mismatch error. *)
Lemma empty_signal_fails_before_the_dispatch :
  let sig := Signal.mk (mk2 0 [[]; []]) 8000%R in
  Signal.resize two_channels (Signal.Samples 0) = Ok sig
  /\ Signal.samplerate three_filters = Signal.samplerate sig
  /\ Filter.nfilters three_filters <> Signal.nchannels sig
  /\ Filter.nfilters three_filters <> 1
  /\ Signal.nchannels sig <> 1
  /\ Filter.apply three_filters sig = Raise (ValueError no_fft_points)
  /\ Filter.apply three_filters sig <> Raise (ValueError Filter.shape_mismatch).
Proof.
  cbv zeta.
  assert (H : Filter.apply three_filters (Signal.mk (mk2 0 [[]; []]) 8000%R)
              = Raise (ValueError no_fft_points)).
  { unfold Filter.apply. cbn [Filter.base three_filters Signal.samplerate].
    rewrite Reqb_refl. reflexivity. }
  split; [reflexivity |]. split; [reflexivity |].
  split; [shapes; lia |]. split; [shapes; lia |]. split; [shapes; lia |].
  split; [exact H |]. rewrite H. discriminate.
Qed.

(** C4, amended. At compatible rates, a filter bank whose number of
    filters differs from the number of channels of the signal, neither
    number being 1, produces no output. The exception is the
    shape-mismatch error for a FIR bank, and for a frequency-domain bank
    when the signal has at least one sample and a nonzero samplerate
    (the spectrum and the frequency axis of the signal are computed
    before the counts are compared). *)
Theorem mismatched_counts_rejected (self : Filter.t) (sig : Signal.t) :
  Signal.samplerate self = Signal.samplerate sig \/ Signal.samplerate self = 1%R ->
  Filter.nfilters self <> Signal.nchannels sig ->
  Filter.nfilters self <> 1 ->
  Signal.nchannels sig <> 1 ->
  raises (Filter.apply self sig)
  /\ ((Filter.fir self = false ->
       1 <= Signal.nsamples sig /\ Signal.samplerate sig <> 0%R) ->
      Filter.apply self sig = Raise (ValueError Filter.shape_mismatch)).
Proof.
  intros Hrate Hne HF HC.
  apply Nat.eqb_neq in Hne, HF, HC.
  assert (Hfir : Filter.apply_fir self sig = Raise (ValueError Filter.shape_mismatch)).
  { unfold Filter.apply_fir. rewrite Hne, HF, HC. cbn [andb]. now rewrite andb_false_r. }
  assert (Hfft : forall sp sb fb,
             Filter.apply_fft self sig sp sb fb = Raise (ValueError Filter.shape_mismatch)).
  { intros sp sb fb. unfold Filter.apply_fft.
    rewrite Hne, HF, HC. cbn [andb]. now rewrite andb_false_r. }
  split.
  - unfold Filter.apply. rewrite (rates_accepted _ _ Hrate).
    destruct (Filter.fir self); [rewrite Hfir; apply raises_Raise |].
    apply raises_bind. intros sp _. apply raises_bind. intros d _.
    apply raises_bind. intros sb _. apply raises_bind.
    intros [fb |] _; [rewrite Hfft |]; apply raises_Raise.
  - intros Hdom. destruct (Filter.fir self) eqn:E.
    + now rewrite apply_taps.
    + destruct (Hdom eq_refl) as [Hn Hs].
      rewrite apply_spectrum by assumption. apply Hfft.
Qed.

Lemma mismatched_counts_rejected_witness :
  Filter.apply three_filters two_channels = Raise (ValueError Filter.shape_mismatch).
Proof.
  apply (mismatched_counts_rejected three_filters two_channels).
  - left. reflexivity.
  - shapes. lia.
  - shapes. lia.
  - shapes. lia.
  - intros _. split; [shapes; lia | simpl; lra].
Defined.

(** ** Loops that fill an array column by column *)

Lemma firstn_update_snoc {A : Type} (k : nat) (v : A) (l : list A) :
  k < length l -> firstn (S k) (update k v l) = firstn k l ++ [v].
Proof.
  revert k; induction l as [| x l IH]; intros [| k] H; simpl in *; try lia.
  - reflexivity.
  - f_equal. apply IH. lia.
Qed.

Lemma for_each_columns {A : Type} (n : nat) (g : nat -> list A)
      (body : nat -> array2 A -> result (array2 A)) :
  forall m k cs,
    length cs = k + m ->
    (forall i od, k <= i < k + m -> shape0 od = n -> shape1 od = k + m ->
                  body i od = Ok (mk2 n (update i (g i) (cols od)))) ->
    for_each (seq k m) body (mk2 n cs) = Ok (mk2 n (firstn k cs ++ map g (seq k m))).
Proof.
  induction m as [| m IH]; intros k cs Hlen Hbody.
  - simpl. rewrite app_nil_r, firstn_all2 by lia. reflexivity.
  - cbn [seq for_each].
    rewrite Hbody; [| lia | reflexivity | exact Hlen].
    cbn [bind cols].
    rewrite IH.
    + rewrite firstn_update_snoc by lia. cbn [map].
      now rewrite <- app_assoc.
    + rewrite length_update. lia.
    + intros i od Hi H0 H1. apply Hbody; [lia | assumption | lia].
Qed.

Lemma for_range_columns {A : Type} (n F : nat) (g : nat -> list A)
      (body : nat -> array2 A -> result (array2 A)) (cs : list (list A)) :
  length cs = F ->
  (forall i od, i < F -> shape0 od = n -> shape1 od = F ->
                body i od = Ok (mk2 n (update i (g i) (cols od)))) ->
  for_range F body (mk2 n cs) = Ok (mk2 n (map g (seq 0 F))).
Proof.
  intros Hlen Hbody. unfold for_range.
  rewrite (for_each_columns n g body F 0 cs); [reflexivity | exact Hlen |].
  intros i od Hi. apply Hbody. lia.
Qed.

Lemma map_nth_range {A B : Type} (h : A -> B) (d : A) (l : list A) :
  map (fun i => h (nth i l d)) (seq 0 (length l)) = map h l.
Proof.
  induction l as [| x l IH]; [reflexivity |].
  cbn [length seq map nth]. f_equal.
  rewrite <- seq_shift, map_map. exact IH.
Qed.

Lemma column_nth {A : Type} (d : list A) (a : array2 A) (j : nat) :
  j < shape1 a -> column a j = Ok (nth j (cols a) d).
Proof.
  intros H. unfold column. now rewrite (nth_error_nth' _ d H).
Qed.

Lemma set_col_fits {A : Type} (a : array2 A) (j : nat) (v : list A) :
  j < shape1 a -> length v = shape0 a ->
  set_col a j v = Ok (mk2 (shape0 a) (update j v (cols a))).
Proof.
  intros Hj Hv. unfold set_col, broadcast_to.
  apply Nat.ltb_lt in Hj. rewrite Hj, Hv, Nat.eqb_refl. reflexivity.
Qed.

Lemma broadcast_needs_length {A : Type} (n : nat) (v : list A) :
  length v <> n -> 2 <= length v ->
  broadcast_to n v = Raise (ValueError "could not broadcast input array").
Proof.
  intros Hn H2. unfold broadcast_to.
  apply Nat.eqb_neq in Hn. rewrite Hn.
  destruct v as [| a [| b v]]; simpl in H2; try lia. reflexivity.
Qed.

Lemma flatten_one_column {A : Type} (d : A) (n : nat) (c : list A) :
  length c = n -> flatten d (mk2 n [c]) = c.
Proof.
  intros <-. unfold flatten. cbn [cols shape0 map].
  induction c as [| x c IH]; [reflexivity |].
  cbn [length seq flat_map nth app]. f_equal.
  rewrite <- seq_shift, flat_map_concat_map, map_map, <- flat_map_concat_map.
  exact IH.
Qed.

Lemma even_half (n : nat) : Nat.even n = true -> 2 * (n / 2) = n.
Proof.
  intros H. apply Nat.even_spec in H as [k ->].
  rewrite (Nat.mul_comm 2 k), Nat.div_mul by lia. lia.
Qed.

Lemma odd_half (n : nat) : Nat.odd n = true -> 2 * (n / 2) = n - 1.
Proof.
  intros H. apply Nat.odd_spec in H as [k ->].
  replace (2 * k + 1) with (1 + k * 2) by lia.
  rewrite Nat.div_add by lia. simpl. lia.
Qed.

Lemma length_rfft1 (n : nat) (x : list R) : length (rfft1 n x) = n / 2 + 1.
Proof. unfold rfft1. now rewrite length_map, length_seq. Qed.

Lemma length_irfft1 (n : nat) (X : list C) : length (irfft1 n X) = n.
Proof. unfold irfft1. now rewrite length_map, length_seq. Qed.

Lemma length_lfilter1 (b x : list R) : length (scipy_signal.lfilter1 b x) = length x.
Proof. unfold scipy_signal.lfilter1. now rewrite length_map, length_seq. Qed.

(** ** Filtering one channel *)

Lemma interp_rank1 (x xp fp : list R) :
  1 <= length xp -> length fp = length xp ->
  interp x xp (Arr1 fp) = Ok (interp_values x xp fp).
Proof.
  intros H1 H2. unfold interp.
  destruct (length xp =? 0) eqn:E; [apply Nat.eqb_eq in E; lia |].
  rewrite H2, Nat.eqb_refl. reflexivity.
Qed.

Lemma filter_bins_transform (sp : list C) (g : list R) (j : nat) (od : array2 R) :
  length sp = length g -> 2 <= length sp ->
  Filter.filter_bins sp g j od
  = set_col od j (irfft1 (2 * (length sp - 1))
                         (map (fun p => cscale (fst p) (snd p)) (combine sp g))).
Proof.
  intros Hg H2. unfold Filter.filter_bins, mul_cr.
  rewrite Hg, Nat.eqb_refl. cbn [bind]. unfold fft_irfft.
  rewrite length_map, length_combine, <- Hg, Nat.min_id.
  destruct (2 * (length sp - 1) =? 0) eqn:E; [apply Nat.eqb_eq in E; lia |].
  reflexivity.
Qed.

(** The spectrum of a signal of one channel, flattened, and the gains of
    filter [i] at the bins of the signal: what one pass of the fan-out
    loop hands to [filter_bins]. *)
Lemma fan_out_pass (self : Filter.t) (sig : Signal.t) (x : list R)
      (i : nat) (od : array2 R) :
  wf (Signal.data self) -> 1 <= Filter.ntaps self -> i < Filter.nfilters self ->
  cols (Signal.data sig) = [x] -> 2 <= Signal.nsamples sig ->
  (fp <- Signal.getitem_col self i ;;
   _filt <- interp (bins_of (Z.of_nat (Signal.nsamples sig)) (Signal.samplerate sig))
                   (bins_of (Z.of_nat (Filter.ntaps self) * 2 - 1) (Signal.samplerate self))
                   (Arr1 fp) ;;
   Filter.filter_bins
     (flatten (0%R, 0%R)
        (mk2 (Signal.nsamples sig / 2 + 1)
             (map (rfft1 (Signal.nsamples sig)) (cols (Signal.data sig)))))
     _filt i od)
  = set_col od i
      (spectrum_filtered (2 * (Signal.nsamples sig / 2)) (Signal.nsamples sig)
         (bins_of (Z.of_nat (Signal.nsamples sig)) (Signal.samplerate sig))
         (bins_of (Z.of_nat (Filter.ntaps self) * 2 - 1) (Signal.samplerate self))
         x (nth i (cols (Signal.data self)) [])).
Proof.
  intros Hwf Ht Hi Hx Hn.
  unfold Signal.getitem_col. rewrite (column_nth []) by exact Hi. cbn [bind].
  rewrite interp_rank1.
  - cbn [bind]. rewrite Hx. cbn [map].
    rewrite flatten_one_column by apply length_rfft1.
    assert (Hhalf : 1 <= Signal.nsamples sig / 2).
    { apply Nat.div_le_lower_bound; lia. }
    rewrite filter_bins_transform.
    + rewrite length_rfft1. unfold spectrum_filtered.
      replace (Signal.nsamples sig / 2 + 1 - 1) with (Signal.nsamples sig / 2) by lia.
      reflexivity.
    + rewrite length_rfft1. unfold interp_values.
      now rewrite length_map, length_bins_of, half_plus_one.
    + rewrite length_rfft1. lia.
  - rewrite length_bins_of, filter_axis_length. exact Ht.
  - rewrite length_bins_of, filter_axis_length.
    unfold wf in Hwf. rewrite Forall_forall in Hwf.
    apply Hwf, nth_In. exact Hi.
Qed.

(** Fan-out of a frequency-domain bank over a signal with an even
    number of samples: channel [i] of the output is the input channel
    shaped by filter [i]. *)
Lemma fan_out_spectrum_even (self : Filter.t) (sig : Signal.t) (x : list R) :
  Filter.fir self = false ->
  Signal.samplerate self = Signal.samplerate sig \/ Signal.samplerate self = 1%R ->
  wf (Signal.data self) -> 1 <= Filter.ntaps self -> 1 < Filter.nfilters self ->
  cols (Signal.data sig) = [x] ->
  Nat.even (Signal.nsamples sig) = true -> 2 <= Signal.nsamples sig ->
  Signal.samplerate sig <> 0%R ->
  Filter.apply self sig
  = Ok (Signal.mk
          (mk2 (Signal.nsamples sig)
               (map (spectrum_filtered (Signal.nsamples sig) (Signal.nsamples sig)
                       (bins_of (Z.of_nat (Signal.nsamples sig)) (Signal.samplerate sig))
                       (bins_of (Z.of_nat (Filter.ntaps self) * 2 - 1)
                                (Signal.samplerate self))
                       x)
                    (cols (Signal.data self))))
          (Signal.samplerate sig)).
Proof.
  intros Hfir Hrate Hwf Ht HF Hx Hev Hn Hs.
  rewrite apply_spectrum by (assumption || lia).
  unfold Filter.apply_fft.
  assert (HC : Signal.nchannels sig = 1).
  { unfold Signal.nchannels, shape1. now rewrite Hx. }
  rewrite HC.
  destruct (Filter.nfilters self =? 1) eqn:E1; [apply Nat.eqb_eq in E1; lia |].
  cbn [andb Nat.eqb].
  replace (1 <? Filter.nfilters self) with true by (symmetry; now apply Nat.ltb_lt).
  cbn [andb]. unfold empty, zeros.
  rewrite (for_range_columns (Signal.nsamples sig) (Filter.nfilters self)
             (fun i => spectrum_filtered (Signal.nsamples sig) (Signal.nsamples sig)
                         (bins_of (Z.of_nat (Signal.nsamples sig)) (Signal.samplerate sig))
                         (bins_of (Z.of_nat (Filter.ntaps self) * 2 - 1)
                                  (Signal.samplerate self))
                         x (nth i (cols (Signal.data self)) []))).
  - cbn [bind]. unfold Filter.with_data. do 3 f_equal.
    unfold Filter.nfilters, Signal.nchannels, shape1.
    apply (map_nth_range
             (spectrum_filtered (Signal.nsamples sig) (Signal.nsamples sig)
                (bins_of (Z.of_nat (Signal.nsamples sig)) (Signal.samplerate sig))
                (bins_of (Z.of_nat (Filter.ntaps self) * 2 - 1) (Signal.samplerate self))
                x)).
  - apply repeat_length.
  - intros i od Hi H0 H1.
    rewrite (fan_out_pass self sig x) by assumption.
    rewrite (even_half _ Hev).
    rewrite set_col_fits; [now rewrite H0 | lia |].
    unfold spectrum_filtered. now rewrite length_irfft1.
Qed.

Lemma lfilter_rank1 (b : list R) (x : array2 R) :
  1 <= length b ->
  scipy_signal.lfilter (Arr1 b) x
  = Ok (mk2 (shape0 x) (map (scipy_signal.lfilter1 b) (cols x))).
Proof.
  intros H. destruct b as [| t b]; [simpl in H; lia | reflexivity].
Qed.

(** Fan-out of a FIR bank: channel [i] of the output is the input
    channel run through the taps of filter [i]. *)
Lemma fan_out_taps (self : Filter.t) (sig : Signal.t) (x : list R) :
  Filter.fir self = true ->
  Signal.samplerate self = Signal.samplerate sig \/ Signal.samplerate self = 1%R ->
  wf (Signal.data self) -> 1 <= Filter.ntaps self ->
  1 < Filter.nfilters self ->
  cols (Signal.data sig) = [x] -> length x = Signal.nsamples sig ->
  Filter.apply self sig
  = Ok (Signal.mk
          (mk2 (Signal.nsamples sig)
               (map (fun b => scipy_signal.lfilter1 b x) (cols (Signal.data self))))
          (Signal.samplerate sig)).
Proof.
  intros Hfir Hrate Hwf Ht HF Hx Hlen.
  rewrite apply_taps by assumption. unfold Filter.apply_fir.
  assert (HC : Signal.nchannels sig = 1).
  { unfold Signal.nchannels, shape1. now rewrite Hx. }
  rewrite HC.
  destruct (Filter.nfilters self =? 1) eqn:E1; [apply Nat.eqb_eq in E1; lia |].
  cbn [andb Nat.eqb].
  replace (1 <? Filter.nfilters self) with true by (symmetry; now apply Nat.ltb_lt).
  cbn [andb]. unfold empty, zeros.
  rewrite (for_range_columns (Signal.nsamples sig) (Filter.nfilters self)
             (fun i => scipy_signal.lfilter1 (nth i (cols (Signal.data self)) []) x)).
  - cbn [bind]. unfold Filter.with_data. do 3 f_equal.
    unfold Filter.nfilters, Signal.nchannels, shape1.
    apply (map_nth_range (fun b => scipy_signal.lfilter1 b x)).
  - apply repeat_length.
  - intros i od Hi H0 H1.
    unfold Signal.getitem_col. rewrite (column_nth []) by exact Hi.
    cbn [bind]. rewrite lfilter_rank1.
    2: { unfold wf in Hwf. rewrite Forall_forall in Hwf.
         rewrite (Hwf (nth i (cols (Signal.data self)) [])) by (apply nth_In; exact Hi).
         exact Ht. }
    cbn [bind cols]. rewrite Hx. cbn [map].
    rewrite flatten_one_column by (now rewrite length_lfilter1).
    rewrite set_col_fits; [now rewrite H0 | lia |].
    rewrite length_lfilter1. fold (Signal.nsamples sig). lia.
Qed.

(** C2. Fan-out of a frequency-domain bank over a signal with an odd
    number of samples does not return: [numpy.fft.irfft], called without
    a length, gives one sample less than the signal has, and the
    assignment into the first output column fails. (For a FIR bank, and
    for a frequency-domain bank on an even number of samples, the
    fan-out is as the claim says: [fan_out_taps], [fan_out_spectrum_even].) *)
Theorem fan_out_fails_on_odd_length (self : Filter.t) (sig : Signal.t) (x : list R) :
  Filter.fir self = false ->
  Signal.samplerate self = Signal.samplerate sig \/ Signal.samplerate self = 1%R ->
  wf (Signal.data self) -> 1 <= Filter.ntaps self -> 1 < Filter.nfilters self ->
  cols (Signal.data sig) = [x] ->
  Nat.odd (Signal.nsamples sig) = true -> 3 <= Signal.nsamples sig ->
  Signal.samplerate sig <> 0%R ->
  Filter.apply self sig = Raise (ValueError "could not broadcast input array").
Proof.
  intros Hfir Hrate Hwf Ht HF Hx Hodd Hn Hs.
  rewrite apply_spectrum by (assumption || lia).
  unfold Filter.apply_fft.
  assert (HC : Signal.nchannels sig = 1).
  { unfold Signal.nchannels, shape1. now rewrite Hx. }
  rewrite HC.
  destruct (Filter.nfilters self =? 1) eqn:E1; [apply Nat.eqb_eq in E1; lia |].
  cbn [andb Nat.eqb].
  replace (1 <? Filter.nfilters self) with true by (symmetry; now apply Nat.ltb_lt).
  cbn [andb]. unfold for_range.
  destruct (Filter.nfilters self) as [| F'] eqn:EF; [lia |].
  cbn [seq for_each].
  rewrite (fan_out_pass self sig x) by (assumption || lia).
  rewrite (odd_half _ Hodd).
  unfold set_col, empty, zeros, shape1. cbn [cols shape0 repeat length Nat.ltb Nat.leb].
  rewrite broadcast_needs_length; [reflexivity | |];
    unfold spectrum_filtered; rewrite length_irfft1; lia.
Qed.

Lemma fan_out_fails_on_odd_length_witness :
  Filter.apply two_filters three_samples
  = Raise (ValueError "could not broadcast input array").
Proof.
  apply (fan_out_fails_on_odd_length two_filters three_samples [1; 2; 3]%R).
  - reflexivity.
  - left. reflexivity.
  - repeat constructor.
  - shapes. lia.
  - shapes. lia.
  - reflexivity.
  - reflexivity.
  - shapes. lia.
  - simpl. lra.
Defined.

(** C1. One filter is not broadcast over the channels of a signal:
    the call passes the whole 2-D [self.data] where a rank-1 sequence of
    coefficients (FIR) or of gains (frequency domain) is required, and
    the library raises. *)
Theorem one_filter_is_not_broadcast (self : Filter.t) (sig : Signal.t) :
  Signal.samplerate self = Signal.samplerate sig \/ Signal.samplerate self = 1%R ->
  Filter.nfilters self = 1 -> 1 < Signal.nchannels sig ->
  (Filter.fir self = false ->
   1 <= Signal.nsamples sig /\ Signal.samplerate sig <> 0%R) ->
  Filter.apply self sig = Raise (ValueError "object too deep for desired array").
Proof.
  intros Hrate HF HC Hfft.
  assert (E : (Filter.nfilters self =? Signal.nchannels sig) = false).
  { apply Nat.eqb_neq. lia. }
  assert (E' : (1 <? Signal.nchannels sig) = true) by now apply Nat.ltb_lt.
  destruct (Filter.fir self) eqn:Hfir.
  - rewrite apply_taps by assumption. unfold Filter.apply_fir.
    rewrite E, E', HF. reflexivity.
  - destruct (Hfft eq_refl) as [Hn Hs].
    rewrite apply_spectrum by assumption. unfold Filter.apply_fft.
    rewrite E, E', HF. reflexivity.
Qed.

Lemma one_filter_is_not_broadcast_witness :
  Filter.apply one_filter two_channels
  = Raise (ValueError "object too deep for desired array").
Proof.
  apply one_filter_is_not_broadcast.
  - left. reflexivity.
  - reflexivity.
  - shapes. lia.
  - intros _. split; [shapes; lia | simpl; lra].
Defined.

(** The same frequency-domain filter on one channel, taken out of the
    signal as a signal of its own, does filter it (on an even number of
    samples). *)
Lemma one_filter_on_one_channel (self : Filter.t) (sig : Signal.t) (x : list R) :
  Filter.fir self = false ->
  Signal.samplerate self = Signal.samplerate sig \/ Signal.samplerate self = 1%R ->
  wf (Signal.data self) -> 1 <= Filter.ntaps self -> Filter.nfilters self = 1 ->
  Signal.data sig = mk2 (length x) [x] ->
  Nat.even (length x) = true -> 2 <= length x ->
  Signal.samplerate sig <> 0%R ->
  Filter.apply self sig
  = Ok (Signal.mk
          (mk2 (length x)
               [spectrum_filtered (length x) (length x)
                  (bins_of (Z.of_nat (length x)) (Signal.samplerate sig))
                  (bins_of (Z.of_nat (Filter.ntaps self) * 2 - 1) (Signal.samplerate self))
                  x (nth 0 (cols (Signal.data self)) [])])
          (Signal.samplerate sig)).
Proof.
  intros Hfir Hrate Hwf Ht HF Hd Hev Hn Hs.
  assert (Hns : Signal.nsamples sig = length x).
  { unfold Signal.nsamples. now rewrite Hd. }
  assert (HC : Signal.nchannels sig = 1).
  { unfold Signal.nchannels, shape1. now rewrite Hd. }
  rewrite apply_spectrum by (assumption || lia).
  unfold Filter.apply_fft. rewrite HF, HC, Hns. cbn [Nat.eqb].
  rewrite Hd. cbn [cols map].
  rewrite (for_range_columns (length x) 1
             (fun i => spectrum_filtered (length x) (length x)
                         (bins_of (Z.of_nat (length x)) (Signal.samplerate sig))
                         (bins_of (Z.of_nat (Filter.ntaps self) * 2 - 1)
                                  (Signal.samplerate self))
                         x (nth i (cols (Signal.data self)) []))).
  - reflexivity.
  - reflexivity.
  - intros i od Hi H0 H1. assert (i = 0) as -> by lia.
    assert (HF' : shape1 (Signal.data self) = 1) by exact HF.
    unfold Signal.getitem_col.
    rewrite (column_nth []) by lia.
    cbn [bind]. rewrite interp_rank1.
    + cbn [bind]. unfold column. cbn [cols nth_error bind].
      assert (Hhalf : 1 <= length x / 2) by (apply Nat.div_le_lower_bound; lia).
      rewrite filter_bins_transform.
      * rewrite length_rfft1.
        replace (length x / 2 + 1 - 1) with (length x / 2) by lia.
        rewrite (even_half _ Hev).
        rewrite set_col_fits; [now rewrite H0 | lia |].
        now rewrite length_irfft1.
      * rewrite length_rfft1. unfold interp_values.
        now rewrite length_map, length_bins_of, half_plus_one.
      * rewrite length_rfft1. lia.
    + rewrite length_bins_of, filter_axis_length. exact Ht.
    + rewrite length_bins_of, filter_axis_length.
      unfold wf in Hwf. rewrite Forall_forall in Hwf.
      apply Hwf, nth_In. unfold shape1 in HF'. lia.
Qed.

(** ** Rounding *)

Lemma Rfloor_spec (x : R) : (IZR (Rfloor x) <= x < IZR (Rfloor x) + 1)%R.
Proof.
  unfold Rfloor. rewrite minus_IZR. destruct (archimed x) as [H1 H2]. lra.
Qed.

Lemma py_round_near (x : R) :
  (x - 1 / 2 <= IZR (py_round x) <= x + 1 / 2)%R.
Proof.
  pose proof (Rfloor_spec x) as [H1 H2]. unfold py_round.
  unfold Rltb.
  destruct (Rlt_dec (x - IZR (Rfloor x)) (1 / 2)) as [Ha | Ha]; [lra |].
  destruct (Rlt_dec (1 / 2) (x - IZR (Rfloor x))) as [Hb | Hb].
  - rewrite plus_IZR. lra.
  - destruct (Z.even (Rfloor x)); [lra | rewrite plus_IZR; lra].
Qed.


Lemma py_round_above (x : R) (k : Z) : (IZR k < x)%R -> (k <= py_round x)%Z.
Proof.
  intros Hx. pose proof (py_round_near x) as [H _].
  assert (H' : (IZR k - 1 < IZR (py_round x))%R) by lra.
  rewrite <- minus_IZR in H'. apply lt_IZR in H'. lia.
Qed.

(** ** Rectangular filters *)

Lemma resolution_value (samplerate : R) (length : Z) :
  samplerate <> 0%R -> length <> 0%Z ->
  resolution samplerate length = (samplerate / (2 * IZR length))%R.
Proof.
  intros Hs Hl. unfold resolution.
  assert (IZR length <> 0%R) by now apply not_0_IZR.
  field. auto.
Qed.



Lemma nth_repeat_zero (i n : nat) : nth i (repeat 0%R n) 0%R = 0%R.
Proof.
  revert i; induction n as [| n IH]; intros [| i]; simpl; auto.
Qed.

Lemma length_slice_assign (v : list R) (a b : option Z) (x : R) :
  length (slice_assign v a b x) = length v.
Proof. unfold slice_assign. now rewrite length_map, length_seq. Qed.




Lemma zeros_mask (L : nat) : repeat 0%R L = mask L (fun _ => false).
Proof.
  unfold mask. generalize 0. induction L as [| L IH]; intros s0; simpl.
  - reflexivity.
  - f_equal. apply IH.
Qed.


Lemma edge_bin_scalar (f df : R) :
  df <> 0%R -> Filter.edge_bin (Edge f) df = Ok (py_round (f / df)).
Proof. intros H. unfold Filter.edge_bin. now rewrite py_div_ok. Qed.

Lemma edge_bin_at_pair (f0 f1 df : R) (i : nat) :
  df <> 0%R ->
  Filter.edge_bin_at (Edges f0 f1) i df
  = Ok (py_round ((if i =? 0 then f0 else f1) / df)).
Proof. intros H. unfold Filter.edge_bin_at. now rewrite py_div_ok. Qed.

Lemma resolution_nonzero (samplerate : R) (length : Z) :
  samplerate <> 0%R -> length <> 0%Z -> resolution samplerate length <> 0%R.
Proof.
  intros Hs Hl. rewrite resolution_value by assumption.
  assert (IZR length <> 0%R) by now apply not_0_IZR.
  unfold Rdiv. apply Rmult_integral_contrapositive_currified; [assumption |].
  apply Rinv_neq_0_compat. lra.
Qed.

(** The start of the frequency-domain branch of [rectangular_filter]:
    the two divisions and the allocation succeed. *)
Ltac mask_branch Hs Hl :=
  unfold Filter.rectangular_filter;
  cbv [String.eqb Ascii.eqb Bool.eqb];
  rewrite py_div_ok by lra;
  cbn [bind];
  rewrite py_div_ok
    by (apply Rmult_integral_contrapositive_currified;
        [ unfold Rdiv; rewrite Rmult_1_l; apply Rinv_neq_0_compat; lra
        | apply not_0_IZR; lia ]);
  cbn [bind];
  match goal with
  | |- context [(?L <? 0)%Z] =>
      replace (L <? 0)%Z with false by (symmetry; apply Z.ltb_ge; lia)
  end;
  cbn [bind];
  rewrite ?edge_bin_scalar, ?edge_bin_at_pair
    by (apply resolution_nonzero; [lra | lia]);
  cbn [bind Nat.eqb];
  unfold Filter.init, Signal.init; cbn [andb bind Signal.get_samplerate];
  rewrite ?length_slice_assign, ?repeat_length.

Section RectangularMasks.

Context {D : FilterDesign}.
Variables (e : env) (samplerate : option R) (L : Z).

Let sr : R := Signal.get_samplerate e samplerate.

Hypothesis rate_positive : (0 < sr)%R.
Hypothesis length_positive : (0 < L)%Z.

Let built (m : list R) : result Filter.t :=
  Ok (Filter.mk (Signal.mk (mk2 (Z.to_nat L) [m]) sr) false).





(** The kind "bs", which the docstring gives for a bandstop and which
    the FIR branch accepts, matches no case of the frequency-domain
    branch: every gain stays 0. *)
Lemma bandstop_mask (frequency : freq_arg) :
  Filter.rectangular_filter e frequency "bs" samplerate L false
  = built (repeat 0%R (Z.to_nat L)).
Proof.
  unfold built. subst sr. mask_branch rate_positive length_positive.
  reflexivity.
Qed.

End RectangularMasks.

(** C7. With [fir = false] and the kind "bs" (bandstop), the filter
    returned has one column of [length] gains that are all 0: the
    complement of the band is not set to 1. (The kinds "lp", "hp", "bp"
    and "notch" give the masks of the claim: [lowpass_mask],
    [highpass_mask], [bandpass_mask], [notch_mask].) *)
Theorem bandstop_kind_leaves_mask_empty
        {D : FilterDesign} (e : env) (frequency : freq_arg)
        (samplerate : option R) (L : Z) :
  (0 < Signal.get_samplerate e samplerate)%R -> (0 < L)%Z ->
  exists f,
    Filter.rectangular_filter e frequency "bs" samplerate L false = Ok f
    /\ Filter.fir f = false
    /\ Filter.nfilters f = 1
    /\ Filter.nfrequencies f = Z.to_nat L
    /\ cols (Signal.data f) = [mask (Z.to_nat L) (fun _ => false)].
Proof.
  intros Hs Hl. eexists. split; [now apply bandstop_mask |].
  repeat split. cbn [Filter.base Signal.data cols]. now rewrite zeros_mask.
Qed.

Lemma bandstop_kind_leaves_mask_empty_witness :
  exists f,
    Filter.rectangular_filter env0 (Edges 1000 2000) "bs" (Some 8000%R) 8 false = Ok f
    /\ Filter.fir f = false
    /\ Filter.nfilters f = 1
    /\ Filter.nfrequencies f = 8
    /\ cols (Signal.data f) = [[0; 0; 0; 0; 0; 0; 0; 0]%R].
Proof.
  apply (bandstop_kind_leaves_mask_empty env0 (Edges 1000 2000) (Some 8000%R) 8).
  - simpl. lra.
  - lia.
Defined.

(** C8. With [fir = true], a valid kind and scipy available, the
    construction fails: [firwin] is called with the keyword
    [samplerate], which it does not have. *)
Theorem fir_design_call_is_refused
        {D : FilterDesign} (e : env) (frequency : freq_arg) (kind : string)
        (samplerate : option R) (L : Z) :
  have_scipy e = true ->
  In kind ["lp"; "bs"; "hp"; "bp"]%string ->
  Filter.rectangular_filter e frequency kind samplerate L true
  = Raise (TypeError "firwin() got an unexpected keyword argument 'samplerate'").
Proof.
  intros Hsci Hk. unfold Filter.rectangular_filter. rewrite Hsci.
  destruct Hk as [<- | [<- | [<- | [<- | []]]]]; reflexivity.
Qed.

Lemma fir_design_call_is_refused_witness :
  Filter.rectangular_filter env0 (Edge 3000) "lp" (Some 8000%R) 101 true
  = Raise (TypeError "firwin() got an unexpected keyword argument 'samplerate'").
Proof.
  apply fir_design_call_is_refused.
  - reflexivity.
  - simpl. auto.
Defined.

(** Without scipy the same call fails on the name [scipy]. *)
Lemma fir_design_needs_scipy
      {D : FilterDesign} (e : env) (frequency : freq_arg) (kind : string)
      (samplerate : option R) (L : Z) :
  have_scipy e = false ->
  Filter.rectangular_filter e frequency kind samplerate L true
  = Raise (NameError "scipy").
Proof.
  intros Hsci. unfold Filter.rectangular_filter. rewrite Hsci. cbn [negb].
  destruct (existsb (String.eqb kind) ["lp"; "bs"]%string); [reflexivity |].
  destruct (existsb (String.eqb kind) ["hp"; "bp"]%string); reflexivity.
Qed.

(** ** The cosine filter bank *)

Lemma firstn_seq_le (k s n : nat) : k <= n -> firstn k (seq s n) = seq s k.
Proof.
  revert s n; induction k as [| k IH]; intros s [| n] H; simpl; try lia; auto.
  f_equal. apply IH. lia.
Qed.

Lemma nth_update_other {A : Type} (j k : nat) (v d : A) (l : list A) :
  j <> k -> nth k (update j v l) d = nth k l d.
Proof.
  revert j k; induction l as [| x l IH]; intros [| j] [| k] H; simpl; auto; try lia.
Qed.

(** A loop whose pass [i] rewrites column [i] from what the column
    held. *)
Lemma for_each_rewrites_columns {A : Type} (n : nat) (g : nat -> list A -> list A)
      (body : nat -> array2 A -> result (array2 A)) :
  forall m k cs,
    length cs = k + m ->
    (forall i od, k <= i < k + m -> shape0 od = n -> shape1 od = k + m ->
                  body i od = Ok (mk2 n (update i (g i (nth i (cols od) [])) (cols od)))) ->
    for_each (seq k m) body (mk2 n cs)
    = Ok (mk2 n (firstn k cs ++ map (fun i => g i (nth i cs [])) (seq k m))).
Proof.
  induction m as [| m IH]; intros k cs Hlen Hbody.
  - simpl. rewrite app_nil_r, firstn_all2 by lia. reflexivity.
  - cbn [seq for_each].
    rewrite Hbody; [| lia | reflexivity | exact Hlen].
    cbn [bind cols].
    rewrite IH.
    + rewrite firstn_update_snoc by lia. cbn [map].
      rewrite <- app_assoc. cbn [app]. do 4 f_equal.
      apply map_ext_in. intros i Hi. apply in_seq in Hi.
      rewrite nth_update_other by lia. reflexivity.
    + rewrite length_update. lia.
    + intros i od Hi H0 H1. apply Hbody; [lia | assumption | lia].
Qed.

Lemma cos_column_pass (center_freqs freqs_erb : list R) (erb_spacing : R)
      (i : nat) (filts : array2 R) :
  i < shape1 filts ->
  Filter.cos_column center_freqs freqs_erb erb_spacing i filts
  = Ok (mk2 (shape0 filts)
            (update i
               (map (fun p =>
                       if Rltb (nth i center_freqs 0%R - erb_spacing) (snd p)
                          && Rltb (snd p) (nth i center_freqs 0%R + erb_spacing)
                       then cos ((snd p - nth i center_freqs 0%R) / (2 * erb_spacing) * PI)
                       else fst p)
                    (combine (nth i (cols filts) []) freqs_erb))
               (cols filts))).
Proof.
  intros Hi. unfold Filter.cos_column.
  rewrite (column_nth []) by exact Hi. reflexivity.
Qed.

Lemma half_cosine_on_zeros (centre spacing : R) (freqs_erb : list R) :
  map (fun p => if Rltb (centre - spacing) (snd p) && Rltb (snd p) (centre + spacing)
                then cos ((snd p - centre) / (2 * spacing) * PI) else fst p)
      (combine (repeat 0%R (length freqs_erb)) freqs_erb)
  = half_cosine centre spacing freqs_erb.
Proof.
  unfold half_cosine. induction freqs_erb as [| fe l IH]; [reflexivity |].
  cbn [length repeat combine map fst snd]. now rewrite IH.
Qed.

Lemma nth_repeat_lt {A : Type} (x d : A) (i n : nat) :
  i < n -> nth i (repeat x n) d = x.
Proof.
  revert i; induction n as [| n IH]; intros [| i] H; simpl; try lia; auto.
  apply IH. lia.
Qed.

Lemma length_interior_points (l h : R) (n : nat) :
  length (interior_points l h n) = n - 2.
Proof. unfold interior_points. now rewrite length_map, length_seq. Qed.

Lemma linspace_interior (l h : R) (n : nat) :
  2 <= n ->
  py_slice
    (map (fun i => if (i =? n - 1) && (1 <? n) then h
                   else (l + INR i * ((h - l) / INR (n - 1)))%R)
         (seq 0 n))
    (Some 1%Z) (Some (-1)%Z)
  = interior_points l h n.
Proof.
  intros Hn. unfold py_slice, slice_bound. rewrite length_map, length_seq.
  cbn [Z.ltb Z.compare].
  replace (Z.to_nat (Z.min 1 (Z.of_nat n))) with 1 by lia.
  replace (Z.to_nat (Z.max 0 (Z.of_nat n + -1))) with (n - 1) by lia.
  rewrite skipn_map, firstn_map, skipn_seq, firstn_seq_le by lia.
  replace (n - 1 - 1) with (n - 2) by lia. cbn [Nat.add].
  unfold interior_points. apply map_ext_in. intros i Hi. apply in_seq in Hi.
  destruct (i =? n - 1) eqn:E; [apply Nat.eqb_eq in E; lia | reflexivity].
Qed.

Lemma shape0_cosine_bank (L : Z) (sr l h : R) (n : nat) :
  shape0 (cosine_bank L sr l h n) = Z.to_nat (L / 2 + 1).
Proof. reflexivity. Qed.

Lemma shape1_cosine_bank (L : Z) (sr l h : R) (n : nat) :
  shape1 (cosine_bank L sr l h n) = n - 2.
Proof.
  unfold shape1, cosine_bank. cbn [cols].
  now rewrite length_map, length_interior_points.
Qed.


(** What [cos_filterbank] returns when at least two points are laid
    out: a matrix of one row per frequency bin and one half cosine per
    interior point, handed to the constructor of Filter; the interior
    points in Hz; the bandwidth in octaves of the spacing realised. *)
Lemma cos_filterbank_returns (e : env) (L : Z) (bandwidth low_lim : R)
      (hi_lim samplerate : option R) :
  let sr := Signal.get_samplerate e samplerate in
  let hi := Filter.hi_or_default hi_lim sr in
  let n := Z.to_nat (erb_points bandwidth low_lim hi) in
  let step := ((Filter._freq2erb hi - Filter._freq2erb low_lim) / INR (n - 1))%R in
  let centres := interior_points (Filter._freq2erb low_lim) (Filter._freq2erb hi) n in
  sr <> 0%R -> L <> 0%Z -> Filter.requested_spacing bandwidth <> 0%R ->
  2 <= n ->
  Filter.cos_filterbank e L bandwidth low_lim hi_lim samplerate
  = Ok (Filter.mk
          (Signal.mk
             (stored (cosine_bank L sr (Filter._freq2erb low_lim) (Filter._freq2erb hi) n))
             sr)
          false,
        map Filter._erb2freq centres,
        (ln (Filter._erb2freq (Filter._freq2erb 1000 + step) / 1000) / ln 2)%R).
Proof.
  intros sr hi n step centres Hs HL Hsp Hn.
  unfold cosine_bank. fold step. fold centres.
  unfold Filter.cos_filterbank. fold sr. fold hi.
  rewrite py_div_ok by assumption. cbn [bind].
  rewrite rfftfreq_rate by assumption. cbn [bind].
  rewrite length_bins_of.
  unfold Filter.round_ratio. rewrite (Reqb_neq _ _ Hsp). cbn [bind].
  fold (erb_points bandwidth low_lim hi).
  unfold linspace.
  destruct (erb_points bandwidth low_lim hi <? 0)%Z eqn:E;
    [apply Z.ltb_lt in E; lia |].
  cbn [bind fst snd]. fold n.
  rewrite linspace_interior by lia. fold step. fold centres.
  unfold zeros_int.
  destruct (erb_points bandwidth low_lim hi - 2 <? 0)%Z eqn:E2;
    [apply Z.ltb_lt in E2; lia |].
  cbn [bind].
  replace (Z.to_nat (erb_points bandwidth low_lim hi - 2)) with (n - 2) by lia.
  unfold for_range, zeros.
  rewrite (for_each_rewrites_columns (Z.to_nat (L / 2 + 1))
             (fun i old =>
                map (fun p =>
                       if Rltb (nth i centres 0%R - step) (snd p)
                          && Rltb (snd p) (nth i centres 0%R + step)
                       then cos ((snd p - nth i centres 0%R) / (2 * step) * PI)
                       else fst p)
                    (combine old (map Filter._freq2erb (bins_of L sr))))).
  - cbn [bind firstn app].
    rewrite Filter_init_array2. cbn [andb bind Signal.get_samplerate].
    fold sr. unfold stored.
    match goal with
    | |- context [map ?f (seq 0 (n - 2))] =>
        assert (Hcols : map f (seq 0 (n - 2))
                        = map (fun c => half_cosine c step
                                          (map Filter._freq2erb (bins_of L sr)))
                              centres)
    end.
    { rewrite <- (map_nth_range
                    (fun c => half_cosine c step (map Filter._freq2erb (bins_of L sr)))
                    0%R centres).
      replace (length centres) with (n - 2)
        by (symmetry; apply length_interior_points).
      apply map_ext_in.
      intros i Hi. apply in_seq in Hi.
      rewrite nth_repeat_lt by lia.
      rewrite <- half_cosine_on_zeros.
      now rewrite length_map, length_bins_of. }
    rewrite Hcols. reflexivity.
  - apply repeat_length.
  - intros i od Hi H0 H1. rewrite cos_column_pass by lia. now rewrite H0.
Qed.

(** *** Bounds on the ERB scale *)

Lemma ln_le_minus1 (y : R) : (0 < y)%R -> (ln y <= y - 1)%R.
Proof.
  intros Hy. pose proof (exp_ineq1_le (y - 1)) as H.
  replace (1 + (y - 1))%R with y in H by lra.
  destruct H as [H | H].
  - left. rewrite <- (ln_exp (y - 1)). now apply ln_increasing.
  - right. rewrite H at 1. apply ln_exp.
Qed.

Lemma cube_root_two : (1.25 < Rpower 2 (1 / 3) < 1.26)%R.
Proof.
  assert (H : Rpower 2 (1 / 3 + (1 / 3 + 1 / 3)) = 2%R).
  { replace (1 / 3 + (1 / 3 + 1 / 3))%R with 1%R by lra. apply Rpower_1. lra. }
  rewrite !Rpower_plus in H.
  assert (Hp : (0 < Rpower 2 (1 / 3))%R) by (unfold Rpower; apply exp_pos).
  set (p := Rpower 2 (1 / 3)) in *. clearbody p.
  split.
  - destruct (Rlt_dec 1.25 p) as [| Hn]; [assumption | exfalso].
    assert (p <= 1.25)%R by lra.
    assert (H2 : (p * p <= 1.25 * 1.25)%R) by (apply Rmult_le_compat; lra).
    assert (H3 : (p * (p * p) <= 1.25 * (1.25 * 1.25))%R)
      by (apply Rmult_le_compat; nra).
    lra.
  - destruct (Rlt_dec p 1.26) as [| Hn]; [assumption | exfalso].
    assert (1.26 <= p)%R by lra.
    assert (H2 : (1.26 * 1.26 <= p * p)%R) by (apply Rmult_le_compat; lra).
    assert (H3 : (1.26 * (1.26 * 1.26) <= p * (p * p))%R)
      by (apply Rmult_le_compat; lra).
    lra.
Qed.

Lemma erb_of_zero : Filter._freq2erb 0 = 0%R.
Proof.
  unfold Filter._freq2erb.
  replace (1 + 0 / (24.7 * 9.265))%R with 1%R by lra.
  rewrite ln_1. lra.
Qed.

Lemma erb_of_4000 : (18 < Filter._freq2erb (8000 / 2))%R.
Proof.
  unfold Filter._freq2erb.
  assert (H16 : ln 16 = (4 * ln 2)%R).
  { replace 16%R with ((2 * 2) * (2 * 2))%R by lra.
    rewrite !ln_mult by lra. lra. }
  assert (Hlt : (ln 16 < ln (1 + 8000 / 2 / (24.7 * 9.265)))%R).
  { apply ln_increasing; lra. }
  pose proof ln_lt_2. lra.
Qed.

Lemma erb_of_4000_upper : (Filter._freq2erb (8000 / 2) < 162)%R.
Proof.
  unfold Filter._freq2erb.
  pose proof (ln_le_minus1 (1 + 8000 / 2 / (24.7 * 9.265))) as H.
  assert (H0 : (0 < 1 + 8000 / 2 / (24.7 * 9.265))%R) by lra.
  specialize (H H0). lra.
Qed.

(** A third of an octave at 1000 Hz is between one and a half and two
    ERB. *)
Lemma third_octave_spacing : (1.5 < Filter.requested_spacing (1 / 3) < 2)%R.
Proof.
  unfold Filter.requested_spacing, Filter._freq2erb.
  destruct cube_root_two as [Hp1 Hp2].
  set (p := Rpower 2 (1 / 3)) in *. clearbody p.
  set (A := (1 + 1000 * p / (24.7 * 9.265))%R).
  set (B := (1 + 1000 / (24.7 * 9.265))%R).
  assert (HB : B = (1228.8455 / 228.8455)%R) by (unfold B; lra).
  assert (HA : A = ((228.8455 + 1000 * p) / 228.8455)%R) by (unfold A; lra).
  assert (HB0 : (0 < B)%R) by lra.
  assert (HAB : (B < A)%R) by lra.
  assert (Hq : A = (B * (A / B))%R) by (field; lra).
  assert (Hq1 : (1 < A / B)%R).
  { apply (Rmult_lt_reg_r B); [assumption |].
    replace (A / B * B)%R with A by (field; lra). lra. }
  assert (Hq2 : (A / B < 1.2116)%R).
  { apply (Rmult_lt_reg_r B); [assumption |].
    replace (A / B * B)%R with A by (field; lra). lra. }
  assert (Hln : ln A = (ln B + ln (A / B))%R).
  { rewrite Hq at 1. apply ln_mult; lra. }
  assert (Hq3 : (/ (A / B) < 0.831)%R).
  { assert (Hq4 : (1.2034 < A / B)%R).
    { apply (Rmult_lt_reg_r B); [assumption |].
      replace (A / B * B)%R with A by (field; lra). lra. }
    apply (Rmult_lt_reg_r (A / B)); [lra |].
    rewrite Rinv_l by lra. nra. }
  assert (H : (0 < A / B)%R) by lra.
  pose proof (ln_le_minus1 (A / B) H) as H1.
  assert (Hinv : (0 < / (A / B))%R) by now apply Rinv_0_lt_compat.
  pose proof (ln_le_minus1 (/ (A / B)) Hinv) as H2.
  rewrite ln_Rinv in H2 by assumption.
  split; nra.
Qed.

(** With the defaults (a third of an octave, from 0 Hz to half of
    8000 Hz), at least nine points are laid out. *)
Lemma default_bank_points : (9 <= erb_points (1 / 3) 0 (8000 / 2))%Z.
Proof.
  unfold erb_points. apply py_round_above. rewrite erb_of_zero.
  pose proof erb_of_4000 as Hh. pose proof third_octave_spacing as [Hs0 Hs2].
  apply (Rmult_lt_reg_r (Filter.requested_spacing (1 / 3))); [lra |].
  unfold Rdiv. rewrite Rmult_assoc, Rinv_l by lra. lra.
Qed.

Lemma py_round_below (x : R) (k : Z) : (x < IZR k)%R -> (py_round x <= k)%Z.
Proof.
  intros Hx. pose proof (py_round_near x) as [_ H].
  assert (H' : (IZR (py_round x) < IZR k + 1)%R) by lra.
  rewrite <- plus_IZR in H'. apply lt_IZR in H'. lia.
Qed.

Lemma default_bank_points_upper : (erb_points (1 / 3) 0 (8000 / 2) <= 108)%Z.
Proof.
  unfold erb_points. apply py_round_below. rewrite erb_of_zero.
  pose proof erb_of_4000_upper as Hh. pose proof third_octave_spacing as [Hs0 Hs2].
  apply (Rmult_lt_reg_r (Filter.requested_spacing (1 / 3))); [lra |].
  unfold Rdiv. rewrite Rmult_assoc, Rinv_l by lra. lra.
Qed.



(** For a signal long enough for the bank, the counts are those of the
    claim. When at least three points are laid out and the
    interior points are no more than the frequency bins
    ([length // 2 + 1]), [cos_filterbank] returns a frequency-domain
    Filter with one column per interior point, that is
    [round((erb(hi_lim) - erb(low_lim)) / step) - 2] columns, and one row
    per frequency bin; the centre frequencies returned are the interior
    points of the even spacing between [erb(low_lim)] and [erb(hi_lim)],
    mapped back to Hz. *)
Theorem cos_filterbank_counts (e : env) (L : Z) (bandwidth low_lim : R)
        (hi_lim samplerate : option R) :
  let sr := Signal.get_samplerate e samplerate in
  let hi := Filter.hi_or_default hi_lim sr in
  let n := erb_points bandwidth low_lim hi in
  (0 < sr)%R -> (0 < L)%Z -> (0 <= low_lim)%R -> (0 <= hi)%R ->
  Filter.requested_spacing bandwidth <> 0%R ->
  (3 <= n)%Z ->
  (n - 2 <= L / 2 + 1)%Z ->
  exists f bw,
    Filter.cos_filterbank e L bandwidth low_lim hi_lim samplerate
    = Ok (f,
          map Filter._erb2freq
              (interior_points (Filter._freq2erb low_lim) (Filter._freq2erb hi)
                               (Z.to_nat n)),
          bw)
    /\ Filter.fir f = false
    /\ Z.of_nat (Filter.nfilters f) = (n - 2)%Z
    /\ Filter.nfrequencies f = Z.to_nat (L / 2 + 1)
    /\ Signal.data f
       = cosine_bank L sr (Filter._freq2erb low_lim) (Filter._freq2erb hi) (Z.to_nat n).
Proof.
  intros sr hi n Hs HL Hlow Hhi Hsp Hn Hfit.
  pose proof (cos_filterbank_returns e L bandwidth low_lim hi_lim samplerate) as E.
  cbv zeta in E. fold sr in E. fold hi in E. fold n in E.
  rewrite E; [| lra | lia | assumption | lia].
  eexists. eexists. split; [reflexivity |].
  unfold Filter.nfilters, Filter.nfrequencies, Signal.nchannels, Signal.nsamples.
  cbn [Filter.base Filter.fir Signal.data].
  rewrite stored_tall.
  - rewrite shape0_cosine_bank, shape1_cosine_bank.
    split; [reflexivity |]. split; [lia |]. split; reflexivity.
  - rewrite shape0_cosine_bank, shape1_cosine_bank. lia.
Qed.

Lemma cos_filterbank_counts_witness :
  exists f bw,
    Filter.cos_filterbank env0 5000 (1 / 3) 0 None None
    = Ok (f,
          map Filter._erb2freq
              (interior_points (Filter._freq2erb 0) (Filter._freq2erb (8000 / 2))
                               (Z.to_nat (erb_points (1 / 3) 0 (8000 / 2)))),
          bw)
    /\ Filter.fir f = false
    /\ Z.of_nat (Filter.nfilters f) = (erb_points (1 / 3) 0 (8000 / 2) - 2)%Z
    /\ Filter.nfrequencies f = 2501
    /\ Signal.data f
       = cosine_bank 5000 8000 (Filter._freq2erb 0) (Filter._freq2erb (8000 / 2))
                     (Z.to_nat (erb_points (1 / 3) 0 (8000 / 2))).
Proof.
  pose proof default_bank_points as Hlo.
  pose proof default_bank_points_upper as Hup.
  pose proof third_octave_spacing as [Hs0 _].
  apply (cos_filterbank_counts env0 5000 (1 / 3) 0 None None).
  - simpl. lra.
  - lia.
  - lra.
  - simpl. lra.
  - lra.
  - simpl. lia.
  - simpl Signal.get_samplerate. simpl Filter.hi_or_default.
    change (5000 / 2 + 1)%Z with 2501%Z. lia.
Defined.

(** ** Signals with an odd number of samples *)

(** The inverse transform returns an even number of samples, which does
    not fit a column with an odd number of rows. *)
Lemma filter_bins_odd_rows (sp : list C) (g : list R) (j : nat) (od : array2 R) :
  Nat.odd (shape0 od) = true -> raises (Filter.filter_bins sp g j od).
Proof.
  intros Hodd. unfold Filter.filter_bins.
  apply raises_bind. intros prod _. apply raises_bind. intros y Hy.
  unfold fft_irfft in Hy.
  destruct (2 * (length prod - 1) =? 0) eqn:E; [discriminate |].
  injection Hy as <-. apply Nat.eqb_neq in E.
  unfold set_col. destruct (j <? shape1 od); [| apply raises_Raise].
  apply raises_bind. intros v Hv.
  rewrite broadcast_needs_length in Hv; [discriminate | |];
    rewrite length_irfft1; [| lia].
  intros Heq. rewrite <- Heq in Hodd.
  change (Nat.odd (2 * (length prod - 1)) = true) in Hodd.
  rewrite Nat.odd_mul in Hodd. discriminate.
Qed.

(** No frequency-domain filter can be applied to a signal of one
    channel with an odd number of samples. *)
Lemma spectrum_filter_fails_on_odd (self : Filter.t) (sig : Signal.t) (x : list R) :
  Filter.fir self = false ->
  cols (Signal.data sig) = [x] ->
  Nat.odd (Signal.nsamples sig) = true ->
  raises (Filter.apply self sig).
Proof.
  intros Hfir Hx Hodd. unfold Filter.apply.
  destruct (negb (Reqb (Signal.samplerate self) (Signal.samplerate sig))
            && negb (Reqb (Signal.samplerate self) 1)); [apply raises_Raise |].
  rewrite Hfir.
  apply raises_bind. intros sig_rfft _.
  apply raises_bind. intros d _.
  apply raises_bind. intros bins _.
  apply raises_bind. intros [fb |] _; [| apply raises_Raise].
  unfold Filter.apply_fft.
  assert (HC : Signal.nchannels sig = 1).
  { unfold Signal.nchannels, shape1. now rewrite Hx. }
  rewrite HC. cbn [Nat.ltb Nat.leb andb].
  destruct (Filter.nfilters self =? 1) eqn:E1.
  - apply raises_bind. intros d0 Hd0. exfalso.
    unfold for_range in Hd0. cbn [seq] in Hd0.
    assert (Hr : raises (for_each [0]
                           (fun chan od =>
                              fp <- Signal.getitem_col self chan ;;
                              _filt <- interp bins fb (Arr1 fp) ;;
                              spectrum <- column sig_rfft chan ;;
                              Filter.filter_bins spectrum _filt chan od)
                           (Signal.data sig))).
    { apply raises_for_each.
      apply raises_bind. intros fp _. apply raises_bind. intros g _.
      apply raises_bind. intros sp _. now apply filter_bins_odd_rows. }
    destruct Hr as [y Hy]. rewrite Hy in Hd0. discriminate.
  - rewrite andb_false_r.
    destruct (Filter.nfilters self) as [| F'] eqn:EF; [apply raises_Raise |].
    destruct F' as [| F']; [discriminate |].
    cbn [Nat.ltb Nat.leb andb Nat.eqb].
    apply raises_bind. intros d0 Hd0. exfalso.
    unfold for_range in Hd0. cbn [seq] in Hd0.
    assert (Hr : raises (for_each (0 :: 1 :: seq 2 F')
                           (fun filt od =>
                              fp <- Signal.getitem_col self filt ;;
                              _filt <- interp bins fb (Arr1 fp) ;;
                              Filter.filter_bins (flatten (0%R, 0%R) sig_rfft) _filt filt od)
                           (empty (Signal.nsamples sig) (S (S F'))))).
    { apply raises_for_each.
      apply raises_bind. intros fp _. apply raises_bind. intros g _.
      now apply filter_bins_odd_rows. }
    destruct Hr as [y Hy]. rewrite Hy in Hd0. discriminate.
Qed.

(** The bank built by [cos_filterbank] is a frequency-domain filter. *)
Lemma cos_filterbank_domain (e : env) (L : Z) (bandwidth low_lim : R)
      (hi_lim samplerate : option R) (f : Filter.t) (centres : list R) (bw : R) :
  Filter.cos_filterbank e L bandwidth low_lim hi_lim samplerate = Ok (f, centres, bw) ->
  Filter.fir f = false.
Proof.
  unfold Filter.cos_filterbank. intros H.
  repeat (apply bind_Ok in H; destruct H as [? [? H]]).
  injection H as <- _ _.
  match goal with
  | Hi : Filter.init _ _ _ false = Ok _ |- _ =>
      rewrite Filter_init_array2 in Hi; cbn [andb] in Hi; injection Hi as <-
  end.
  reflexivity.
Qed.

(** C9. For a played signal with an odd number of samples (one channel,
    at a rate not above that of the recording), [equalizing_filterbank]
    returns no filter: the filter bank cannot be applied to the played
    signal, for the reason given for the fan-out of [apply]. *)
Theorem equalizing_fails_on_odd_length
        {D : FilterDesign} {S : SoundOps} (e : env)
        (played_signal recorded_signals : Signal.t) (reference : reference_arg)
        (x : list R) :
  ~ (Signal.samplerate recorded_signals < Signal.samplerate played_signal)%R ->
  cols (Signal.data played_signal) = [x] ->
  Nat.odd (Signal.nsamples played_signal) = true ->
  raises (Filter.equalizing_filterbank e played_signal recorded_signals reference).
Proof.
  intros Hrate Hx Hodd. unfold Filter.equalizing_filterbank.
  rewrite (Rltb_false _ _ Hrate).
  apply raises_bind. intros pr Hpr.
  apply bind_Ok in Hpr as [r [_ Hpr]]. injection Hpr as <-. cbn [fst snd].
  apply raises_bind. intros [[fbank centres] bw] Hbank. cbn [fst snd].
  apply raises_bind. intros filtered Hf. exfalso.
  destruct (spectrum_filter_fails_on_odd fbank played_signal x) as [y Hy];
    [now apply cos_filterbank_domain in Hbank | assumption | assumption |].
  rewrite Hy in Hf. discriminate.
Qed.

Lemma equalizing_fails_on_odd_length_witness :
  raises (Filter.equalizing_filterbank env0 three_samples three_samples RefMax).
Proof.
  apply (equalizing_fails_on_odd_length env0 three_samples three_samples RefMax
           [1; 2; 3]%R).
  - simpl. lra.
  - reflexivity.
  - reflexivity.
Defined.

(** ** The equalizing filter bank on signals of even length *)

Lemma spacing_positive (bandwidth : R) :
  (0 < bandwidth)%R -> (0 < Filter.requested_spacing bandwidth)%R.
Proof.
  intros Hb. unfold Filter.requested_spacing, Filter._freq2erb.
  assert (Hp : (1 < Rpower 2 bandwidth)%R).
  { rewrite <- (Rpower_O 2) by lra. apply Rpower_lt; lra. }
  assert (Hln : (ln (1 + 1000 / (24.7 * 9.265))
                 < ln (1 + 1000 * Rpower 2 bandwidth / (24.7 * 9.265)))%R).
  { apply ln_increasing; [lra |].
    apply Rplus_lt_compat_l. unfold Rdiv.
    apply Rmult_lt_compat_r; [apply Rinv_0_lt_compat; lra | lra]. }
  lra.
Qed.








Section EqualizingEvenLength.

Context {D : FilterDesign} {S : SoundOps}.
Variables (e : env) (played recorded rec : Signal.t)
          (reference : reference_arg) (x : list R).

Let sr : R := Signal.samplerate played.
Let n : nat := Z.to_nat (erb_points (1 / 5) 0 (sr / 2)).
Let fbank : Filter.t :=
  Filter.mk
    (Signal.mk (cosine_bank 1000 sr (Filter._freq2erb 0) (Filter._freq2erb (sr / 2)) n) sr)
    false.
Let centres : list R :=
  map Filter._erb2freq
      (interior_points (Filter._freq2erb 0) (Filter._freq2erb (sr / 2)) n).
Let k : nat := Signal.nchannels rec.

Hypothesis scipy_present : have_scipy e = true.
Hypothesis rate_nonzero : sr <> 0%R.
Hypothesis points : 4 <= n <= 503.
Hypothesis played_rate_is_lower :
  ~ (Signal.samplerate recorded < Signal.samplerate played)%R.
Hypothesis played_channel : cols (Signal.data played) = [x].
Hypothesis played_even : Nat.even (Signal.nsamples played) = true.
Hypothesis played_long : 2 <= Signal.nsamples played.
Hypothesis resampled : resample recorded sr = Ok rec.
Hypothesis rec_wf : wf (Signal.data rec).
Hypothesis rec_rate : Signal.samplerate rec = sr.
Hypothesis rec_even : Nat.even (Signal.nsamples rec) = true.
Hypothesis rec_long : 2 <= Signal.nsamples rec.
Hypothesis rec_channels : k <= 1000.
Hypothesis max_needs_channel : reference = RefMax -> 1 <= k.
Hypothesis level_per_channel :
  forall s, exists lv, level s = Ok lv /\ length lv = Signal.nchannels s.
Hypothesis design_succeeds :
  forall freq gain, exists taps, firwin2 1000 freq gain sr = Ok taps.





End EqualizingEvenLength.





(** * Further properties *)

(** ** Resizing a signal *)

Lemma zip_app_padding {A : Type} (pad : list A) (cs : list (list A)) :
  zip_app cs (repeat pad (length cs)) = map (fun c => c ++ pad) cs.
Proof. induction cs as [| c cs IH]; simpl; [reflexivity | now rewrite IH]. Qed.

Lemma map_firstn_all {A : Type} (n : nat) (cs : list (list A)) :
  Forall (fun c => length c = n) cs -> map (firstn n) cs = cs.
Proof.
  intros H. induction H as [| c cs Hc _ IH]; simpl; [reflexivity |].
  rewrite IH, firstn_all2 by lia. reflexivity.
Qed.

Lemma resize_samples (s : Signal.t) (L : nat) :
  wf (Signal.data s) ->
  Signal.resize s (Signal.Samples (Z.of_nat L)) = Ok (resized L s).
Proof.
  intros Hwf. destruct s as [[n cs] sr]. unfold wf in Hwf. simpl in Hwf.
  unfold Signal.resize, resized, Signal.nsamples, Signal.nchannels, shape1.
  cbn [Signal.data Signal.samplerate shape0 cols].
  destruct (Z.eqb_spec (Z.of_nat L) (Z.of_nat n)) as [E | E].
  - apply Nat2Z.inj in E. subst L. rewrite Nat.sub_diag. cbn [repeat].
    do 3 f_equal. rewrite <- (map_firstn_all n cs Hwf) at 1.
    apply map_ext. intros c. now rewrite app_nil_r.
  - destruct (Z.ltb_spec (Z.of_nat L) (Z.of_nat n)) as [Hlt | Hge].
    + unfold rows_upto, slice_bound. cbn [shape0 cols].
      destruct (Z.ltb_spec (Z.of_nat L) 0); [lia |].
      replace (Z.to_nat (Z.min (Z.of_nat L) (Z.of_nat n))) with L by lia.
      replace (L - n) with 0 by lia. cbn [repeat].
      rewrite Nat.min_l by lia. do 3 f_equal.
      apply map_ext. intros c. now rewrite app_nil_r.
    + unfold zeros. cbn [concatenate bind shape0 cols].
      unfold shape1. cbn [cols]. rewrite repeat_length, Nat.eqb_refl.
      rewrite zip_app_padding.
      replace (Z.to_nat (Z.of_nat L - Z.of_nat n)) with (L - n) by lia.
      replace (n + (L - n)) with L by lia. cbn [bind]. do 3 f_equal.
      apply map_ext_in. intros c Hc. rewrite Forall_forall in Hwf.
      rewrite firstn_all2 by (rewrite (Hwf c Hc); lia). reflexivity.
Qed.

Lemma wf_resized (L : nat) (s : Signal.t) :
  wf (Signal.data s) -> wf (Signal.data (resized L s)).
Proof.
  intros Hwf. unfold wf, resized in *. cbn [Signal.data cols shape0].
  rewrite Forall_forall in *. intros c Hc.
  apply in_map_iff in Hc as [c0 [<- Hc0]].
  rewrite length_app, length_firstn, repeat_length, (Hwf c0 Hc0).
  unfold Signal.nsamples. lia.
Qed.

Lemma sample_resized (L : nat) (s : Signal.t) (i j : nat) :
  wf (Signal.data s) -> i < L -> j < Signal.nchannels s ->
  sample (resized L s) i j = if i <? Signal.nsamples s then sample s i j else 0%R.
Proof.
  intros Hwf Hi Hj. unfold sample, resized. cbn [Signal.data cols].
  set (g := fun c : list R => firstn L c ++ repeat 0%R (L - Signal.nsamples s)).
  rewrite (nth_indep _ [] (g [])) by (now rewrite length_map).
  rewrite (map_nth g).
  assert (Hlen : length (nth j (cols (Signal.data s)) []) = Signal.nsamples s).
  { unfold wf in Hwf. rewrite Forall_forall in Hwf. apply Hwf, nth_In. exact Hj. }
  unfold g. destruct (Nat.ltb_spec i (Signal.nsamples s)) as [Hlt | Hge].
  - rewrite app_nth1 by (rewrite length_firstn; lia).
    rewrite nth_firstn. apply Nat.ltb_lt in Hi. now rewrite Hi.
  - rewrite app_nth2 by (rewrite length_firstn; lia).
    apply nth_repeat.
Qed.

(** X1. [resize] to [L] samples (an integer that is not negative) keeps
    the channels and the samplerate, gives every channel [L] samples,
    keeps the samples the signal had at the indices below [L] and sets
    the samples it adds to zero. *)
Theorem resize_keeps_head_and_pads (s : Signal.t) (L : nat) :
  wf (Signal.data s) ->
  exists s',
    Signal.resize s (Signal.Samples (Z.of_nat L)) = Ok s'
    /\ Signal.nsamples s' = L
    /\ Signal.nchannels s' = Signal.nchannels s
    /\ Signal.samplerate s' = Signal.samplerate s
    /\ wf (Signal.data s')
    /\ forall i j, i < L -> j < Signal.nchannels s ->
         sample s' i j = if i <? Signal.nsamples s then sample s i j else 0%R.
Proof.
  intros Hwf. exists (resized L s). split; [now apply resize_samples |].
  split; [reflexivity |].
  split; [unfold Signal.nchannels, shape1, resized; cbn [Signal.data cols];
          apply length_map |].
  split; [reflexivity |].
  split; [now apply wf_resized |].
  intros i j Hi Hj. now apply sample_resized.
Qed.

Lemma resize_keeps_head_and_pads_witness :
  exists s',
    Signal.resize three_samples (Signal.Samples 5) = Ok s'
    /\ Signal.nsamples s' = 5
    /\ Signal.nchannels s' = Signal.nchannels three_samples
    /\ Signal.samplerate s' = Signal.samplerate three_samples
    /\ wf (Signal.data s')
    /\ forall i j, i < 5 -> j < Signal.nchannels three_samples ->
         sample s' i j
         = if i <? Signal.nsamples three_samples then sample three_samples i j else 0%R.
Proof.
  apply (resize_keeps_head_and_pads three_samples 5).
  repeat constructor.
Defined.

(** X2. A negative length is not refused: [resize] to [L < 0] samples
    drops the last [-L] samples of every channel (all of them when the
    signal has no more than that). *)
Theorem resize_negative_drops_tail (s : Signal.t) (L : Z) :
  (L < 0)%Z ->
  Signal.resize s (Signal.Samples L)
  = Ok (Signal.mk
          (mk2 (Signal.nsamples s - Z.to_nat (- L))
               (map (firstn (Signal.nsamples s - Z.to_nat (- L)))
                    (cols (Signal.data s))))
          (Signal.samplerate s)).
Proof.
  intros HL. unfold Signal.resize, Signal.nsamples.
  destruct (Z.eqb_spec L (Z.of_nat (shape0 (Signal.data s)))) as [E | _]; [lia |].
  destruct (Z.ltb_spec L (Z.of_nat (shape0 (Signal.data s)))) as [_ | H]; [| lia].
  unfold rows_upto, slice_bound.
  destruct (Z.ltb_spec L 0) as [_ | H]; [| lia].
  replace (Z.to_nat (Z.max 0 (Z.of_nat (shape0 (Signal.data s)) + L)))
    with (shape0 (Signal.data s) - Z.to_nat (- L)) by lia.
  rewrite Nat.min_l by lia. reflexivity.
Qed.

Lemma resize_negative_drops_tail_witness :
  Signal.resize three_samples (Signal.Samples (-1))
  = Ok (Signal.mk (mk2 2 [[1; 2]%R]) 8000%R).
Proof.
  apply (resize_negative_drops_tail three_samples (-1)). lia.
Defined.

(** X3. Making a signal longer and then resizing it to the length it
    had gives the signal back. *)
Theorem resize_longer_then_back (s : Signal.t) (k : nat) :
  wf (Signal.data s) ->
  exists s1,
    Signal.resize s (Signal.Samples (Z.of_nat (Signal.nsamples s + k))) = Ok s1
    /\ Signal.nsamples s1 = Signal.nsamples s + k
    /\ Signal.resize s1 (Signal.Samples (Z.of_nat (Signal.nsamples s))) = Ok s.
Proof.
  intros Hwf. exists (resized (Signal.nsamples s + k) s).
  split; [now apply resize_samples |]. split; [reflexivity |].
  rewrite resize_samples by now apply wf_resized.
  f_equal. destruct s as [[n cs] sr]. unfold resized, Signal.nsamples.
  cbn [Signal.data Signal.samplerate shape0 cols].
  do 2 f_equal. rewrite map_map.
  rewrite <- (map_id cs) at 2. apply map_ext_in. intros c Hc.
  unfold wf in Hwf. cbn [Signal.data cols shape0] in Hwf.
  rewrite Forall_forall in Hwf. specialize (Hwf c Hc).
  replace (n - (n + k)) with 0 by lia. cbn [repeat]. rewrite app_nil_r.
  rewrite (firstn_all2 (n := n + k) c) by lia.
  rewrite firstn_app, (firstn_all2 (n := n) c) by lia.
  replace (n - length c) with 0 by lia. cbn [firstn]. apply app_nil_r.
Qed.

Lemma resize_longer_then_back_witness :
  exists s1,
    Signal.resize three_samples (Signal.Samples (Z.of_nat (Signal.nsamples three_samples + 2)))
    = Ok s1
    /\ Signal.nsamples s1 = Signal.nsamples three_samples + 2
    /\ Signal.resize s1 (Signal.Samples (Z.of_nat (Signal.nsamples three_samples)))
       = Ok three_samples.
Proof.
  apply (resize_longer_then_back three_samples 2). repeat constructor.
Defined.

(** ** Samples and seconds *)

Lemma py_round_IZR (k : Z) : py_round (IZR k) = k.
Proof.
  assert (Hup : up (IZR k) = (k + 1)%Z).
  { symmetry. apply tech_up; rewrite plus_IZR; lra. }
  unfold py_round, Rfloor. rewrite Hup.
  replace (k + 1 - 1)%Z with k by lia.
  rewrite Rltb_true by lra. reflexivity.
Qed.




(** X5. [times] has one entry per sample, and [in_samples] converts the
    time of sample [i] back to [i]. *)
Theorem in_samples_of_times (s : Signal.t) (i : nat) :
  Signal.samplerate s <> 0%R -> i < Signal.nsamples s ->
  length (Signal.times s) = Signal.nsamples s
  /\ Signal.in_samples (Signal.Seconds (nth i (Signal.times s) 0%R)) (Signal.samplerate s)
     = Z.of_nat i.
Proof.
  intros Hs Hi. unfold Signal.times, arange.
  split; [now rewrite !length_map, length_seq |].
  rewrite map_map.
  rewrite (nth_indep _ 0%R ((fun x => (INR x / Signal.samplerate s)%R) 0))
    by now rewrite length_map, length_seq.
  rewrite (map_nth (fun x => (INR x / Signal.samplerate s)%R)), seq_nth by assumption.
  cbn [Signal.in_samples Nat.add].
  replace (INR i / Signal.samplerate s * Signal.samplerate s)%R with (INR i)
    by (field; assumption).
  rewrite INR_IZR_INZ. apply py_round_IZR.
Qed.

Lemma in_samples_of_times_witness :
  length (Signal.times three_samples) = Signal.nsamples three_samples
  /\ Signal.in_samples (Signal.Seconds (nth 2 (Signal.times three_samples) 0%R))
                       (Signal.samplerate three_samples)
     = Z.of_nat 2.
Proof.
  apply (in_samples_of_times three_samples 2); [simpl; lra | shapes; lia].
Defined.

(** ** Arithmetic on signals *)

(** X6. Negating a signal twice gives the signal back. *)
Theorem neg_involutive (s : Signal.t) :
  Signal.__neg__ (Signal.__neg__ s) = s.
Proof.
  destruct s as [[n cs] sr]. unfold Signal.__neg__, with_number.
  cbn [Signal.data Signal.samplerate shape0 cols].
  do 2 f_equal. rewrite map_map. rewrite <- (map_id cs) at 2.
  apply map_ext. intros c. rewrite map_map. rewrite <- (map_id c) at 2.
  apply map_ext. intros v. lra.
Qed.

Lemma broadcast_dim_sym (n m : nat) : broadcast_dim n m = broadcast_dim m n.
Proof.
  unfold broadcast_dim.
  destruct (Nat.eqb_spec n m) as [-> | H].
  - now rewrite Nat.eqb_refl.
  - destruct (Nat.eqb_spec m n) as [-> | _]; [contradiction |].
    destruct (Nat.eqb_spec n 1) as [-> | H1]; destruct (Nat.eqb_spec m 1) as [-> | H2];
      reflexivity.
Qed.

Lemma combine_swap {A B : Type} (l : list A) (l' : list B) :
  combine l l' = map (fun p => (snd p, fst p)) (combine l' l).
Proof.
  revert l'; induction l as [| a l IH]; intros [| b l']; simpl; auto.
  now rewrite IH.
Qed.

Lemma elementwise_comm (op : R -> R -> R) (a b : array2 R) :
  (forall x y, op x y = op y x) ->
  match elementwise op a b, elementwise op b a with
  | Ok x, Ok y => x = y
  | Raise e1, Raise e2 => e1 = broadcast_error a b /\ e2 = broadcast_error b a
  | _, _ => False
  end.
Proof.
  intros Hop. unfold elementwise.
  rewrite (broadcast_dim_sym (shape0 b)), (broadcast_dim_sym (shape1 b)).
  destruct (broadcast_dim (shape0 a) (shape0 b)) as [n |]; [| split; reflexivity].
  destruct (broadcast_dim (shape1 a) (shape1 b)) as [f |]; [| split; reflexivity].
  f_equal.
  rewrite (combine_swap (stretch [] (shape1 a) f (cols a))), map_map.
  apply map_ext. intros [p q]. cbn [fst snd].
  rewrite (combine_swap (stretch 0%R (shape0 a) n q)), map_map.
  apply map_ext. intros [x y]. cbn [fst snd]. apply Hop.
Qed.

Lemma stretch_map {A B : Type} (g : A -> B) (d : A) (d' : B) (n k : nat) (l : list A) :
  g d = d' -> stretch d' n k (map g l) = map g (stretch d n k l).
Proof.
  intros Hd. unfold stretch. destruct (n =? k); [reflexivity |].
  rewrite map_repeat. f_equal. rewrite <- Hd. apply map_nth.
Qed.

Lemma combine_map_r {A B C : Type} (g : B -> C) (l : list A) (l' : list B) :
  combine l (map g l') = map (fun p => (fst p, g (snd p))) (combine l l').
Proof.
  revert l'; induction l as [| a l IH]; intros [| b l']; simpl; auto.
  now rewrite IH.
Qed.

(** X7. Subtracting a signal is adding its negation: [a - b] and
    [a + (-b)] are the same signal, or fail alike. *)
Theorem sub_is_add_of_neg (a b : Signal.t) :
  Signal.__sub__ a (Signal.OfSignal b)
  = Signal.__add__ a (Signal.OfSignal (Signal.__neg__ b)).
Proof.
  assert (HE : broadcast_error (Signal.data a)
                 (mk2 (shape0 (Signal.data b))
                      (map (map (fun v => (v * -1)%R)) (cols (Signal.data b))))
               = broadcast_error (Signal.data a) (Signal.data b)).
  { unfold broadcast_error, shape_text, shape1. cbn [shape0 cols].
    now rewrite length_map. }
  unfold Signal.__sub__, Signal.__add__, Signal.__neg__, elementwise, with_number.
  cbn [Signal.data Signal.samplerate shape0].
  rewrite HE. unfold shape1. cbn [cols]. rewrite length_map.
  destruct (broadcast_dim (shape0 (Signal.data a)) (shape0 (Signal.data b))) as [n |];
    [| reflexivity].
  destruct (broadcast_dim (length (cols (Signal.data a)))
                          (length (cols (Signal.data b)))) as [f |];
    [| reflexivity].
  do 3 f_equal.
  rewrite (stretch_map (map (fun v => (v * -1)%R)) [] []) by reflexivity.
  rewrite combine_map_r, map_map.
  apply map_ext. intros [p q]. cbn [fst snd].
  rewrite (stretch_map (fun v => (v * -1)%R) 0%R 0%R) by lra.
  rewrite combine_map_r, map_map.
  apply map_ext. intros [x y]. cbn [fst snd]. lra.
Qed.

(** X8. The sum of two signals has the same data in either order, and
    the samplerate of the left operand: the samplerates are not
    compared, and two signals at different rates do not commute. When
    the shapes do not broadcast, both orders raise ValueError, each with
    the two shapes in the order of its operands. *)
Theorem add_commutes_up_to_rate (a b : Signal.t) :
  match Signal.__add__ a (Signal.OfSignal b), Signal.__add__ b (Signal.OfSignal a) with
  | Ok x, Ok y =>
      Signal.data x = Signal.data y
      /\ Signal.samplerate x = Signal.samplerate a
      /\ Signal.samplerate y = Signal.samplerate b
  | Raise e1, Raise e2 =>
      e1 = broadcast_error (Signal.data a) (Signal.data b)
      /\ e2 = broadcast_error (Signal.data b) (Signal.data a)
  | _, _ => False
  end.
Proof.
  unfold Signal.__add__.
  pose proof (elementwise_comm Rplus (Signal.data a) (Signal.data b)) as H.
  destruct (elementwise Rplus (Signal.data a) (Signal.data b)) as [x | e1];
    destruct (elementwise Rplus (Signal.data b) (Signal.data a)) as [y | e2];
    cbn [bind Signal.data Signal.samplerate];
    try (apply H; intros; lra).
  split; [apply H; intros; lra | split; reflexivity].
Qed.

(** ** The ERB scale *)

Lemma freq2erb_erb2freq (n_erb : R) :
  Filter._freq2erb (Filter._erb2freq n_erb) = n_erb.
Proof.
  unfold Filter._freq2erb, Filter._erb2freq.
  replace (1 + 24.7 * 9.265 * (exp (n_erb / 9.265) - 1) / (24.7 * 9.265))%R
    with (exp (n_erb / 9.265)) by (field; lra).
  rewrite ln_exp. lra.
Qed.

Lemma erb2freq_freq2erb (freq_hz : R) :
  (- (24.7 * 9.265) < freq_hz)%R ->
  Filter._erb2freq (Filter._freq2erb freq_hz) = freq_hz.
Proof.
  intros H. unfold Filter._freq2erb, Filter._erb2freq.
  replace (9.265 * ln (1 + freq_hz / (24.7 * 9.265)) / 9.265)%R
    with (ln (1 + freq_hz / (24.7 * 9.265))) by (field; lra).
  rewrite exp_ln.
  - lra.
  - assert (H' : (-1 < freq_hz / (24.7 * 9.265))%R).
    { apply (Rmult_lt_reg_r (24.7 * 9.265)); [lra |].
      unfold Rdiv. rewrite Rmult_assoc, Rinv_l by lra. lra. }
    lra.
Qed.

Lemma erb2freq_increasing (a b : R) :
  (a < b)%R -> (Filter._erb2freq a < Filter._erb2freq b)%R.
Proof.
  intros H. unfold Filter._erb2freq.
  assert (He : (exp (a / 9.265) < exp (b / 9.265))%R).
  { apply exp_increasing. unfold Rdiv. apply Rmult_lt_compat_r; lra. }
  nra.
Qed.

Lemma freq2erb_lt (f1 f2 : R) :
  (0 <= f1 < f2)%R -> (Filter._freq2erb f1 < Filter._freq2erb f2)%R.
Proof.
  intros [H0 H]. unfold Filter._freq2erb.
  assert (H1 : (0 <= f1 / (24.7 * 9.265))%R).
  { apply Rmult_le_pos; [assumption |]. left. apply Rinv_0_lt_compat. lra. }
  assert (Hln : (ln (1 + f1 / (24.7 * 9.265)) < ln (1 + f2 / (24.7 * 9.265)))%R).
  { apply ln_increasing; [lra |].
    apply Rplus_lt_compat_l. unfold Rdiv.
    apply Rmult_lt_compat_r; [apply Rinv_0_lt_compat; lra | lra]. }
  lra.
Qed.

Lemma freq2erb_le (f1 f2 : R) :
  (0 <= f1 <= f2)%R -> (Filter._freq2erb f1 <= Filter._freq2erb f2)%R.
Proof.
  intros [H0 [H | <-]]; [left; now apply freq2erb_lt | right; reflexivity].
Qed.

(** X9. The two conversions are inverse to each other: ERB to Hz and
    back is the identity, and Hz to ERB and back is the identity on the
    frequencies above -24.7 * 9.265 Hz, where the logarithm is defined. *)
Theorem erb_scale_round_trip :
  (forall n_erb, Filter._freq2erb (Filter._erb2freq n_erb) = n_erb)
  /\ (forall freq_hz, (- (24.7 * 9.265) < freq_hz)%R ->
                      Filter._erb2freq (Filter._freq2erb freq_hz) = freq_hz).
Proof.
  split; [exact freq2erb_erb2freq | exact erb2freq_freq2erb].
Qed.

Lemma erb_scale_round_trip_witness :
  Filter._freq2erb (Filter._erb2freq 10) = 10%R
  /\ Filter._erb2freq (Filter._freq2erb 1000) = 1000%R.
Proof.
  destruct erb_scale_round_trip as [H1 H2].
  split; [apply H1 | apply H2; lra].
Defined.

(** X10. On the frequencies from 0 Hz upward the ERB number is not
    negative and grows strictly with the frequency. *)
Theorem freq2erb_increasing (f1 f2 : R) :
  (0 <= f1 < f2)%R ->
  (0 <= Filter._freq2erb f1 < Filter._freq2erb f2)%R.
Proof.
  intros H. split; [| now apply freq2erb_lt].
  destruct H as [[H0 | <-] _].
  - left. rewrite <- erb_of_zero. apply freq2erb_lt. lra.
  - right. symmetry. apply erb_of_zero.
Qed.

Lemma freq2erb_increasing_witness :
  (0 <= Filter._freq2erb 100 < Filter._freq2erb 1000)%R.
Proof.
  apply (freq2erb_increasing 100 1000). lra.
Defined.

(** ** The frequency axis of a filter *)

Lemma nth_bins_of (n : Z) (rate : R) (k : nat) :
  k < Z.to_nat (n / 2 + 1) ->
  nth k (bins_of n rate) 0%R = (INR k * (1 / (IZR n * (1 / rate))))%R.
Proof.
  intros Hk. unfold bins_of.
  rewrite (nth_indep _ 0%R ((fun k0 => (INR k0 * (1 / (IZR n * (1 / rate))))%R) 0))
    by now rewrite length_map, length_seq.
  rewrite (map_nth (fun k0 => (INR k0 * (1 / (IZR n * (1 / rate))))%R)).
  now rewrite seq_nth.
Qed.

(** X11. The frequency axis of a frequency-domain filter has one entry
    per row of the filter; entry [k] is [k * samplerate / (2 * N - 1)]
    for [N] rows, so the axis starts at 0 Hz and stays below half the
    samplerate. *)
Theorem frequency_axis (self : Filter.t) :
  Filter.fir self = false -> (0 < Signal.samplerate self)%R ->
  exists axis,
    Filter.frequencies self = Ok (Some axis)
    /\ length axis = Filter.nfrequencies self
    /\ forall k, k < Filter.nfrequencies self ->
         nth k axis 0%R
         = (INR k * Signal.samplerate self / (2 * INR (Filter.nfrequencies self) - 1))%R
         /\ (nth k axis 0%R < Signal.samplerate self / 2)%R.
Proof.
  intros Hfir Hs. eexists.
  split; [apply frequencies_of_spectrum; [assumption | lra] |].
  split; [now rewrite length_bins_of, filter_axis_length |].
  intros k Hk. unfold Filter.nfrequencies in *. fold (Filter.ntaps self) in *.
  rewrite nth_bins_of by now rewrite filter_axis_length.
  rewrite minus_IZR, mult_IZR, <- INR_IZR_INZ.
  assert (HN : (INR k + 1 <= INR (Filter.ntaps self))%R).
  { rewrite <- S_INR. apply le_INR. lia. }
  pose proof (pos_INR k) as Hk0.
  set (K := INR k) in *. set (N := INR (Filter.ntaps self)) in *.
  set (sr := Signal.samplerate self) in *. clearbody K N sr.
  assert (E : (K * (1 / ((N * 2 - 1) * (1 / sr))) = K * sr / (2 * N - 1))%R)
    by (field; lra).
  rewrite E. split; [reflexivity |].
  apply (Rmult_lt_reg_r (2 * N - 1)); [lra |].
  unfold Rdiv. rewrite Rmult_assoc, Rinv_l by lra. nra.
Qed.

Lemma frequency_axis_witness :
  exists axis,
    Filter.frequencies one_filter = Ok (Some axis)
    /\ length axis = Filter.nfrequencies one_filter
    /\ forall k, k < Filter.nfrequencies one_filter ->
         nth k axis 0%R
         = (INR k * Signal.samplerate one_filter
            / (2 * INR (Filter.nfrequencies one_filter) - 1))%R
         /\ (nth k axis 0%R < Signal.samplerate one_filter / 2)%R.
Proof.
  apply (frequency_axis one_filter); [reflexivity | simpl; lra].
Defined.

(** ** Applying a filter: the remaining cases *)

(** X12. A frequency-domain bank with as many filters as the signal has
    channels, on a signal with an even number of samples: channel
    [chan] of the output is channel [chan] of the signal shaped by
    filter [chan]. *)
Theorem filter_per_channel_even (self : Filter.t) (sig : Signal.t) :
  Filter.fir self = false ->
  Signal.samplerate self = Signal.samplerate sig \/ Signal.samplerate self = 1%R ->
  wf (Signal.data self) -> 1 <= Filter.ntaps self ->
  Filter.nfilters self = Signal.nchannels sig ->
  Nat.even (Signal.nsamples sig) = true -> 2 <= Signal.nsamples sig ->
  Signal.samplerate sig <> 0%R ->
  Filter.apply self sig
  = Ok (Signal.mk
          (mk2 (Signal.nsamples sig)
               (map (fun chan =>
                       spectrum_filtered (Signal.nsamples sig) (Signal.nsamples sig)
                         (bins_of (Z.of_nat (Signal.nsamples sig)) (Signal.samplerate sig))
                         (bins_of (Z.of_nat (Filter.ntaps self) * 2 - 1)
                                  (Signal.samplerate self))
                         (nth chan (cols (Signal.data sig)) [])
                         (nth chan (cols (Signal.data self)) []))
                    (seq 0 (Signal.nchannels sig))))
          (Signal.samplerate sig)).
Proof.
  intros Hfir Hrate Hwf Ht HF Hev Hn Hs.
  rewrite apply_spectrum by (assumption || lia).
  unfold Filter.apply_fft. rewrite HF, Nat.eqb_refl.
  destruct sig as [[n cs] sr].
  unfold Signal.nsamples, Signal.nchannels, shape1 in *.
  cbn [Signal.data Signal.samplerate shape0 cols] in *.
  rewrite (for_range_columns n (length cs)
             (fun chan =>
                spectrum_filtered n n (bins_of (Z.of_nat n) sr)
                  (bins_of (Z.of_nat (Filter.ntaps self) * 2 - 1) (Signal.samplerate self))
                  (nth chan cs []) (nth chan (cols (Signal.data self)) []))).
  - reflexivity.
  - reflexivity.
  - intros i od Hi H0 H1.
    unfold Signal.getitem_col.
    rewrite (column_nth []) by (unfold Filter.nfilters, Signal.nchannels in HF; lia).
    cbn [bind]. rewrite interp_rank1.
    + cbn [bind]. unfold column. cbn [cols].
      rewrite (nth_error_nth' _ (rfft1 n []))
        by (now rewrite length_map).
      rewrite (map_nth (rfft1 n)). cbn [bind].
      assert (Hhalf : 1 <= n / 2) by (apply Nat.div_le_lower_bound; lia).
      rewrite filter_bins_transform.
      * rewrite length_rfft1.
        replace (n / 2 + 1 - 1) with (n / 2) by lia.
        rewrite (even_half _ Hev).
        rewrite set_col_fits; [now rewrite H0 | lia |].
        now rewrite length_irfft1.
      * rewrite length_rfft1. unfold interp_values.
        now rewrite length_map, length_bins_of, half_plus_one.
      * rewrite length_rfft1. lia.
    + rewrite length_bins_of, filter_axis_length. exact Ht.
    + rewrite length_bins_of, filter_axis_length.
      unfold wf in Hwf. rewrite Forall_forall in Hwf.
      apply Hwf, nth_In. unfold Filter.nfilters, Signal.nchannels, shape1 in HF. lia.
Qed.

Lemma filter_per_channel_even_witness :
  Filter.apply one_filter four_samples
  = Ok (Signal.mk
          (mk2 (Signal.nsamples four_samples)
               (map (fun chan =>
                       spectrum_filtered (Signal.nsamples four_samples)
                         (Signal.nsamples four_samples)
                         (bins_of (Z.of_nat (Signal.nsamples four_samples))
                                  (Signal.samplerate four_samples))
                         (bins_of (Z.of_nat (Filter.ntaps one_filter) * 2 - 1)
                                  (Signal.samplerate one_filter))
                         (nth chan (cols (Signal.data four_samples)) [])
                         (nth chan (cols (Signal.data one_filter)) []))
                    (seq 0 (Signal.nchannels four_samples))))
          (Signal.samplerate four_samples)).
Proof.
  apply (filter_per_channel_even one_filter four_samples).
  - reflexivity.
  - left. reflexivity.
  - repeat constructor.
  - shapes. lia.
  - reflexivity.
  - reflexivity.
  - shapes. lia.
  - simpl. lra.
Defined.

(** X13. A FIR bank with as many filters as the signal has channels (one
    filter on one channel included) is not applied: the call passes the
    whole 2-D [self.data] as the coefficients, where a rank-1 sequence
    is required, and the library raises. *)
Theorem taps_per_channel_fail (self : Filter.t) (sig : Signal.t) :
  Filter.fir self = true ->
  Signal.samplerate self = Signal.samplerate sig \/ Signal.samplerate self = 1%R ->
  Filter.nfilters self = Signal.nchannels sig ->
  Filter.apply self sig = Raise (ValueError "object too deep for desired array").
Proof.
  intros Hfir Hrate HF.
  rewrite apply_taps by assumption. unfold Filter.apply_fir.
  now rewrite HF, Nat.eqb_refl.
Qed.

Lemma taps_per_channel_fail_witness :
  Filter.apply two_tap_filters two_channels
  = Raise (ValueError "object too deep for desired array").
Proof.
  apply (taps_per_channel_fail two_tap_filters two_channels).
  - reflexivity.
  - left. reflexivity.
  - reflexivity.
Defined.

Lemma two_tap_filters_fan_out :
  Filter.apply two_tap_filters three_samples
  = Ok (Signal.mk
          (mk2 3 (map (fun b => scipy_signal.lfilter1 b [1; 2; 3]%R)
                      (cols (Signal.data two_tap_filters))))
          8000%R).
Proof.
  apply (fan_out_taps two_tap_filters three_samples [1; 2; 3]%R).
  - reflexivity.
  - left. reflexivity.
  - repeat constructor.
  - shapes. lia.
  - shapes. lia.
  - reflexivity.
  - reflexivity.
Qed.

(** X14. Fan-out of a FIR bank of [F > 1] filters, with at least one
    tap each, over a signal of one channel that is not empty: the
    output has [F] channels with the sample count and the samplerate of
    the signal, and channel [i] is the input run through the taps of
    filter [i]. *)
Theorem fan_out_of_taps (self : Filter.t) (sig : Signal.t) (x : list R) :
  Filter.fir self = true ->
  Signal.samplerate self = Signal.samplerate sig \/ Signal.samplerate self = 1%R ->
  wf (Signal.data self) -> 1 <= Filter.ntaps self ->
  1 < Filter.nfilters self ->
  cols (Signal.data sig) = [x] -> length x = Signal.nsamples sig ->
  1 <= Signal.nsamples sig ->
  exists out,
    Filter.apply self sig = Ok out
    /\ Signal.nchannels out = Filter.nfilters self
    /\ Signal.nsamples out = Signal.nsamples sig
    /\ Signal.samplerate out = Signal.samplerate sig
    /\ wf (Signal.data out)
    /\ forall i, i < Filter.nfilters self ->
         nth i (cols (Signal.data out)) []
         = scipy_signal.lfilter1 (nth i (cols (Signal.data self)) []) x.
Proof.
  intros Hfir Hrate Hwf Ht HF Hx Hlen _.
  eexists. split; [now apply (fan_out_taps self sig x) |].
  cbn [Signal.data Signal.samplerate].
  split; [unfold Signal.nchannels, shape1; cbn [cols]; apply length_map |].
  split; [reflexivity |]. split; [reflexivity |].
  split.
  - unfold wf. cbn [cols shape0]. apply Forall_forall. intros c Hc.
    apply in_map_iff in Hc as [b [<- _]]. now rewrite length_lfilter1.
  - intros i Hi. cbn [cols].
    rewrite (nth_indep _ [] ((fun b => scipy_signal.lfilter1 b x) []))
      by (rewrite length_map; exact Hi).
    apply (map_nth (fun b => scipy_signal.lfilter1 b x)).
Qed.

Lemma fan_out_of_taps_witness :
  exists out,
    Filter.apply two_tap_filters three_samples = Ok out
    /\ Signal.nchannels out = Filter.nfilters two_tap_filters
    /\ Signal.nsamples out = Signal.nsamples three_samples
    /\ Signal.samplerate out = Signal.samplerate three_samples
    /\ wf (Signal.data out)
    /\ forall i, i < Filter.nfilters two_tap_filters ->
         nth i (cols (Signal.data out)) []
         = scipy_signal.lfilter1 (nth i (cols (Signal.data two_tap_filters)) [])
                                 [1; 2; 3]%R.
Proof.
  apply (fan_out_of_taps two_tap_filters three_samples [1; 2; 3]%R).
  - reflexivity.
  - left. reflexivity.
  - repeat constructor.
  - shapes. lia.
  - shapes. lia.
  - reflexivity.
  - reflexivity.
  - shapes. lia.
Defined.

(** X15. Fan-out of a frequency-domain bank of [F > 1] filters over a
    signal of one channel with an even number of samples: the output
    has [F] channels with the sample count and the samplerate of the
    signal, and channel [i] is the input shaped by filter [i]. *)
Theorem fan_out_on_even_length (self : Filter.t) (sig : Signal.t) (x : list R) :
  Filter.fir self = false ->
  Signal.samplerate self = Signal.samplerate sig \/ Signal.samplerate self = 1%R ->
  wf (Signal.data self) -> 1 <= Filter.ntaps self -> 1 < Filter.nfilters self ->
  cols (Signal.data sig) = [x] ->
  Nat.even (Signal.nsamples sig) = true -> 2 <= Signal.nsamples sig ->
  Signal.samplerate sig <> 0%R ->
  exists out,
    Filter.apply self sig = Ok out
    /\ Signal.nchannels out = Filter.nfilters self
    /\ Signal.nsamples out = Signal.nsamples sig
    /\ Signal.samplerate out = Signal.samplerate sig
    /\ wf (Signal.data out)
    /\ forall i, i < Filter.nfilters self ->
         nth i (cols (Signal.data out)) []
         = spectrum_filtered (Signal.nsamples sig) (Signal.nsamples sig)
             (bins_of (Z.of_nat (Signal.nsamples sig)) (Signal.samplerate sig))
             (bins_of (Z.of_nat (Filter.ntaps self) * 2 - 1) (Signal.samplerate self))
             x (nth i (cols (Signal.data self)) []).
Proof.
  intros Hfir Hrate Hwf Ht HF Hx Hev Hn Hs.
  eexists. split; [now apply (fan_out_spectrum_even self sig x) |].
  cbn [Signal.data Signal.samplerate].
  split; [unfold Signal.nchannels, shape1; cbn [cols]; apply length_map |].
  split; [reflexivity |]. split; [reflexivity |].
  split.
  - unfold wf. cbn [cols shape0]. apply Forall_forall. intros c Hc.
    apply in_map_iff in Hc as [fp [<- _]].
    unfold spectrum_filtered. apply length_irfft1.
  - intros i Hi. cbn [cols].
    set (g := spectrum_filtered (Signal.nsamples sig) (Signal.nsamples sig)
                (bins_of (Z.of_nat (Signal.nsamples sig)) (Signal.samplerate sig))
                (bins_of (Z.of_nat (Filter.ntaps self) * 2 - 1) (Signal.samplerate self))
                x).
    rewrite (nth_indep _ [] (g [])) by (rewrite length_map; exact Hi).
    apply (map_nth g).
Qed.

Lemma fan_out_on_even_length_witness :
  exists out,
    Filter.apply two_filters four_samples = Ok out
    /\ Signal.nchannels out = Filter.nfilters two_filters
    /\ Signal.nsamples out = Signal.nsamples four_samples
    /\ Signal.samplerate out = Signal.samplerate four_samples
    /\ wf (Signal.data out)
    /\ forall i, i < Filter.nfilters two_filters ->
         nth i (cols (Signal.data out)) []
         = spectrum_filtered (Signal.nsamples four_samples) (Signal.nsamples four_samples)
             (bins_of (Z.of_nat (Signal.nsamples four_samples))
                      (Signal.samplerate four_samples))
             (bins_of (Z.of_nat (Filter.ntaps two_filters) * 2 - 1)
                      (Signal.samplerate two_filters))
             [1; 0; -1; 0]%R (nth i (cols (Signal.data two_filters)) []).
Proof.
  apply (fan_out_on_even_length two_filters four_samples [1; 0; -1; 0]%R).
  - reflexivity.
  - left. reflexivity.
  - repeat constructor.
  - shapes. lia.
  - shapes. lia.
  - reflexivity.
  - reflexivity.
  - shapes. lia.
  - simpl. lra.
Defined.

(** *** What [apply] keeps *)

Lemma set_col_shape {A : Type} (a a' : array2 A) (j : nat) (v : list A) :
  set_col a j v = Ok a' -> shape0 a' = shape0 a /\ shape1 a' = shape1 a.
Proof.
  unfold set_col. destruct (j <? shape1 a); [| discriminate].
  destruct (broadcast_to (shape0 a) v) as [v' |]; [| discriminate].
  cbn [bind]. intros H. injection H as <-. split; [reflexivity |].
  unfold shape1. cbn [cols]. apply length_update.
Qed.

Lemma for_each_shape {A : Type} (body : nat -> array2 A -> result (array2 A)) :
  (forall i od od', body i od = Ok od' ->
                    shape0 od' = shape0 od /\ shape1 od' = shape1 od) ->
  forall l a a', for_each l body a = Ok a' ->
                 shape0 a' = shape0 a /\ shape1 a' = shape1 a.
Proof.
  intros Hbody. induction l as [| i l IH]; intros a a' H.
  - injection H as <-. split; reflexivity.
  - cbn [for_each] in H. apply bind_Ok in H as [od [H1 H2]].
    apply Hbody in H1 as [E0 E1]. apply IH in H2 as [E2 E3]. split; congruence.
Qed.

Lemma filter_bins_shape (sp : list C) (g : list R) (j : nat) (od od' : array2 R) :
  Filter.filter_bins sp g j od = Ok od' ->
  shape0 od' = shape0 od /\ shape1 od' = shape1 od.
Proof.
  unfold Filter.filter_bins. intros H.
  apply bind_Ok in H as [p [_ H]]. apply bind_Ok in H as [y [_ H]].
  now apply set_col_shape in H.
Qed.

(** X16. Whenever [apply] returns a signal, it has the samplerate and
    the number of samples of the input signal (not those of the
    filter), and as many channels as the larger of the number of
    filters and the number of channels of the input. *)
Theorem apply_keeps_rate_and_length (self : Filter.t) (sig out : Signal.t) :
  Filter.apply self sig = Ok out ->
  Signal.samplerate out = Signal.samplerate sig
  /\ Signal.nsamples out = Signal.nsamples sig
  /\ Signal.nchannels out = Nat.max (Filter.nfilters self) (Signal.nchannels sig).
Proof.
  unfold Filter.apply.
  destruct (negb (Reqb (Signal.samplerate self) (Signal.samplerate sig))
            && negb (Reqb (Signal.samplerate self) 1)); [discriminate |].
  assert (Hfan : forall body,
             (forall i od od', body i od = Ok od' ->
                               shape0 od' = shape0 od /\ shape1 od' = shape1 od) ->
             (1 <? Filter.nfilters self) && (Signal.nchannels sig =? 1) = true ->
             (d <- for_range (Filter.nfilters self) body
                     (empty (Signal.nsamples sig) (Filter.nfilters self)) ;;
              Ok (Filter.with_data sig d)) = Ok out ->
             Signal.samplerate out = Signal.samplerate sig
             /\ Signal.nsamples out = Signal.nsamples sig
             /\ Signal.nchannels out
                = Nat.max (Filter.nfilters self) (Signal.nchannels sig)).
  { intros body Hbody Hc H. apply andb_true_iff in Hc as [Hc1 Hc2].
    apply Nat.ltb_lt in Hc1. apply Nat.eqb_eq in Hc2.
    apply bind_Ok in H as [d [Hd H]]. injection H as <-.
    apply (for_each_shape body Hbody) in Hd as [E0 E1].
    unfold Filter.with_data, Signal.nsamples, Signal.nchannels.
    cbn [Signal.data Signal.samplerate].
    split; [reflexivity |]. split; [exact E0 |].
    rewrite E1. unfold empty, zeros, shape1 at 1. cbn [cols].
    rewrite repeat_length. fold (Signal.nchannels sig). lia. }
  assert (Hsame : forall body,
             (forall i od od', body i od = Ok od' ->
                               shape0 od' = shape0 od /\ shape1 od' = shape1 od) ->
             Filter.nfilters self = Signal.nchannels sig ->
             (d <- for_range (Signal.nchannels sig) body (Signal.data sig) ;;
              Ok (Filter.with_data sig d)) = Ok out ->
             Signal.samplerate out = Signal.samplerate sig
             /\ Signal.nsamples out = Signal.nsamples sig
             /\ Signal.nchannels out
                = Nat.max (Filter.nfilters self) (Signal.nchannels sig)).
  { intros body Hbody HF H.
    apply bind_Ok in H as [d [Hd H]]. injection H as <-.
    apply (for_each_shape body Hbody) in Hd as [E0 E1].
    unfold Filter.with_data, Signal.nsamples, Signal.nchannels.
    cbn [Signal.data Signal.samplerate].
    split; [reflexivity |]. split; [exact E0 |].
    rewrite E1. fold (Signal.nchannels sig). lia. }
  destruct (Filter.fir self).
  - unfold Filter.apply_fir.
    destruct (Filter.nfilters self =? Signal.nchannels sig); [discriminate |].
    destruct ((Filter.nfilters self =? 1) && (1 <? Signal.nchannels sig));
      [discriminate |].
    destruct ((1 <? Filter.nfilters self) && (Signal.nchannels sig =? 1)) eqn:E;
      [| discriminate].
    apply Hfan; [| reflexivity].
    intros i od od' H.
    apply bind_Ok in H as [b [_ H]]. apply bind_Ok in H as [y [_ H]].
    now apply set_col_shape in H.
  - intros H.
    apply bind_Ok in H as [sig_rfft [_ H]]. apply bind_Ok in H as [d [_ H]].
    apply bind_Ok in H as [bins [_ H]]. apply bind_Ok in H as [[fb |] [_ H]];
      [| discriminate].
    unfold Filter.apply_fft in H.
    destruct (Nat.eqb_spec (Filter.nfilters self) (Signal.nchannels sig)) as [HF | _].
    + revert H. apply Hsame; [| exact HF].
      intros i od od' H.
      apply bind_Ok in H as [fp [_ H]]. apply bind_Ok in H as [g [_ H]].
      apply bind_Ok in H as [sp [_ H]]. now apply filter_bins_shape in H.
    + destruct ((Filter.nfilters self =? 1) && (1 <? Signal.nchannels sig)).
      { apply bind_Ok in H as [g [Hg _]]. discriminate. }
      destruct ((1 <? Filter.nfilters self) && (Signal.nchannels sig =? 1)) eqn:E;
        [| discriminate].
      revert H. apply Hfan; [| reflexivity].
      intros i od od' H.
      apply bind_Ok in H as [fp [_ H]]. apply bind_Ok in H as [g [_ H]].
      now apply filter_bins_shape in H.
Qed.

Lemma apply_keeps_rate_and_length_witness :
  exists out,
    Filter.apply two_tap_filters three_samples = Ok out
    /\ Signal.samplerate out = Signal.samplerate three_samples
    /\ Signal.nsamples out = Signal.nsamples three_samples
    /\ Signal.nchannels out
       = Nat.max (Filter.nfilters two_tap_filters) (Signal.nchannels three_samples).
Proof.
  eexists. split; [apply two_tap_filters_fan_out |].
  apply (apply_keeps_rate_and_length two_tap_filters three_samples).
  apply two_tap_filters_fan_out.
Defined.

(** ** Rectangular filters: how the kinds relate *)

Section ComplementaryMasks.

Context {D : FilterDesign}.
Variables (e : env) (samplerate : option R) (L : Z).

Let sr : R := Signal.get_samplerate e samplerate.

Hypothesis rate_positive : (0 < sr)%R.
Hypothesis length_positive : (0 < L)%Z.



End ComplementaryMasks.



(** X19. With [fir = true], [rectangular_filter] returns no filter,
    whatever its other arguments, and the exception tells why: without
    scipy it is NameError for the name [scipy]; with scipy and a kind
    other than "lp", "bs", "hp" and "bp" it is UnboundLocalError for
    [pass_zero], which no branch has assigned; with scipy and one of
    these kinds it is the TypeError of [firwin], which has no keyword
    [samplerate]. *)
Theorem fir_design_never_returns
        {D : FilterDesign} (e : env) (frequency : freq_arg) (kind : string)
        (samplerate : option R) (L : Z) :
  Filter.rectangular_filter e frequency kind samplerate L true
  = if negb (have_scipy e) then Raise (NameError "scipy")
    else if existsb (String.eqb kind) ["lp"; "bs"; "hp"; "bp"]%string
         then Raise (TypeError "firwin() got an unexpected keyword argument 'samplerate'")
         else Raise (UnboundLocalError "pass_zero").
Proof.
  unfold Filter.rectangular_filter.
  cbn [existsb].
  destruct (String.eqb kind "lp"), (String.eqb kind "bs"),
    (String.eqb kind "hp"), (String.eqb kind "bp"),
    (have_scipy e); reflexivity.
Qed.

(** X20. The edge must fit the kind: a pair of frequencies with "lp" or
    "hp", and a single frequency with "bp" or "notch", is a TypeError. *)
Theorem edge_must_fit_kind
        {D : FilterDesign} (e : env) (samplerate : option R) (L : Z) (f f0 f1 : R) :
  (0 < Signal.get_samplerate e samplerate)%R -> (0 < L)%Z ->
  Filter.rectangular_filter e (Edges f0 f1) "lp" samplerate L false
  = Raise (TypeError "unsupported operand type(s) for /: 'tuple' and 'float'")
  /\ Filter.rectangular_filter e (Edges f0 f1) "hp" samplerate L false
     = Raise (TypeError "unsupported operand type(s) for /: 'tuple' and 'float'")
  /\ Filter.rectangular_filter e (Edge f) "bp" samplerate L false
     = Raise (TypeError "object is not subscriptable")
  /\ Filter.rectangular_filter e (Edge f) "notch" samplerate L false
     = Raise (TypeError "object is not subscriptable").
Proof.
  intros Hs Hl.
  repeat split; mask_branch Hs Hl; reflexivity.
Qed.

Lemma edge_must_fit_kind_witness :
  Filter.rectangular_filter env0 (Edges 1000 2000) "lp" (Some 8000%R) 8 false
  = Raise (TypeError "unsupported operand type(s) for /: 'tuple' and 'float'")
  /\ Filter.rectangular_filter env0 (Edges 1000 2000) "hp" (Some 8000%R) 8 false
     = Raise (TypeError "unsupported operand type(s) for /: 'tuple' and 'float'")
  /\ Filter.rectangular_filter env0 (Edge 1000) "bp" (Some 8000%R) 8 false
     = Raise (TypeError "object is not subscriptable")
  /\ Filter.rectangular_filter env0 (Edge 1000) "notch" (Some 8000%R) 8 false
     = Raise (TypeError "object is not subscriptable").
Proof.
  apply (edge_must_fit_kind env0 (Some 8000%R) 8 1000 1000 2000).
  - simpl. lra.
  - lia.
Defined.

(** ** The cosine filter bank: degenerate requests *)

Lemma spacing_of_zero : Filter.requested_spacing 0 = 0%R.
Proof.
  unfold Filter.requested_spacing. rewrite Rpower_O by lra.
  rewrite Rmult_1_r. lra.
Qed.

(** X21. A bandwidth of 0 octaves gives a spacing of 0 ERB; the number
    of points is then infinite, and [cos_filterbank] raises
    OverflowError. *)
Theorem zero_bandwidth_overflows (e : env) (L : Z) (low_lim : R)
        (hi_lim samplerate : option R) :
  let sr := Signal.get_samplerate e samplerate in
  let hi := Filter.hi_or_default hi_lim sr in
  sr <> 0%R -> L <> 0%Z -> (0 <= low_lim < hi)%R ->
  Filter.cos_filterbank e L 0 low_lim hi_lim samplerate
  = Raise (OverflowError "cannot convert float infinity to integer").
Proof.
  intros sr hi Hs HL Hlim.
  unfold Filter.cos_filterbank. fold sr. fold hi.
  rewrite py_div_ok by assumption. cbn [bind].
  rewrite rfftfreq_rate by assumption. cbn [bind].
  unfold Filter.round_ratio. rewrite spacing_of_zero, Reqb_refl.
  pose proof (freq2erb_lt low_lim hi Hlim).
  rewrite Reqb_neq by lra. reflexivity.
Qed.

Lemma zero_bandwidth_overflows_witness :
  Filter.cos_filterbank env0 5000 0 0 None None
  = Raise (OverflowError "cannot convert float infinity to integer").
Proof.
  apply (zero_bandwidth_overflows env0 5000 0 None None); simpl; (lra || lia).
Defined.




(** ** The cosine filter bank: its gains and its centres *)

Lemma half_cosine_gain_bounds (centre spacing fe : R) :
  (0 < spacing)%R -> (0 <= half_cosine_gain centre spacing fe <= 1)%R.
Proof.
  intros Hs. unfold half_cosine_gain, Rltb.
  destruct (Rlt_dec (centre - spacing) fe) as [H1 |]; [| cbn; lra].
  destruct (Rlt_dec fe (centre + spacing)) as [H2 |]; [| cbn; lra].
  cbn [andb]. split; [| apply COS_bound].
  left. pose proof PI_RGT_0 as Hpi.
  assert (Hq : (-1 / 2 < (fe - centre) / (2 * spacing) < 1 / 2)%R).
  { split.
    - apply (Rmult_lt_reg_r (2 * spacing)); [lra |].
      unfold Rdiv at 2. rewrite Rmult_assoc, Rinv_l by lra. lra.
    - apply (Rmult_lt_reg_r (2 * spacing)); [lra |].
      unfold Rdiv at 1. rewrite Rmult_assoc, Rinv_l by lra. lra. }
  apply cos_gt_0; nra.
Qed.

(** Entry (r, i) of the matrix of the bank: the gain of the half cosine
    around point [i + 1] at bin [r]. *)
Lemma sample_cosine_bank (L : Z) (sr l h : R) (n r i : nat) :
  r < Z.to_nat (L / 2 + 1) -> i < n - 2 ->
  nth r (nth i (cols (cosine_bank L sr l h n)) []) 0%R
  = half_cosine_gain (l + INR (S i) * ((h - l) / INR (n - 1)))
                     ((h - l) / INR (n - 1))
                     (Filter._freq2erb (nth r (bins_of L sr) 0%R)).
Proof.
  intros Hr Hi. unfold cosine_bank. cbn [cols].
  set (step := ((h - l) / INR (n - 1))%R).
  set (g := fun c => half_cosine c step (map Filter._freq2erb (bins_of L sr))).
  rewrite (nth_indep _ [] (g 0%R))
    by now rewrite length_map, length_interior_points.
  rewrite (map_nth g). unfold g, half_cosine.
  set (k := fun fe => if Rltb (nth i (interior_points l h n) 0%R - step) fe
                         && Rltb fe (nth i (interior_points l h n) 0%R + step)
                      then cos ((fe - nth i (interior_points l h n) 0%R)
                                / (2 * step) * PI)
                      else 0%R).
  rewrite (nth_indep _ 0%R (k (Filter._freq2erb 0%R)))
    by now rewrite !length_map, length_bins_of.
  rewrite (map_nth k), (map_nth Filter._freq2erb).
  unfold k, half_cosine_gain.
  assert (Hc : nth i (interior_points l h n) 0%R = (l + INR (S i) * step)%R).
  { unfold interior_points. fold step.
    rewrite (nth_indep _ 0%R ((fun j => (l + INR j * step)%R) 0))
      by now rewrite length_map, length_seq.
    rewrite (map_nth (fun j => (l + INR j * step)%R)), seq_nth by assumption.
    reflexivity. }
  now rewrite Hc.
Qed.

Lemma Forall_transpose (P : R -> Prop) (a : array2 R) :
  P 0%R -> Forall (Forall P) (cols a) -> Forall (Forall P) (cols (transpose 0%R a)).
Proof.
  intros H0 H. unfold transpose. cbn [cols].
  apply Forall_forall. intros row Hrow.
  apply in_map_iff in Hrow as [i [<- _]].
  apply Forall_forall. intros v Hv.
  apply in_map_iff in Hv as [c [<- Hc]].
  rewrite Forall_forall in H. specialize (H c Hc). rewrite Forall_forall in H.
  destruct (nth_in_or_default i c 0%R) as [Hin | ->]; auto.
Qed.

(** Between two neighbouring centres the two half cosines are the
    cosine and the sine of one angle. *)
Lemma neighbours_share_the_power (c s fe : R) :
  (0 < s)%R -> (c <= fe <= c + s)%R ->
  (Rsqr (half_cosine_gain c s fe) + Rsqr (half_cosine_gain (c + s) s fe) = 1)%R.
Proof.
  intros Hs [H1 H2]. unfold half_cosine_gain.
  rewrite (Rltb_true (c - s) fe) by lra.
  rewrite (Rltb_true fe (c + s + s)) by lra.
  cbn [andb]. rewrite andb_true_r.
  destruct H1 as [H1 | <-]; [destruct H2 as [H2 | ->] |].
  - rewrite (Rltb_true fe (c + s)), (Rltb_true (c + s - s) fe) by lra.
    replace ((fe - (c + s)) / (2 * s) * PI)%R
      with (- (PI / 2 - (fe - c) / (2 * s) * PI))%R by (field; lra).
    rewrite cos_neg, cos_shift, Rplus_comm. apply sin2_cos2.
  - rewrite (Rltb_false (c + s) (c + s)), (Rltb_true (c + s - s) (c + s)) by lra.
    replace ((c + s - (c + s)) / (2 * s) * PI)%R with 0%R by (field; lra).
    rewrite cos_0, Rsqr_0, Rsqr_1. lra.
  - rewrite (Rltb_true c (c + s)), (Rltb_false (c + s - s) c) by lra.
    replace ((c - c) / (2 * s) * PI)%R with 0%R by (field; lra).
    rewrite cos_0, Rsqr_0, Rsqr_1. lra.
Qed.

Lemma half_cosine_gain_outside (c s fe : R) :
  (fe <= c - s \/ c + s <= fe)%R -> half_cosine_gain c s fe = 0%R.
Proof.
  intros H. unfold half_cosine_gain.
  destruct H as [H | H].
  - rewrite (Rltb_false (c - s) fe) by lra. reflexivity.
  - rewrite (Rltb_false fe (c + s)) by lra. now rewrite andb_false_r.
Qed.

Section CosineBank.

Variables (e : env) (L : Z) (bandwidth low_lim : R) (hi_lim samplerate : option R).

Let sr : R := Signal.get_samplerate e samplerate.
Let hi : R := Filter.hi_or_default hi_lim sr.
Let n : nat := Z.to_nat (erb_points bandwidth low_lim hi).
Let l : R := Filter._freq2erb low_lim.
Let h : R := Filter._freq2erb hi.
Let step : R := ((h - l) / INR (n - 1))%R.

Hypothesis rate_nonzero : sr <> 0%R.
Hypothesis length_nonzero : L <> 0%Z.
Hypothesis bandwidth_positive : (0 < bandwidth)%R.
Hypothesis limits : (0 <= low_lim < hi)%R.
Hypothesis points : 2 <= n.

Lemma step_positive : (0 < step)%R.
Proof.
  unfold step, h, l. pose proof (freq2erb_lt low_lim hi limits).
  apply Rdiv_lt_0_compat; [lra |]. apply lt_0_INR. lia.
Qed.

Lemma bank_returned :
  Filter.cos_filterbank e L bandwidth low_lim hi_lim samplerate
  = Ok (Filter.mk (Signal.mk (stored (cosine_bank L sr l h n)) sr) false,
        map Filter._erb2freq (interior_points l h n),
        (ln (Filter._erb2freq (Filter._freq2erb 1000 + step) / 1000) / ln 2)%R).
Proof.
  pose proof (cos_filterbank_returns e L bandwidth low_lim hi_lim samplerate) as E.
  cbv zeta in E. apply E; try assumption.
  pose proof (spacing_positive bandwidth bandwidth_positive). lra.
Qed.

Lemma nth_centre (i : nat) :
  i < n - 2 ->
  nth i (map Filter._erb2freq (interior_points l h n)) 0%R
  = Filter._erb2freq (l + INR (S i) * step).
Proof.
  intros Hi.
  rewrite (nth_indep _ 0%R (Filter._erb2freq 0%R))
    by now rewrite length_map, length_interior_points.
  rewrite (map_nth Filter._erb2freq). f_equal.
  unfold interior_points. fold step.
  rewrite (nth_indep _ 0%R ((fun j => (l + INR j * step)%R) 0))
    by now rewrite length_map, length_seq.
  rewrite (map_nth (fun j => (l + INR j * step)%R)), seq_nth by assumption.
  reflexivity.
Qed.

(** The spacing realised is wider than the spacing requested: [n]
    points leave [n - 1] intervals. *)
Lemma points_below_ratio :
  (INR (n - 1) * Filter.requested_spacing bandwidth < h - l)%R.
Proof.
  pose proof (spacing_positive bandwidth bandwidth_positive) as Hs.
  pose proof (py_round_near ((h - l) / Filter.requested_spacing bandwidth)) as [_ Hr].
  assert (Hn : INR (n - 1) = (IZR (erb_points bandwidth low_lim hi) - 1)%R).
  { rewrite minus_INR by lia. unfold n. rewrite INR_IZR_INZ, Z2Nat.id; [simpl; lra |].
    unfold n in points. lia. }
  rewrite Hn. unfold erb_points. fold l h.
  set (x := ((h - l) / Filter.requested_spacing bandwidth)%R) in *.
  assert (Hx : (h - l = x * Filter.requested_spacing bandwidth)%R).
  { unfold x. field. lra. }
  rewrite Hx. apply Rmult_lt_compat_r; lra.
Qed.

(** X23. Every gain of the bank that [cos_filterbank] returns lies
    between 0 and 1. *)
Theorem bank_gains_in_unit_interval :
  exists f centres bw,
    Filter.cos_filterbank e L bandwidth low_lim hi_lim samplerate = Ok (f, centres, bw)
    /\ Forall (Forall (fun v => 0 <= v <= 1)%R) (cols (Signal.data f)).
Proof.
  eexists. eexists. eexists. split; [apply bank_returned |].
  cbn [Filter.base Signal.data].
  assert (H : Forall (Forall (fun v => 0 <= v <= 1)%R) (cols (cosine_bank L sr l h n))).
  { unfold cosine_bank. cbn [cols]. fold step.
    apply Forall_forall. intros c Hc. apply in_map_iff in Hc as [centre [<- _]].
    unfold half_cosine. apply Forall_forall. intros v Hv.
    apply in_map_iff in Hv as [fe [<- _]].
    apply (half_cosine_gain_bounds centre step fe), step_positive. }
  unfold stored. destruct (shape0 (cosine_bank L sr l h n) <? shape1 (cosine_bank L sr l h n)).
  - apply Forall_transpose; [lra | exact H].
  - exact H.
Qed.

(** X24. At a frequency bin between two neighbouring centre
    frequencies, the squares of the gains of the two filters add up to
    1, and every other filter of the bank has gain 0 (for a bank that
    has no more filters than frequency bins). *)
Theorem neighbouring_bands_share_the_power :
  n - 2 <= Z.to_nat (L / 2 + 1) ->
  exists f centres bw,
    Filter.cos_filterbank e L bandwidth low_lim hi_lim samplerate = Ok (f, centres, bw)
    /\ forall r i,
         r < Filter.nfrequencies f -> i + 1 < Filter.nfilters f ->
         (nth i centres 0 <= nth r (bins_of L sr) 0 <= nth (i + 1) centres 0)%R ->
         (Rsqr (sample f r i) + Rsqr (sample f r (i + 1)) = 1)%R
         /\ forall j, j < Filter.nfilters f -> j <> i -> j <> i + 1 ->
                      sample f r j = 0%R.
Proof.
  intros Htall. eexists. eexists. eexists. split; [apply bank_returned |].
  rewrite stored_tall by (now rewrite shape0_cosine_bank, shape1_cosine_bank).
  unfold Filter.nfrequencies, Filter.nfilters, Signal.nsamples, Signal.nchannels, sample.
  cbn [Filter.base Signal.data].
  rewrite shape0_cosine_bank, shape1_cosine_bank.
  intros r i Hr Hi Hb.
  rewrite !nth_centre in Hb by lia.
  pose proof step_positive as Hstep.
  set (b := nth r (bins_of L sr) 0%R) in *.
  assert (Hlow : Filter._erb2freq l = low_lim)
    by (unfold l; apply erb2freq_freq2erb; lra).
  assert (Hpos : (0 <= Filter._erb2freq (l + INR (S i) * step))%R).
  { assert (H1 : (0 < INR (S i))%R) by (apply lt_0_INR; lia).
    left. apply (Rle_lt_trans _ low_lim); [lra |].
    rewrite <- Hlow at 1. apply erb2freq_increasing. nra. }
  assert (Hfe : (l + INR (S i) * step <= Filter._freq2erb b
                 <= l + INR (S i) * step + step)%R).
  { destruct Hb as [Hb1 Hb2]. split.
    - rewrite <- (freq2erb_erb2freq (l + INR (S i) * step)).
      apply freq2erb_le. lra.
    - replace (l + INR (S i) * step + step)%R with (l + INR (S (i + 1)) * step)%R
        by (rewrite (S_INR (i + 1)), (S_INR i), plus_INR; simpl; lra).
      rewrite <- (freq2erb_erb2freq (l + INR (S (i + 1)) * step)).
      apply freq2erb_le. lra. }
  split.
  - rewrite !sample_cosine_bank by lia. fold step. fold b.
    replace (l + INR (S (i + 1)) * step)%R with (l + INR (S i) * step + step)%R
      by (rewrite (S_INR (i + 1)), (S_INR i), plus_INR; simpl; lra).
    now apply neighbours_share_the_power.
  - intros j Hj Hji Hji'. rewrite sample_cosine_bank by lia. fold step. fold b.
    apply half_cosine_gain_outside.
    destruct (Nat.lt_ge_cases j i) as [Hlt | Hge].
    + right. assert (H1 : (INR (S j) + 1 <= INR (S i))%R).
      { rewrite <- S_INR. apply le_INR. lia. }
      nra.
    + left. assert (H1 : (INR (S i) + 2 <= INR (S j))%R).
      { replace 2%R with (INR 2) by (simpl; lra).
        rewrite <- plus_INR. apply le_INR. lia. }
      nra.
Qed.

(** X25. The bandwidth that [cos_filterbank] returns is wider than the
    bandwidth asked for: the spacing is stretched so that [n] points
    span the range with [n - 1] intervals. *)
Theorem realised_bandwidth_exceeds_request :
  exists f centres bw,
    Filter.cos_filterbank e L bandwidth low_lim hi_lim samplerate = Ok (f, centres, bw)
    /\ (bandwidth < bw)%R.
Proof.
  eexists. eexists. eexists. split; [apply bank_returned |].
  pose proof (spacing_positive bandwidth bandwidth_positive) as Hs.
  assert (Hstep : (Filter.requested_spacing bandwidth < step)%R).
  { pose proof points_below_ratio as Hp.
    assert (Hn : (0 < INR (n - 1))%R) by (apply lt_0_INR; lia).
    unfold step. apply (Rmult_lt_reg_r (INR (n - 1))); [assumption |].
    unfold Rdiv. rewrite Rmult_assoc, Rinv_l by lra. lra. }
  assert (Hpow : (0 < Rpower 2 bandwidth)%R) by (unfold Rpower; apply exp_pos).
  assert (Hf : (1000 * Rpower 2 bandwidth
                < Filter._erb2freq (Filter._freq2erb 1000 + step))%R).
  { rewrite <- (erb2freq_freq2erb (1000 * Rpower 2 bandwidth)) at 1 by nra.
    apply erb2freq_increasing. unfold Filter.requested_spacing in Hstep. lra. }
  assert (Hln : (bandwidth * ln 2
                 < ln (Filter._erb2freq (Filter._freq2erb 1000 + step) / 1000))%R).
  { rewrite <- (ln_exp (bandwidth * ln 2)). fold (Rpower 2 bandwidth).
    apply ln_increasing; [assumption |]. lra. }
  pose proof ln_lt_2 as H2.
  assert (Hl2 : (0 < ln 2)%R) by lra.
  apply (Rmult_lt_reg_r (ln 2)); [assumption |].
  unfold Rdiv at 1. rewrite Rmult_assoc, Rinv_l by lra. lra.
Qed.

(** X26. The centre frequencies that [cos_filterbank] returns, one per
    interior point, lie strictly between [low_lim] and [hi_lim] and
    grow strictly with the index. *)
Theorem centres_lie_between_limits :
  exists f centres bw,
    Filter.cos_filterbank e L bandwidth low_lim hi_lim samplerate = Ok (f, centres, bw)
    /\ length centres = n - 2
    /\ forall i, i < n - 2 ->
         (low_lim < nth i centres 0 < hi)%R
         /\ (i + 1 < n - 2 -> (nth i centres 0 < nth (i + 1) centres 0)%R).
Proof.
  eexists. eexists. eexists. split; [apply bank_returned |].
  split; [now rewrite length_map, length_interior_points |].
  pose proof step_positive as Hstep.
  assert (Hh : (h = l + INR (n - 1) * step)%R).
  { unfold step. field. apply not_0_INR. lia. }
  intros i Hi. rewrite nth_centre by exact Hi. split.
  - assert (Hlow : Filter._erb2freq l = low_lim)
      by (unfold l; apply erb2freq_freq2erb; lra).
    assert (Hhi : Filter._erb2freq h = hi)
      by (unfold h; apply erb2freq_freq2erb; lra).
    assert (H1 : (0 < INR (S i))%R) by (apply lt_0_INR; lia).
    assert (H2 : (INR (S i) < INR (n - 1))%R) by (apply lt_INR; lia).
    split.
    + rewrite <- Hlow at 1. apply erb2freq_increasing. nra.
    + rewrite <- Hhi. apply erb2freq_increasing. rewrite Hh. nra.
  - intros Hi'. rewrite nth_centre by lia. apply erb2freq_increasing.
    replace (i + 1) with (S i) by lia. rewrite (S_INR (S i)). nra.
Qed.

End CosineBank.

Lemma bank_gains_in_unit_interval_witness :
  exists f centres bw,
    Filter.cos_filterbank env0 5000 (1 / 3) 0 None None = Ok (f, centres, bw)
    /\ Forall (Forall (fun v => 0 <= v <= 1)%R) (cols (Signal.data f)).
Proof.
  pose proof default_bank_points as Hlo.
  apply (bank_gains_in_unit_interval env0 5000 (1 / 3) 0 None None);
    simpl; (lra || lia).
Defined.

Lemma neighbouring_bands_share_the_power_witness :
  exists f centres bw,
    Filter.cos_filterbank env0 5000 (1 / 3) 0 None None = Ok (f, centres, bw)
    /\ forall r i,
         r < Filter.nfrequencies f -> i + 1 < Filter.nfilters f ->
         (nth i centres 0 <= nth r (bins_of 5000 8000) 0 <= nth (i + 1) centres 0)%R ->
         (Rsqr (sample f r i) + Rsqr (sample f r (i + 1)) = 1)%R
         /\ forall j, j < Filter.nfilters f -> j <> i -> j <> i + 1 ->
                      sample f r j = 0%R.
Proof.
  pose proof default_bank_points as Hlo.
  pose proof default_bank_points_upper as Hup.
  apply (neighbouring_bands_share_the_power env0 5000 (1 / 3) 0 None None);
    simpl; (lra || lia).
Defined.

Lemma realised_bandwidth_exceeds_request_witness :
  exists f centres bw,
    Filter.cos_filterbank env0 5000 (1 / 3) 0 None None = Ok (f, centres, bw)
    /\ (1 / 3 < bw)%R.
Proof.
  pose proof default_bank_points as Hlo.
  apply (realised_bandwidth_exceeds_request env0 5000 (1 / 3) 0 None None);
    simpl; (lra || lia).
Defined.

Lemma centres_lie_between_limits_witness :
  exists f centres bw,
    Filter.cos_filterbank env0 5000 (1 / 3) 0 None None = Ok (f, centres, bw)
    /\ length centres = Z.to_nat (erb_points (1 / 3) 0 (8000 / 2)) - 2
    /\ forall i, i < Z.to_nat (erb_points (1 / 3) 0 (8000 / 2)) - 2 ->
         (0 < nth i centres 0 < 8000 / 2)%R
         /\ (i + 1 < Z.to_nat (erb_points (1 / 3) 0 (8000 / 2)) - 2 ->
             (nth i centres 0 < nth (i + 1) centres 0)%R).
Proof.
  pose proof default_bank_points as Hlo.
  apply (centres_lie_between_limits env0 5000 (1 / 3) 0 None None);
    simpl; (lra || lia).
Defined.

(** ** Saving and loading: names and shapes *)

Lemma string_length_append (s1 s2 : string) :
  String.length (s1 ++ s2) = String.length s1 + String.length s2.
Proof. induction s1 as [| c s1 IH]; simpl; [reflexivity | now rewrite IH]. Qed.

Lemma append_differs (s : string) : String.eqb s (s ++ ".npy") = false.
Proof.
  apply String.eqb_neq. intros H.
  apply (f_equal String.length) in H. rewrite string_length_append in H.
  simpl in H. lia.
Qed.

(** X27. [save] under a name that does not end in ".npy" writes the file
    with ".npy" appended, and [load] under the name given to [save]
    then fails with FileNotFoundError (no file of that name being
    there already): [load] needs the name with the suffix. *)
Theorem load_needs_the_name_save_wrote
        (e : env) (f : Filter.t) (filename : string) (st : store) :
  ends_with ".npy" filename = false -> st filename = None ->
  exists st',
    Filter.save f filename st = Ok st'
    /\ st' (filename ++ ".npy")%string <> None
    /\ Filter.load e filename st' = Raise (FileNotFoundError filename).
Proof.
  intros Hext Hst. eexists. split; [apply save_layout |].
  unfold Filter.load, numpy.load, numpy.save, npy_path. rewrite Hext.
  rewrite String.eqb_refl, append_differs, Hst. split; [discriminate | reflexivity].
Qed.

Lemma load_needs_the_name_save_wrote_witness :
  exists st',
    Filter.save tall_bank "bank" no_files = Ok st'
    /\ st' ("bank" ++ ".npy")%string <> None
    /\ Filter.load env0 "bank" st' = Raise (FileNotFoundError "bank").
Proof.
  apply (load_needs_the_name_save_wrote env0 tall_bank "bank" no_files); reflexivity.
Defined.

(** X28. A bank with more filters than rows comes back from [save] and
    [load] transposed: the data is the transpose, the numbers of filters
    and of rows are exchanged, the samplerate and the flag are kept. *)
Theorem wide_bank_comes_back_transposed
        (e : env) (f : Filter.t) (filename : string) (st : store) :
  Filter.ntaps f < Filter.nfilters f ->
  (Filter.fir f = true -> have_scipy e = true) ->
  exists st' g,
    Filter.save f filename st = Ok st'
    /\ Filter.load e (npy_path filename) st' = Ok g
    /\ Signal.data g = transpose 0%R (Signal.data f)
    /\ Filter.nfilters g = Filter.ntaps f
    /\ Filter.ntaps g = Filter.nfilters f
    /\ Signal.samplerate g = Signal.samplerate f
    /\ Filter.fir g = Filter.fir f.
Proof.
  intros Hwide Hsci. eexists. eexists. split; [apply save_layout |].
  split; [apply load_after_save; [lia | assumption] |].
  cbn [Filter.base Filter.fir Signal.data Signal.samplerate].
  unfold Filter.nfilters, Filter.ntaps, Signal.nchannels, Signal.nsamples in *.
  cbn [Filter.base Signal.data].
  rewrite stored_wide by exact Hwide.
  rewrite shape0_transpose, shape1_transpose. repeat split.
Qed.

Lemma wide_bank_comes_back_transposed_witness :
  exists st' g,
    Filter.save wide_bank "bank.npy" no_files = Ok st'
    /\ Filter.load env0 (npy_path "bank.npy") st' = Ok g
    /\ Signal.data g = transpose 0%R (Signal.data wide_bank)
    /\ Filter.nfilters g = Filter.ntaps wide_bank
    /\ Filter.ntaps g = Filter.nfilters wide_bank
    /\ Signal.samplerate g = Signal.samplerate wide_bank
    /\ Filter.fir g = Filter.fir wide_bank.
Proof.
  apply (wide_bank_comes_back_transposed env0 wide_bank "bank.npy" no_files).
  - shapes. lia.
  - discriminate.
Defined.

(** X29. A bank without filters is saved, but the file cannot be
    loaded: [load] reads the samplerate from the first column, which
    the file does not have, and raises IndexError. *)
Theorem bank_without_filters_is_not_loaded
        (e : env) (f : Filter.t) (filename : string) (st : store) :
  Filter.nfilters f = 0 ->
  exists st',
    Filter.save f filename st = Ok st'
    /\ Filter.load e (npy_path filename) st'
       = Raise (IndexError "index is out of bounds for axis 0").
Proof.
  intros HF. eexists. split; [apply save_layout |].
  unfold Filter.nfilters, Signal.nchannels, shape1 in HF.
  apply length_zero_iff_nil in HF. rewrite HF.
  unfold Filter.load, numpy.load, numpy.save. rewrite String.eqb_refl.
  reflexivity.
Qed.

Lemma bank_without_filters_is_not_loaded_witness :
  exists st',
    Filter.save empty_bank "bank.npy" no_files = Ok st'
    /\ Filter.load env0 (npy_path "bank.npy") st'
       = Raise (IndexError "index is out of bounds for axis 0").
Proof.
  apply (bank_without_filters_is_not_loaded env0 empty_bank "bank.npy" no_files).
  reflexivity.
Defined.
